(** * Cross-validated evaluation notebook (models.ipynb)

    A shallow embedding of the two evaluation pipelines of the notebook
    (magnetic ordering, topological phase): the k-fold loop that re-fits a
    loaded classifier, the rounded hold-out accuracy and the per-class
    report.

    Conventions of the embedding.
    - Python exceptions are values of [exn]; a call that may raise returns a
      [result].  A notebook cell is a function from the variables it mutates
      to the state it reached together with how it ended, so that what was
      printed and re-fitted before an exception stays visible.
    - a float64 is the rational it denotes, and every float operation is the
      exact operation followed by the rounding of the format ([B64.rnd]):
      the accuracy, precision, recall, F1, the sums behind [np.mean] and
      [np.std], [round] and the ['%.2f'] formats all act on such values.
      [np.sqrt] stays a parameter of the cells; [B64.sqrt] is its binary64
      value.  Infinities, NaN and the sign of zero are left out.
    - the classifier is the opaque fit/predict interface the notebook uses;
      everything the notebook calls from scikit-learn and NumPy around it
      (KFold, f1_score, accuracy_score, classification_report, np.mean,
      np.median, np.std, shuffle) is written out after the library code. *)

From Stdlib Require Import ZArith QArith Qround Qabs Qpower Lia Lqa.
From stdpp Require Import base list numbers strings pretty.

Local Open Scope nat_scope.
Local Open Scope list_scope.

(** ** Python exceptions *)

Module Py.

Inductive exn : Type :=
| ValueError
| IndexError.

Inductive result (A : Type) : Type :=
| Ok (a : A)
| Raise (e : exn).
Arguments Ok {A} a.
Arguments Raise {A} e.

Definition bind {A B} (r : result A) (k : A -> result B) : result B :=
  match r with
  | Ok a => k a
  | Raise e => Raise e
  end.

Definition is_ok {A} (r : result A) : bool :=
  match r with Ok _ => true | Raise _ => false end.

End Py.
Import Py.

#[global] Instance result_bind : MBind result :=
  fun A B k r => Py.bind r k.
#[global] Instance result_ret : MRet result := @Py.Ok.

(** ** NumPy: index arrays, fancy indexing, in-place shuffle *)

Module Np.

(** [np.arange(n)] *)
Definition arange (n : nat) : list nat := seq 0 n.

(** [a[idx]] with an integer index array: one row per index, in the order
    of [idx]; an index outside the array raises IndexError. *)
Fixpoint take_rows {A} (a : list A) (idx : list nat) : result (list A) :=
  match idx with
  | [] => Ok []
  | i :: rest =>
      match a !! i with
      | Some x => r ← take_rows a rest; Ok (x :: r)
      | None => Raise IndexError
      end
  end.

(** [buf[i], buf[j] = buf[j], buf[i]] *)
Definition swap {A} (i j : nat) (buf : list A) : list A :=
  match buf !! i, buf !! j with
  | Some a, Some b => <[i := b]> (<[j := a]> buf)
  | _, _ => buf
  end.

(** [RandomState.shuffle] on a one-dimensional array:
    [for i in reversed(range(1, n)): j = random_interval(i); swap(i, j)].
    [draw i] is the raw value the generator hands out at position [i]; it is
    reduced to the interval [0..i]. *)
Fixpoint shuffle_from {A} (draw : nat -> nat) (i : nat) (buf : list A)
  : list A :=
  match i with
  | 0 => buf
  | S i' => shuffle_from draw i' (swap i (draw i mod S i) buf)
  end.

Definition shuffle {A} (draw : nat -> nat) (buf : list A) : list A :=
  shuffle_from draw (length buf - 1) buf.

(** [a[mask]] with a boolean mask of the same length. *)
Fixpoint mask_select {A} (a : list A) (mask : list bool) : list A :=
  match a, mask with
  | x :: a', b :: mask' =>
      if b then x :: mask_select a' mask' else mask_select a' mask'
  | _, _ => []
  end.

End Np.

(** ** scikit-learn: KFold *)

Module KFold.

Record t : Type := { n_splits : nat; shuffle : bool }.

(** [KFold(n_splits=..., shuffle=...)]: fewer than two splits is refused. *)
Definition new (n_splits : nat) (shuffle : bool) : result t :=
  if n_splits <=? 1 then Raise ValueError
  else Ok {| n_splits := n_splits; shuffle := shuffle |}.

(** [fold_sizes = np.full(n_splits, n // n_splits)];
    [fold_sizes[:n % n_splits] += 1] *)
Definition fold_sizes (k n : nat) : list nat :=
  map (fun i => n / k + (if i <? n mod k then 1 else 0)) (seq 0 k).

(** The loop of [_iter_test_indices]: consecutive slices
    [indices[current : current + fold_size]]. *)
Fixpoint slices (indices : list nat) (sizes : list nat) : list (list nat) :=
  match sizes with
  | [] => []
  | s :: rest => take s indices :: slices (drop s indices) rest
  end.

Definition iter_test_indices (kf : t) (draw : nat -> nat) (n : nat)
  : list (list nat) :=
  let indices := Np.arange n in
  let indices := if shuffle kf then Np.shuffle draw indices else indices in
  slices indices (fold_sizes (n_splits kf) n).

(** [test_mask = np.zeros(n, bool); test_mask[test_index] = True] *)
Definition test_mask (n : nat) (test_index : list nat) : list bool :=
  foldr (fun i m => <[i := true]> m) (replicate n false) test_index.

(** [split(X, y)]: the lengths of [X] and [y] must agree, there must be at
    least [n_splits] samples; each fold yields
    [(indices[~mask], indices[mask])] with [indices = arange(n)], so both
    index arrays come out in increasing order. *)
Definition split (kf : t) (draw : nat -> nat) (n_X n_y : nat)
  : result (list (list nat * list nat)) :=
  if negb (n_X =? n_y) then Raise ValueError
  else if n_X <? n_splits kf then Raise ValueError
  else
    Ok (map (fun test_index =>
               let mask := test_mask n_X test_index in
               (Np.mask_select (Np.arange n_X) (map negb mask),
                Np.mask_select (Np.arange n_X) mask))
            (iter_test_indices kf draw n_X)).

End KFold.

(** ** IEEE 754 binary64

    The values of the format are the rationals [m * 2^e] with [|m| < 2^53]
    and [-1074 <= e]; the largest have no part in the notebook (every quantity
    is a count, a ratio of counts or a statistic of such ratios), so the
    overflow to infinity above [2^1024] is not modelled. *)

Module B64.

Local Open Scope Q_scope.

(** Nearest integer, ties to the even neighbour. *)
Definition round_half_even (x : Q) : Z :=
  let f := Qfloor x in
  match Qcompare (x - inject_Z f) (1 # 2) with
  | Lt => f
  | Gt => (f + 1)%Z
  | Eq => if Z.even f then f else (f + 1)%Z
  end.

Definition pow2 (e : Z) : Q := 2 ^ e.

(** The binary exponent of a positive [x]: [2^e <= x < 2^(e+1)]. *)
Definition ilog2 (x : Q) : Z :=
  let d := (Z.log2 (Qnum x) - Z.log2 (Zpos (Qden x)))%Z in
  if Qle_bool (pow2 d) x then d else (d - 1)%Z.

(** The exponent the format gives a positive [x]: its own, or -1022
    throughout the subnormal range. *)
Definition expo (x : Q) : Z := Z.max (ilog2 x) (-1022).

(** The spacing of the format around [x]: 52 fraction bits below the
    leading one. *)
Definition ulp (x : Q) : Q := pow2 (expo (Qabs x) - 52).

(** Round to nearest, ties to even: the rounding of every operation. *)
Definition rnd (x : Q) : Q :=
  if Qeq_bool x 0 then 0
  else Qred (inject_Z (round_half_even (x / ulp x)) * ulp x).

Definition add (x y : Q) : Q := rnd (x + y).
Definition sub (x y : Q) : Q := rnd (x - y).
Definition mul (x y : Q) : Q := rnd (x * y).
Definition div (x y : Q) : Q := rnd (x / y).

(** The correctly rounded square root: the significand is the integer
    square root of [x / ulp^2], moved up when [x / ulp^2] lies above the
    square of the midpoint.  (Of a negative number NumPy gives nan; here 0.) *)
Definition sqrt (x : Q) : Q :=
  if Qle_bool x 0 then 0
  else
    let u := pow2 (ilog2 x / 2 - 52) in
    let t := x / (u * u) in
    let m := Z.sqrt (Qfloor t) in
    let h := inject_Z m + (1 # 2) in
    let m' := match Qcompare t (h * h) with
              | Lt => m
              | Gt => (m + 1)%Z
              | Eq => if Z.even m then m else (m + 1)%Z
              end in
    Qred (inject_Z m' * u).

End B64.

(** ** NumPy statistics on float64 arrays *)

Module Stats.

Local Open Scope Q_scope.

(** A count as a float (exact below 2^53). *)
Definition of_nat (n : nat) : Q := inject_Z (Z.of_nat n).

(** The blocks of eight of the unrolled loop: [r[j] += a[i + j]]. *)
Fixpoint sum_blocks (fuel : nat) (r a : list Q) : list Q * list Q :=
  match fuel with
  | O => (r, a)
  | S fuel' =>
      if (length a <? 8)%nat then (r, a)
      else sum_blocks fuel' (zip_with B64.add r (take 8 a)) (drop 8 a)
  end.

(** NumPy's pairwise summation of a contiguous float array: the plain loop
    [res = 0.; res += a[i]] below eight entries; eight running sums, then
    [((r0 + r1) + (r2 + r3)) + ((r4 + r5) + (r6 + r7))] and the left-over
    entries, up to 128 entries; two halves beyond, the first a multiple
    of eight long. *)
Fixpoint pairwise_sum (fuel : nat) (a : list Q) : Q :=
  let n := length a in
  if (n <? 8)%nat then foldl B64.add 0 a
  else if (n <=? 128)%nat then
    match sum_blocks n (take 8 a) (drop 8 a) with
    | ([r0; r1; r2; r3; r4; r5; r6; r7], rest) =>
        foldl B64.add
          (B64.add (B64.add (B64.add r0 r1) (B64.add r2 r3))
                   (B64.add (B64.add r4 r5) (B64.add r6 r7)))
          rest
    | _ => 0
    end
  else
    match fuel with
    | O => 0
    | S fuel' =>
        let n2 := (n / 2)%nat in
        let n2 := (n2 - n2 mod 8)%nat in
        B64.add (pairwise_sum fuel' (take n2 a)) (pairwise_sum fuel' (drop n2 a))
    end.

(** [np.add.reduce(a)] *)
Definition sum (a : list Q) : Q := pairwise_sum (length a) a.

(** [np.mean(a)]: the sum divided by the size (nan on an empty array,
    here 0/0). *)
Definition mean (a : list Q) : Q := B64.div (sum a) (of_nat (length a)).

(** [np.mean] of a boolean array: the entries are added as 0.0 and 1.0, and
    a sum of such entries is their count, without rounding below 2^53. *)
Definition mean_bool (a : list bool) : Q :=
  B64.div (of_nat (length (filter (fun b => b = true) a))) (of_nat (length a)).

Fixpoint insert_sorted (x : Q) (l : list Q) : list Q :=
  match l with
  | [] => [x]
  | y :: r => if Qle_bool x y then x :: l else y :: insert_sorted x r
  end.

Definition sort (a : list Q) : list Q := foldr insert_sorted [] a.

(** [np.median(a)]: the middle of the sorted array, or the mean of the two
    middle entries when the size is even. *)
Definition median (a : list Q) : Q :=
  let s := sort a in
  let n := length s in
  if Nat.even n
  then mean [nth (n / 2 - 1) s 0; nth (n / 2) s 0]
  else nth (n / 2) s 0.

(** [np.var(a)] with the default [ddof=0]: [x = a - a.mean()], then
    [mean(x * x)]; the divisor is the size of the array. *)
Definition var (a : list Q) : Q :=
  let m := mean a in
  mean (map (fun x => B64.mul (B64.sub x m) (B64.sub x m)) a).

(** [np.std(a) = sqrt(np.var(a))]. *)
Definition std (sqrt : Q -> Q) (a : list Q) : Q := sqrt (var a).

End Stats.

(** ** Number formatting *)

Module Fmt.

Local Open Scope Z_scope.

(** Python's [round(x, ndigits)] on a float: the decimal with [ndigits]
    digits nearest to the value the float holds (ties to even), as a float.
    ([B64.rnd x] is [x] when [x] is a float, and the float next to [x]
    otherwise.) *)
Definition round (x : Q) (ndigits : nat) : Q :=
  let p := 10 ^ Z.of_nat ndigits in
  B64.rnd (Qmake (B64.round_half_even (B64.rnd x * inject_Z p)) (Z.to_pos p)).

Definition zero_pad (width : nat) (s : string) : string :=
  String.concat "" (replicate (width - String.length s) "0"%string) +:+ s.

(** ['%.df' % x] and ['{:.df}'.format(x)] on a float: sign, integer part, a
    point and exactly [d] digits, of the value the float holds rounded to
    [d] decimals (ties to even). *)
Definition fixed (d : nat) (x : Q) : string :=
  let f := B64.rnd x in
  let p := 10 ^ Z.of_nat d in
  let m := B64.round_half_even (Qabs f * inject_Z p) in
  (if Qlt_le_dec f 0 then "-" else "")%string
    +:+ pretty (m / p)
    +:+ (if Nat.eqb d 0 then "" else "." +:+ zero_pad d (pretty (m mod p)))%string.

End Fmt.

(** ** scikit-learn: metrics *)

Module Metrics.

Definition label : Type := Z.

Fixpoint insert_label (x : label) (l : list label) : list label :=
  match l with
  | [] => [x]
  | y :: r =>
      if (x <? y)%Z then x :: l
      else if (x =? y)%Z then l
      else y :: insert_label x r
  end.

(** [unique_labels(y_true, y_pred)]: the distinct labels of both arrays, in
    increasing order. *)
Definition unique_labels (y_true y_pred : list label) : list label :=
  foldr insert_label [] (y_true ++ y_pred).

Definition mem (x : label) (l : list label) : bool :=
  existsb (Z.eqb x) l.

Definition count_eq (x : label) (l : list label) : nat :=
  length (filter (fun y => y = x) l).

(** True positives of class [x]: positions where both arrays hold [x]. *)
Definition count_both (x : label) (y_true y_pred : list label) : nat :=
  length (filter (fun p => p.1 = x /\ p.2 = x) (zip y_true y_pred)).

Local Open Scope Q_scope.

(** [_prf_divide]: a ratio with a zero denominator is reported as 0 (and a
    warning). *)
Definition prf_divide (num den : nat) : Q :=
  if Nat.eqb den 0 then 0 else B64.div (Stats.of_nat num) (Stats.of_nat den).

Record prfs : Type :=
  { precision : Q; recall : Q; f1 : Q; support : nat }.

(** One class of [precision_recall_fscore_support] with [beta2 = 1.0]:
    [denom = beta2 * precision + recall; denom[denom == 0.] = 1];
    [f_score = (1 + beta2) * precision * recall / denom].  The products by
    [beta2 = 1.0] and by [1 + beta2 = 2.0] are exact in binary floating
    point; the other operations round. *)
Definition prfs_of (x : label) (y_true y_pred : list label) : prfs :=
  let tp_sum := count_both x y_true y_pred in
  let pred_sum := count_eq x y_pred in
  let true_sum := count_eq x y_true in
  let p := prf_divide tp_sum pred_sum in
  let r := prf_divide tp_sum true_sum in
  let denom := B64.add p r in
  let denom := if Qeq_bool denom 0 then 1 else denom in
  {| precision := p; recall := r;
     f1 := B64.div (B64.mul (2 * p) r) denom;
     support := true_sum |}.

Arguments prfs_of x%_Z y_true y_pred.

(** [_check_targets]: arrays of different lengths are refused. *)
Definition check_targets (y_true y_pred : list label) : result unit :=
  if Nat.eqb (length y_true) (length y_pred) then Ok tt else Raise ValueError.

(** [f1_score(y_true, y_pred, pos_label=...)] with the default
    [average='binary']: more than two distinct labels are refused, and so is
    a [pos_label] that is absent while two labels are present. *)
Definition f1_score (y_true y_pred : list label) (pos_label : label)
  : result Q :=
  _ ← check_targets y_true y_pred;
  let present_labels := unique_labels y_true y_pred in
  if Nat.ltb 2 (length present_labels) then Raise ValueError
  else if negb (mem pos_label present_labels)
          && Nat.leb 2 (length present_labels) then Raise ValueError
  else Ok (f1 (prfs_of pos_label y_true y_pred)).

Arguments f1_score (y_true y_pred)%_Z pos_label%_Z.

(** [accuracy_score(y_true, y_pred)]: [np.average(y_true == y_pred)]. *)
Definition accuracy_score (y_true y_pred : list label) : result Q :=
  _ ← check_targets y_true y_pred;
  Ok (Stats.mean_bool (zip_with Z.eqb y_true y_pred)).

Record report : Type :=
  { rows : list (string * prfs);
    accuracy : Q;
    macro_avg : prfs;
    weighted_avg : prfs }.

(** [average='micro']: the counts are added over the classes before the
    ratios are taken. *)
Definition micro (labels y_true y_pred : list label) : prfs :=
  let tp_sum := sum_list (map (fun x => count_both x y_true y_pred) labels) in
  let pred_sum := sum_list (map (fun x => count_eq x y_pred) labels) in
  let true_sum := sum_list (map (fun x => count_eq x y_true) labels) in
  let p := prf_divide tp_sum pred_sum in
  let r := prf_divide tp_sum true_sum in
  let denom := B64.add p r in
  let denom := if Qeq_bool denom 0 then 1 else denom in
  {| precision := p; recall := r;
     f1 := B64.div (B64.mul (2 * p) r) denom;
     support := true_sum |}.

(** [average='macro']: [np.average] of each column. *)
Definition macro (ps : list prfs) : prfs :=
  {| precision := Stats.mean (map precision ps);
     recall := Stats.mean (map recall ps);
     f1 := Stats.mean (map f1 ps);
     support := sum_list (map support ps) |}.

(** [average='weighted']: [np.average(column, weights=true_sum)], that is
    [np.multiply(column, weights).sum() / weights.sum()]. *)
Definition weighted (ps : list prfs) : prfs :=
  let total := sum_list (map support ps) in
  let avg (f : prfs -> Q) :=
    B64.div
      (Stats.sum (map (fun p => B64.mul (f p) (Stats.of_nat (support p))) ps))
      (Stats.of_nat total) in
  {| precision := avg precision; recall := avg recall; f1 := avg f1;
     support := total |}.

(** [classification_report(y_true, y_pred, target_names=...)]: the classes
    are [unique_labels(y_true, y_pred)]; as many names as classes are
    required; [rows = zip(target_names, per-class metrics)]; the accuracy
    line shows the micro-averaged F-score, which is the accuracy up to
    rounding. *)
Definition classification_report (y_true y_pred : list label)
    (target_names : list string) : result report :=
  _ ← check_targets y_true y_pred;
  let labels := unique_labels y_true y_pred in
  if negb (Nat.eqb (length labels) (length target_names))
  then Raise ValueError
  else
    let ps := map (fun l => prfs_of l y_true y_pred) labels in
    Ok {| rows := zip target_names ps;
          accuracy := f1 (micro labels y_true y_pred);
          macro_avg := macro ps;
          weighted_avg := weighted ps |}.

End Metrics.
Import Metrics.

(** ** The classifier object *)

(** What the notebook needs of the estimator it loads: [fit] mutates the
    object (here: returns the new object), [predict] reads it.  [predict]
    gives one label per row, and an estimator fitted on a non-empty
    training set predicts labels of that training set. *)
Class Classifier : Type :=
  { sample : Type;
    model : Type;
    fit : model -> list sample -> list label -> model;
    predict : model -> list sample -> list label;
    predict_length : forall m X, length (predict m X) = length X;
    predict_classes : forall m X y X' l,
      length X = length y -> y <> [] ->
      In l (predict (fit m X y) X') -> In l y }.

Module Estimator.
Section WithClassifier.
Context `{Classifier}.

(** [clf.fit(X, y)] behind the input validation: an empty [X] and arrays
    of different lengths are refused. *)
Definition fit_checked (clf : model) (X : list sample) (y : list label)
  : result model :=
  if Nat.eqb (length X) 0 then Raise ValueError
  else if negb (Nat.eqb (length X) (length y)) then Raise ValueError
  else Ok (fit clf X y).

(** [clf.predict(X)] behind the input validation. *)
Definition predict_checked (clf : model) (X : list sample)
  : result (list label) :=
  if Nat.eqb (length X) 0 then Raise ValueError
  else Ok (predict clf X).

(** [ClassifierMixin.score]: [accuracy_score(y, self.predict(X))]. *)
Definition score (clf : model) (X : list sample) (y : list label)
  : result Q :=
  y_pred ← predict_checked clf X;
  accuracy_score y y_pred.

End WithClassifier.
End Estimator.

(** ** Notebook cells: state and exceptions *)

(** A cell body runs on the variables it mutates; when a statement raises,
    the mutations and the lines printed so far stay. *)
Module Cell.

Definition t (S A : Type) : Type := S -> S * result A.

Definition ret {S A} (a : A) : t S A := fun s => (s, Ok a).

Definition bind {S A B} (c : t S A) (k : A -> t S B) : t S B :=
  fun s =>
    match c s with
    | (s', Ok a) => k a s'
    | (s', Raise e) => (s', Raise e)
    end.

Definition lift {S A} (r : result A) : t S A := fun s => (s, r).

Definition get {S} : t S S := fun s => (s, Ok s).

Definition modify {S} (f : S -> S) : t S unit := fun s => (f s, Ok tt).

(** [for x in l: body(x)] *)
Fixpoint for_each {S A} (l : list A) (body : A -> t S unit) : t S unit :=
  match l with
  | [] => ret tt
  | x :: rest => bind (body x) (fun _ => for_each rest body)
  end.

(** [enumerate(l)] *)
Definition enumerate {A} (l : list A) : list (nat * A) :=
  zip (seq 0 (length l)) l.

End Cell.

#[global] Instance cell_bind {S} : MBind (Cell.t S) :=
  fun A B k c => Cell.bind c k.
#[global] Instance cell_ret {S} : MRet (Cell.t S) := @Cell.ret S.

(** ** Magnetic ground state ordering (FM / AFM)

    Cells 6, 9 and 10 of the notebook: label 1 is FM, label 0 is AFM. *)

Module Magnetism.
Section Cells.
Context `{Classifier}.
Variable np_sqrt : Q -> Q.

Record state : Type :=
  { clf : model;
    fm_scores : list Q;
    afm_scores : list Q;
    stdout : list string }.

Definition set_clf (c : model) (st : state) : state :=
  {| clf := c; fm_scores := fm_scores st; afm_scores := afm_scores st;
     stdout := stdout st |}.

Definition append_fm_scores (x : Q) (st : state) : state :=
  {| clf := clf st; fm_scores := fm_scores st ++ [x];
     afm_scores := afm_scores st; stdout := stdout st |}.

Definition append_afm_scores (x : Q) (st : state) : state :=
  {| clf := clf st; fm_scores := fm_scores st;
     afm_scores := afm_scores st ++ [x]; stdout := stdout st |}.

Definition print (line : string) : Cell.t state unit :=
  Cell.modify (fun st =>
    {| clf := clf st; fm_scores := fm_scores st; afm_scores := afm_scores st;
       stdout := stdout st ++ [line] |}).

(** The body of the loop over [enumerate(kf.split(X_train, y_train))]. *)
Definition loop_body (X_train : list sample) (y_train : list label)
    (k : nat) (train test : list nat) : Cell.t state unit :=
  st ← Cell.get;
  X_fit ← Cell.lift (Np.take_rows X_train train);
  y_fit ← Cell.lift (Np.take_rows y_train train);
  fitted ← Cell.lift (Estimator.fit_checked (clf st) X_fit y_fit);
  _ ← Cell.modify (set_clf fitted);
  y_true ← Cell.lift (Np.take_rows y_train test);
  X_fold ← Cell.lift (Np.take_rows X_train test);
  y_pred ← Cell.lift (Estimator.predict_checked fitted X_fold);
  f1s_fm ← Cell.lift (f1_score y_true y_pred 1);
  y_true ← Cell.lift (Np.take_rows y_train test);
  X_fold ← Cell.lift (Np.take_rows X_train test);
  y_pred ← Cell.lift (Estimator.predict_checked fitted X_fold);
  f1s_afm ← Cell.lift (f1_score y_true y_pred 0);
  _ ← Cell.modify (append_fm_scores f1s_fm);
  _ ← Cell.modify (append_afm_scores f1s_afm);
  _ ← print ("[fold " +:+ pretty k +:+ "] FM score: "
               +:+ Fmt.fixed 3 f1s_fm);
  print ("[fold " +:+ pretty k +:+ "] AFM score: "
           +:+ Fmt.fixed 3 f1s_afm).

Definition summary (name : string) (scores : list Q) : string :=
  name +:+ " Mean: " +:+ Fmt.fixed 2 (Stats.mean scores)
       +:+ " median: " +:+ Fmt.fixed 2 (Stats.median scores)
       +:+ " stdev: " +:+ Fmt.fixed 2 (Stats.std np_sqrt scores).

(** The cross-validation cell, run on the loaded classifier.  The call
    [kf.get_n_splits(X_train, y_train)] only returns 5, and turning the two
    score lists into arrays before the summary changes no value. *)
Definition cross_validation (draw : nat -> nat)
    (X_train : list sample) (y_train : list label)
  : Cell.t state unit :=
  kf ← Cell.lift (KFold.new 5 true);
  folds ← Cell.lift (KFold.split kf draw (length X_train) (length y_train));
  _ ← Cell.for_each (Cell.enumerate folds)
        (fun '(k, (train, test)) => loop_body X_train y_train k train test);
  st ← Cell.get;
  _ ← print (summary "FM" (fm_scores st));
  print (summary "AFM" (afm_scores st)).

Definition init (loaded : model) : state :=
  {| clf := loaded; fm_scores := []; afm_scores := []; stdout := [] |}.

(** [round(clf.score(X_test, y_test), 2)] *)
Definition holdout_score (c : model) (X_test : list sample)
    (y_test : list label) : result Q :=
  acc ← Estimator.score c X_test y_test;
  Ok (Fmt.round acc 2).

(** [classification_report(y_test, clf.predict(X_test),
    target_names=["AFM", "FM"])] *)
Definition holdout_report (c : model) (X_test : list sample)
    (y_test : list label) : result report :=
  y_pred ← Estimator.predict_checked c X_test;
  classification_report y_test y_pred ["AFM"; "FM"]%string.

(** The cells in notebook order on "run all": cross-validate, score
    the held-out set, report.  A cell after a raising one is not run; its
    entry repeats the exception that stopped the run. *)
Definition pipeline (draw : nat -> nat) (loaded : model)
    (X_train : list sample) (y_train : list label)
    (X_test : list sample) (y_test : list label)
  : state * result Q * result report :=
  let (st, r) := cross_validation draw X_train y_train (init loaded) in
  let acc := _ ← r; holdout_score (clf st) X_test y_test in
  let rep := _ ← acc; holdout_report (clf st) X_test y_test in
  (st, acc, rep).

End Cells.
End Magnetism.

(** ** Magnetic topological phase (Topological / Trivial)

    Cells 13, 16 and 17 of the notebook: label 1 is Topological, label 0
    is Trivial. *)

Module Topology.
Section Cells.
Context `{Classifier}.
Variable np_sqrt : Q -> Q.

Record state : Type :=
  { clf : model;
    topo_scores : list Q;
    triv_scores : list Q;
    stdout : list string }.

Definition set_clf (c : model) (st : state) : state :=
  {| clf := c; topo_scores := topo_scores st; triv_scores := triv_scores st;
     stdout := stdout st |}.

Definition append_topo_scores (x : Q) (st : state) : state :=
  {| clf := clf st; topo_scores := topo_scores st ++ [x];
     triv_scores := triv_scores st; stdout := stdout st |}.

Definition append_triv_scores (x : Q) (st : state) : state :=
  {| clf := clf st; topo_scores := topo_scores st;
     triv_scores := triv_scores st ++ [x]; stdout := stdout st |}.

Definition print (line : string) : Cell.t state unit :=
  Cell.modify (fun st =>
    {| clf := clf st; topo_scores := topo_scores st; triv_scores := triv_scores st;
       stdout := stdout st ++ [line] |}).

(** The body of the loop over [enumerate(kf.split(X_train, y_train))]. *)
Definition loop_body (X_train : list sample) (y_train : list label)
    (k : nat) (train test : list nat) : Cell.t state unit :=
  st ← Cell.get;
  X_fit ← Cell.lift (Np.take_rows X_train train);
  y_fit ← Cell.lift (Np.take_rows y_train train);
  fitted ← Cell.lift (Estimator.fit_checked (clf st) X_fit y_fit);
  _ ← Cell.modify (set_clf fitted);
  y_true ← Cell.lift (Np.take_rows y_train test);
  X_fold ← Cell.lift (Np.take_rows X_train test);
  y_pred ← Cell.lift (Estimator.predict_checked fitted X_fold);
  f1s_topo ← Cell.lift (f1_score y_true y_pred 1);
  y_true ← Cell.lift (Np.take_rows y_train test);
  X_fold ← Cell.lift (Np.take_rows X_train test);
  y_pred ← Cell.lift (Estimator.predict_checked fitted X_fold);
  f1s_triv ← Cell.lift (f1_score y_true y_pred 0);
  _ ← Cell.modify (append_topo_scores f1s_topo);
  _ ← Cell.modify (append_triv_scores f1s_triv);
  _ ← print ("[fold " +:+ pretty k +:+ "] Topological score: "
               +:+ Fmt.fixed 3 f1s_topo);
  print ("[fold " +:+ pretty k +:+ "] Trivial score: "
           +:+ Fmt.fixed 3 f1s_triv).

Definition summary (name : string) (scores : list Q) : string :=
  name +:+ " Mean: " +:+ Fmt.fixed 2 (Stats.mean scores)
       +:+ " median: " +:+ Fmt.fixed 2 (Stats.median scores)
       +:+ " stdev: " +:+ Fmt.fixed 2 (Stats.std np_sqrt scores).

(** The cross-validation cell, run on the loaded classifier.  The call
    [kf.get_n_splits(X_train, y_train)] only returns 5, and turning the two
    score lists into arrays before the summary changes no value. *)
Definition cross_validation (draw : nat -> nat)
    (X_train : list sample) (y_train : list label)
  : Cell.t state unit :=
  kf ← Cell.lift (KFold.new 5 true);
  folds ← Cell.lift (KFold.split kf draw (length X_train) (length y_train));
  _ ← Cell.for_each (Cell.enumerate folds)
        (fun '(k, (train, test)) => loop_body X_train y_train k train test);
  st ← Cell.get;
  _ ← print (summary "Topological" (topo_scores st));
  print (summary "Trivial" (triv_scores st)).

Definition init (loaded : model) : state :=
  {| clf := loaded; topo_scores := []; triv_scores := []; stdout := [] |}.

(** [round(clf.score(X_test, y_test), 2)] *)
Definition holdout_score (c : model) (X_test : list sample)
    (y_test : list label) : result Q :=
  acc ← Estimator.score c X_test y_test;
  Ok (Fmt.round acc 2).

(** [classification_report(y_test, clf.predict(X_test),
    target_names=["Trivial", "Topological"])] *)
Definition holdout_report (c : model) (X_test : list sample)
    (y_test : list label) : result report :=
  y_pred ← Estimator.predict_checked c X_test;
  classification_report y_test y_pred ["Trivial"; "Topological"]%string.

(** The cells in notebook order on "run all": cross-validate, score
    the held-out set, report.  A cell after a raising one is not run; its
    entry repeats the exception that stopped the run. *)
Definition pipeline (draw : nat -> nat) (loaded : model)
    (X_train : list sample) (y_train : list label)
    (X_test : list sample) (y_test : list label)
  : state * result Q * result report :=
  let (st, r) := cross_validation draw X_train y_train (init loaded) in
  let acc := _ ← r; holdout_score (clf st) X_test y_test in
  let rep := _ ← acc; holdout_report (clf st) X_test y_test in
  (st, acc, rep).

End Cells.
End Topology.

(** ** The evaluator of the specification

    [cross_validate] and [evaluate_holdout] as the specification words them
    (section 4.1): the fold count, the two label codes and the class names
    are parameters.  The cells above are compared with these below. *)

Module Evaluator.
Section Evaluator.
Context `{Classifier}.
Variable np_sqrt : Q -> Q.

Record state : Type :=
  { clf : model;
    positive_scores : list Q;
    negative_scores : list Q;
    stdout : list string }.

Definition set_clf (c : model) (st : state) : state :=
  {| clf := c; positive_scores := positive_scores st;
     negative_scores := negative_scores st; stdout := stdout st |}.

Definition record_scores (p n : Q) (st : state) : state :=
  {| clf := clf st; positive_scores := positive_scores st ++ [p];
     negative_scores := negative_scores st ++ [n]; stdout := stdout st |}.

Definition print (lines : list string) : Cell.t state unit :=
  Cell.modify (fun st =>
    {| clf := clf st; positive_scores := positive_scores st;
       negative_scores := negative_scores st;
       stdout := stdout st ++ lines |}).

Definition fold_line (i : nat) (class_name : string) (f1 : Q) : string :=
  "[fold " +:+ pretty i +:+ "] " +:+ class_name +:+ " score: "
    +:+ Fmt.fixed 3 f1.

Definition summary_line (class_name : string) (scores : list Q) : string :=
  class_name +:+ " Mean: " +:+ Fmt.fixed 2 (Stats.mean scores)
    +:+ " median: " +:+ Fmt.fixed 2 (Stats.median scores)
    +:+ " stdev: " +:+ Fmt.fixed 2 (Stats.std np_sqrt scores).

(** Fold [i]: fit on all folds but [i], predict on fold [i], one F1 per
    polarity, record both. *)
Definition evaluate_fold (features : list sample) (labels : list label)
    (positive_label negative_label : label)
    (positive_name negative_name : string)
    (i : nat) (train test : list nat) : Cell.t state unit :=
  st ← Cell.get;
  X_fit ← Cell.lift (Np.take_rows features train);
  y_fit ← Cell.lift (Np.take_rows labels train);
  fitted ← Cell.lift (Estimator.fit_checked (clf st) X_fit y_fit);
  _ ← Cell.modify (set_clf fitted);
  y_true ← Cell.lift (Np.take_rows labels test);
  X_fold ← Cell.lift (Np.take_rows features test);
  y_pred ← Cell.lift (Estimator.predict_checked fitted X_fold);
  f1_positive ← Cell.lift (f1_score y_true y_pred positive_label);
  f1_negative ← Cell.lift (f1_score y_true y_pred negative_label);
  _ ← Cell.modify (record_scores f1_positive f1_negative);
  print [fold_line i positive_name f1_positive;
         fold_line i negative_name f1_negative].

Definition cross_validate (draw : nat -> nat)
    (features : list sample) (labels : list label) (k : nat)
    (positive_label negative_label : label)
    (positive_name negative_name : string) : Cell.t state unit :=
  kf ← Cell.lift (KFold.new k true);
  folds ← Cell.lift (KFold.split kf draw (length features) (length labels));
  _ ← Cell.for_each (Cell.enumerate folds)
        (fun '(i, (train, test)) =>
           evaluate_fold features labels positive_label negative_label
             positive_name negative_name i train test);
  st ← Cell.get;
  print [summary_line positive_name (positive_scores st);
         summary_line negative_name (negative_scores st)].

Definition init (classifier : model) : state :=
  {| clf := classifier; positive_scores := []; negative_scores := [];
     stdout := [] |}.

(** Overall accuracy rounded to two decimals and the per-class report
    under the supplied class names. *)
Definition evaluate_holdout (features : list sample) (labels : list label)
    (classifier : model) (class_names : list string)
  : result (Q * report) :=
  acc ← Estimator.score classifier features labels;
  y_pred ← Estimator.predict_checked classifier features;
  rep ← classification_report labels y_pred class_names;
  Ok (Fmt.round acc 2, rep).

End Evaluator.

Arguments evaluate_fold {_} features labels (positive_label negative_label)%_Z
  (positive_name negative_name)%_string i%_nat train test.
Arguments cross_validate {_} np_sqrt draw features labels k%_nat
  (positive_label negative_label)%_Z (positive_name negative_name)%_string.

End Evaluator.

(** ** One run of the loop as a function of its inputs

    The outcome of the fold loop written without the cell state: the
    estimator after each fold, the pair of F1 values each completed fold
    records, the lines printed, and how the loop ended.  The cells are
    proved to compute exactly this. *)

Module Run.
Section Run.
Context `{Classifier}.

Definition fold : Type := list nat * list nat.

(** The rows of [a] at the positions of [idx] (those that exist). *)
Definition rows {A} (a : list A) (idx : list nat) : list A :=
  omap (fun i => a !! i) idx.

(** The estimator once fold [f] has been fitted. *)
Definition refit (X : list sample) (y : list label) (c : model) (f : fold)
  : model :=
  fit c (rows X f.1) (rows y f.1).

(** The F1 value of fold [f] for the positive class [pos], when the
    estimator entered the fold as [c]. *)
Definition fold_f1 (X : list sample) (y : list label) (c : model)
    (f : fold) (pos : label) : Q :=
  f1 (prfs_of pos (rows y f.2) (predict (refit X y c f) (rows X f.2))).

(** One pass of the loop body: the estimator it leaves, and the two
    scores or the exception. *)
Definition step (X : list sample) (y : list label) (pl nl : label)
    (c : model) (f : fold) : model * result (Q * Q) :=
  match (X_fit ← Np.take_rows X f.1;
         y_fit ← Np.take_rows y f.1;
         Estimator.fit_checked c X_fit y_fit) with
  | Raise e => (c, Raise e)
  | Ok fitted =>
      (fitted,
       y_true ← Np.take_rows y f.2;
       X_fold ← Np.take_rows X f.2;
       y_pred ← Estimator.predict_checked fitted X_fold;
       p ← f1_score y_true y_pred pl;
       n ← f1_score y_true y_pred nl;
       Ok (p, n))
  end.

Fixpoint trace (X : list sample) (y : list label) (pl nl : label)
    (c : model) (fs : list fold) : model * list (Q * Q) * result unit :=
  match fs with
  | [] => (c, [], Ok tt)
  | f :: rest =>
      match step X y pl nl c f with
      | (c', Ok pn) =>
          let '(c'', pairs, r) := trace X y pl nl c' rest in
          (c'', pn :: pairs, r)
      | (c', Raise e) => (c', [], Raise e)
      end
  end.

Definition fold_line (i : nat) (class_name : string) (f1 : Q) : string :=
  "[fold " +:+ pretty i +:+ "] " +:+ class_name +:+ " score: "
    +:+ Fmt.fixed 3 f1.

(** The two lines of every completed fold, numbered from [i]. *)
Fixpoint fold_lines (pn nn : string) (i : nat) (pairs : list (Q * Q))
  : list string :=
  match pairs with
  | [] => []
  | (p, n) :: rest =>
      fold_line i pn p :: fold_line i nn n :: fold_lines pn nn (S i) rest
  end.

Definition summary_line (np_sqrt : Q -> Q) (class_name : string)
    (scores : list Q) : string :=
  class_name +:+ " Mean: " +:+ Fmt.fixed 2 (Stats.mean scores)
    +:+ " median: " +:+ Fmt.fixed 2 (Stats.median scores)
    +:+ " stdev: " +:+ Fmt.fixed 2 (Stats.std np_sqrt scores).

(** Everything the cell prints: the fold lines, then, when the loop ran
    to its end, one summary line per class. *)
Definition printed (np_sqrt : Q -> Q) (pn nn : string)
    (ps ns : list Q) (r : result unit) : list string :=
  fold_lines pn nn 0 (zip ps ns)
  ++ (if is_ok r then [summary_line np_sqrt pn ps; summary_line np_sqrt nn ns]
      else []).

(** The pairs of F1 values of a run in which nothing raises. *)
Fixpoint scores (X : list sample) (y : list label) (pl nl : label)
    (c : model) (fs : list fold) : list (Q * Q) :=
  match fs with
  | [] => []
  | f :: rest =>
      (fold_f1 X y c f pl, fold_f1 X y c f nl)
        :: scores X y pl nl (refit X y c f) rest
  end.

Record outcome : Type :=
  { final : model;
    pairs : list (Q * Q);
    ended : result unit }.

(** The whole cell: construct the splitter, split, loop. *)
Definition run (draw : nat -> nat) (X : list sample) (y : list label)
    (k : nat) (pl nl : label) (c : model) : outcome :=
  match (kf ← KFold.new k true;
         KFold.split kf draw (length X) (length y)) with
  | Raise e => {| final := c; pairs := []; ended := Raise e |}
  | Ok folds =>
      let '(c', ps, r) := trace X y pl nl c folds in
      {| final := c'; pairs := ps; ended := r |}
  end.

End Run.

Arguments fold_f1 {_} X y c f pos%_Z.
Arguments step {_} X y (pl nl)%_Z c f.
Arguments trace {_} X y (pl nl)%_Z c fs.
Arguments run {_} draw X y k%_nat (pl nl)%_Z c.
Arguments scores {_} X y (pl nl)%_Z c fs.

End Run.

(** ** A concrete estimator: one nearest neighbour on integer features *)

Module NearestNeighbour.

Definition closer (x : Z) (best cand : Z * label) : Z * label :=
  if (Z.abs (cand.1 - x) <? Z.abs (best.1 - x))%Z then cand else best.

Definition nearest (train : list (Z * label)) (x : Z) : label :=
  match train with
  | [] => 0%Z
  | p :: rest => (foldl (closer x) p rest).2
  end.

Definition nn_fit (_ : list (Z * label)) (X : list Z) (y : list label)
  : list (Z * label) := zip X y.

Definition nn_predict (m : list (Z * label)) (X : list Z) : list label :=
  map (nearest m) X.

End NearestNeighbour.
(** ** Vocabulary of the statements *)

(** The notebook's splitter: [KFold(n_splits=5, shuffle=True)]. *)
Definition kf5 : KFold.t := {| KFold.n_splits := 5; KFold.shuffle := true |}.

(** A label of the binary coding: 0 (AFM, Trivial) or 1 (FM, Topological). *)
Definition binary (l : label) : Prop := l = 0%Z \/ l = 1%Z.

Definition unit_interval (v : Q) : Prop := (0 <= v <= 1)%Q.

(** The sorted label sets a binary problem can show. *)
Definition bin_set (a b : bool) : list label :=
  (if a then [0%Z] else []) ++ (if b then [1%Z] else []).

(** The state of a cell as the tuple (estimator, positive scores, negative
    scores, printed lines). *)
Definition view_of `{Classifier} : Type :=
  (model * list Q * list Q * list string)%type.

Definition magnetism_view `{Classifier} (st : Magnetism.state) : view_of :=
  (Magnetism.clf st, Magnetism.fm_scores st, Magnetism.afm_scores st,
   Magnetism.stdout st).

Definition topology_view `{Classifier} (st : Topology.state) : view_of :=
  (Topology.clf st, Topology.topo_scores st, Topology.triv_scores st,
   Topology.stdout st).

Definition evaluator_view `{Classifier} (st : Evaluator.state) : view_of :=
  (Evaluator.clf st, Evaluator.positive_scores st,
   Evaluator.negative_scores st, Evaluator.stdout st).

(** What one pass of the loop body does to that tuple. *)
Definition advance `{Classifier} (pn nn : string) (i : nat) (v : view_of)
    (o : model * result (Q * Q)) : view_of :=
  let '(_, ps, ns, out) := v in
  match o with
  | (c, Ok (p, n)) =>
      (c, ps ++ [p], ns ++ [n],
       out ++ [Run.fold_line i pn p; Run.fold_line i nn n])
  | (c, Raise _) => (c, ps, ns, out)
  end.

(** A fold the loop body accepts: both index arrays are non-empty and within
    the [n] rows. *)
Definition good_fold (n : nat) (f : Run.fold) : Prop :=
  Forall (fun i => i < n) f.1 /\ f.1 <> []
  /\ Forall (fun i => i < n) f.2 /\ f.2 <> [].

(** A stand-in for [np.sqrt] to sixteen decimals, for running the model
    where the square root has no part in the statement. *)
Definition sqrt16 (x : Q) : Q :=
  Qmake (Z.sqrt (Qfloor (x * inject_Z (10 ^ 32)))) (Z.to_pos (10 ^ 16)).

(** ** Sample data for running the model *)

Module Sample.
Local Open Scope Z_scope.
Definition X_train : list Z := [1; 2; 3; 11; 12; 13; 4; 5; 6; 14; 15; 16].
Definition y_train : list label := [0; 0; 0; 1; 1; 1; 0; 0; 1; 1; 0; 1].
Definition X_test : list Z := [2; 12; 7; 20].
Definition y_test : list label := [0; 1; 1; 1].
Definition loaded : list (Z * label) := [(0, 0); (10, 1)].
Definition draw (i : nat) : nat := (7 * i + 3)%nat.
(** Forty rows with supports 2 and 38 and recalls 2/2 and 21/38. *)
Definition y_true40 : list label := replicate 2 0 ++ replicate 38 1.
Definition y_pred40 : list label :=
  replicate 2 0 ++ replicate 21 1 ++ replicate 17 0.
(** Forty rows of which 19 are predicted right. *)
Definition y_true19 : list label := replicate 19 0 ++ replicate 21 1.
Definition y_pred19 : list label := replicate 40 0.
End Sample.

Ltac solve_binary :=
  vm_compute;
  repeat (apply List.Forall_cons; [(by left) || (by right)|]);
  apply List.Forall_nil.

(** * Properties of the library code *)

(** ** Rounding to binary64 *)

Section Binary64.
Local Open Scope Q_scope.

Lemma round_half_even_comp x x' :
  x == x' -> B64.round_half_even x = B64.round_half_even x'.
Proof.
  intros Hx. unfold B64.round_half_even.
  rewrite (Qfloor_comp _ _ Hx).
  assert (x - inject_Z (Qfloor x') == x' - inject_Z (Qfloor x')) as ->
    by (by rewrite Hx).
  done.
Qed.

Lemma round_half_even_bound x :
  Qabs (inject_Z (B64.round_half_even x) - x) <= 1 # 2.
Proof.
  unfold B64.round_half_even.
  pose proof (Qfloor_le x) as Hlo. pose proof (Qlt_floor x) as Hhi.
  rewrite inject_Z_plus in Hhi. change (inject_Z 1) with 1 in Hhi.
  apply Qabs_Qle_condition.
  destruct (Qcompare_spec (x - inject_Z (Qfloor x)) (1 # 2)) as [He|Hl|Hg].
  - destruct (Z.even (Qfloor x)); rewrite ?inject_Z_plus;
      change (inject_Z 1) with 1; lra.
  - lra.
  - rewrite inject_Z_plus. change (inject_Z 1) with 1. lra.
Qed.

(** The value is the floor or the integer after it, and the floor when
    [x] is an integer. *)
Lemma round_half_even_cases x :
  B64.round_half_even x = Qfloor x
  \/ (B64.round_half_even x = (Qfloor x + 1)%Z /\ inject_Z (Qfloor x) < x).
Proof.
  unfold B64.round_half_even.
  destruct (Qcompare_spec (x - inject_Z (Qfloor x)) (1 # 2)) as [He|Hl|Hg].
  - destruct (Z.even (Qfloor x)); [by left|right]. split; [done|lra].
  - by left.
  - right. split; [done|lra].
Qed.

Lemma round_half_even_le x (n : Z) :
  x <= inject_Z n -> (B64.round_half_even x <= n)%Z.
Proof.
  intros Hx. pose proof (Qfloor_le x) as Hlo.
  destruct (round_half_even_cases x) as [->|[-> Hlt]].
  - rewrite Zle_Qle. lra.
  - assert (inject_Z (Qfloor x) < inject_Z n) as Hn by lra.
    rewrite <- Zlt_Qlt in Hn. lia.
Qed.

Lemma round_half_even_ge x (n : Z) :
  inject_Z n <= x -> (n <= B64.round_half_even x)%Z.
Proof.
  intros Hx. pose proof (Qfloor_resp_le _ _ Hx) as Hf.
  rewrite Qfloor_Z in Hf.
  destruct (round_half_even_cases x) as [->|[-> _]]; lia.
Qed.

Lemma round_half_even_mono x y :
  x <= y -> (B64.round_half_even x <= B64.round_half_even y)%Z.
Proof.
  intros Hxy. pose proof (Qfloor_resp_le _ _ Hxy) as Hf.
  destruct (Z.eq_dec (Qfloor x) (Qfloor y)) as [He|Hne].
  - unfold B64.round_half_even. rewrite He.
    destruct (Qcompare_spec (x - inject_Z (Qfloor y)) (1 # 2)) as [Hx|Hx|Hx];
      destruct (Qcompare_spec (y - inject_Z (Qfloor y)) (1 # 2)) as [Hy|Hy|Hy];
      try destruct (Z.even (Qfloor y)); try lia; lra.
  - apply Z.le_trans with (Qfloor y).
    + destruct (round_half_even_cases x) as [->|[-> _]]; lia.
    + destruct (round_half_even_cases y) as [->|[-> _]]; lia.
Qed.

Lemma pow2_pos e : 0 < B64.pow2 e.
Proof. by apply Qpower_0_lt. Qed.

Lemma pow2_add a b : B64.pow2 (a + b) == B64.pow2 a * B64.pow2 b.
Proof. unfold B64.pow2. by apply Qpower_plus. Qed.

Lemma pow2_le a b : (a <= b)%Z -> B64.pow2 a <= B64.pow2 b.
Proof. intros. by apply Qpower_le_compat_l. Qed.

Lemma pow2_lt_inv a b : B64.pow2 a < B64.pow2 b -> (a < b)%Z.
Proof. intros. by apply Qpower_lt_compat_l_inv with 2. Qed.

Lemma pow2_inject n : (0 <= n)%Z -> B64.pow2 n == inject_Z (2 ^ n).
Proof. intros Hn. unfold B64.pow2. by rewrite Zpower_Qpower. Qed.

Lemma pow2_opp a : B64.pow2 (- a) == / B64.pow2 a.
Proof. unfold B64.pow2. apply Qpower_opp. Qed.

Lemma Qabs_pos_eq x : 0 < x -> Qabs x = x.
Proof.
  destruct x as [[|p|p] d]; intros Hx; try done.
Qed.

(** [ilog2] is the binary exponent. *)
Lemma ilog2_spec x :
  0 < x -> B64.pow2 (B64.ilog2 x) <= x < B64.pow2 (B64.ilog2 x + 1).
Proof.
  intros Hx. destruct x as [a b].
  assert (Ha : (0 < a)%Z).
  { unfold Qlt in Hx. simpl in Hx. lia. }
  unfold B64.ilog2. cbn [Qnum Qden].
  set (la := Z.log2 a). set (lb := Z.log2 (Z.pos b)).
  destruct (Z.log2_spec a Ha) as [Ha1 Ha2].
  destruct (Z.log2_spec (Z.pos b) ltac:(lia)) as [Hb1 Hb2].
  fold la in Ha1, Ha2. fold lb in Hb1, Hb2.
  assert (Hla : (0 <= la)%Z) by apply Z.log2_nonneg.
  assert (Hlb : (0 <= lb)%Z) by apply Z.log2_nonneg.
  assert (Hq : a # b == inject_Z a / inject_Z (Z.pos b)) by apply Qmake_Qdiv.
  assert (Hbpos : 0 < inject_Z (Z.pos b)).
  { change 0 with (inject_Z 0). rewrite <- Zlt_Qlt. lia. }
  (* a / b < 2^(la + 1) / 2^lb *)
  assert (Hup : a # b < B64.pow2 (la - lb + 1)).
  { replace (la - lb + 1)%Z with ((la + 1) + - lb)%Z by lia.
    rewrite pow2_add, pow2_opp, !pow2_inject by lia.
    rewrite Hq. apply Qlt_shift_div_r; [done|].
    assert (Hp : 0 < inject_Z (2 ^ lb)).
    { change 0 with (inject_Z 0). rewrite <- Zlt_Qlt. lia. }
    assert (E : inject_Z (2 ^ (la + 1)) * / inject_Z (2 ^ lb) * inject_Z (Z.pos b)
                == inject_Z (2 ^ (la + 1)) * inject_Z (Z.pos b) / inject_Z (2 ^ lb)).
    { field. lra. }
    rewrite E. apply Qlt_shift_div_l; [done|].
    rewrite <- !inject_Z_mult. rewrite <- Zlt_Qlt.
    replace (Z.succ la) with (la + 1)%Z in Ha2 by lia.
    nia. }
  (* 2^la / 2^(lb + 1) < a / b *)
  assert (Hlo : B64.pow2 (la - lb - 1) <= a # b).
  { replace (la - lb - 1)%Z with (la + - (lb + 1))%Z by lia.
    rewrite pow2_add, pow2_opp, !pow2_inject by lia.
    rewrite Hq. apply Qle_shift_div_l; [done|].
    assert (Hp : 0 < inject_Z (2 ^ (lb + 1))).
    { change 0 with (inject_Z 0). rewrite <- Zlt_Qlt. lia. }
    assert (E : inject_Z (2 ^ la) * / inject_Z (2 ^ (lb + 1)) * inject_Z (Z.pos b)
                == inject_Z (2 ^ la) * inject_Z (Z.pos b) / inject_Z (2 ^ (lb + 1))).
    { field. lra. }
    rewrite E. apply Qle_shift_div_r; [done|].
    rewrite <- !inject_Z_mult. rewrite <- Zle_Qle.
    replace (Z.succ lb) with (lb + 1)%Z in Hb2 by lia.
    nia. }
  destruct (Qle_bool (B64.pow2 (la - lb)) (a # b)) eqn:Ht.
  - apply Qle_bool_iff in Ht. split; done.
  - split; [done|].
    replace (la - lb - 1 + 1)%Z with (la - lb)%Z by lia.
    apply Qnot_le_lt. intros Hc. apply Qle_bool_iff in Hc. congruence.
Qed.

Lemma ilog2_mono x y : 0 < x -> x <= y -> (B64.ilog2 x <= B64.ilog2 y)%Z.
Proof.
  intros Hx Hxy.
  destruct (ilog2_spec x Hx) as [Hx1 _].
  destruct (ilog2_spec y ltac:(lra)) as [_ Hy2].
  assert (Hlt : B64.pow2 (B64.ilog2 x) < B64.pow2 (B64.ilog2 y + 1)) by lra.
  apply pow2_lt_inv in Hlt. lia.
Qed.

Lemma ulp_pos_eq x : 0 < x -> B64.ulp x = B64.pow2 (B64.expo x - 52).
Proof. intros Hx. unfold B64.ulp. by rewrite Qabs_pos_eq. Qed.

Lemma rnd_pos_eq x :
  0 < x ->
  B64.rnd x
  == inject_Z (B64.round_half_even (x / B64.pow2 (B64.expo x - 52)))
     * B64.pow2 (B64.expo x - 52).
Proof.
  intros Hx. unfold B64.rnd.
  destruct (Qeq_bool x 0) eqn:Hz.
  { apply Qeq_bool_iff in Hz. lra. }
  rewrite Qred_correct. by rewrite ulp_pos_eq.
Qed.

Lemma rnd_zero x : x == 0 -> B64.rnd x = 0.
Proof.
  intros Hx. unfold B64.rnd.
  apply Qeq_bool_iff in Hx. by rewrite Hx.
Qed.

Lemma rnd_nonneg x : 0 <= x -> 0 <= B64.rnd x.
Proof.
  intros Hx. destruct (Qeq_dec x 0) as [Hz|Hnz].
  { by rewrite rnd_zero. }
  assert (Hpos : 0 < x) by lra.
  rewrite rnd_pos_eq by done.
  pose proof (pow2_pos (B64.expo x - 52)) as Hu.
  apply Qmult_le_0_compat; [|lra].
  change 0 with (inject_Z 0). rewrite <- Zle_Qle.
  apply round_half_even_ge. change (inject_Z 0) with 0.
  apply Qle_shift_div_l; [done|]. lra.
Qed.

(** A positive [x] rounds into [2^e, 2^(e+1)], [e] its exponent (into
    [0, 2^-1022] in the subnormal range). *)
Lemma rnd_upper x :
  0 < x -> B64.rnd x <= B64.pow2 (B64.expo x + 1).
Proof.
  intros Hx. rewrite rnd_pos_eq by done.
  pose proof (pow2_pos (B64.expo x - 52)) as Hu.
  destruct (ilog2_spec x Hx) as [_ Hhi].
  assert (Hle : B64.pow2 (B64.ilog2 x + 1) <= B64.pow2 (B64.expo x + 1)).
  { apply pow2_le. unfold B64.expo. lia. }
  assert (E : B64.pow2 (B64.expo x + 1)
              == inject_Z (2 ^ 53) * B64.pow2 (B64.expo x - 52)).
  { rewrite <- (pow2_inject 53) by lia. rewrite <- pow2_add.
    by replace (53 + (B64.expo x - 52))%Z with (B64.expo x + 1)%Z by lia. }
  rewrite E.
  apply Qmult_le_compat_r; [|lra].
  rewrite <- Zle_Qle. apply round_half_even_le.
  apply Qle_shift_div_r; [done|]. rewrite <- E. lra.
Qed.

Lemma rnd_lower x :
  0 < x -> (-1022 <= B64.ilog2 x)%Z -> B64.pow2 (B64.ilog2 x) <= B64.rnd x.
Proof.
  intros Hx He. rewrite rnd_pos_eq by done.
  assert (Heq : B64.expo x = B64.ilog2 x) by (unfold B64.expo; lia).
  rewrite Heq.
  pose proof (pow2_pos (B64.ilog2 x - 52)) as Hu.
  destruct (ilog2_spec x Hx) as [Hlo _].
  assert (E : B64.pow2 (B64.ilog2 x)
              == inject_Z (2 ^ 52) * B64.pow2 (B64.ilog2 x - 52)).
  { rewrite <- (pow2_inject 52) by lia. rewrite <- pow2_add.
    by replace (52 + (B64.ilog2 x - 52))%Z with (B64.ilog2 x) by lia. }
  rewrite E at 1.
  apply Qmult_le_compat_r; [|lra].
  rewrite <- Zle_Qle. apply round_half_even_ge.
  apply Qle_shift_div_l; [done|]. rewrite <- E. lra.
Qed.

(** Rounding is monotone. *)
Lemma rnd_mono x y : 0 <= x -> x <= y -> B64.rnd x <= B64.rnd y.
Proof.
  intros Hx Hxy. destruct (Qeq_dec x 0) as [Hz|Hnz].
  { rewrite (rnd_zero x) by done. apply rnd_nonneg. lra. }
  assert (Hxpos : 0 < x) by lra. assert (Hypos : 0 < y) by lra.
  pose proof (ilog2_mono x y Hxpos Hxy) as He.
  destruct (Z.eq_dec (B64.expo x) (B64.expo y)) as [Heq|Hne].
  - rewrite !rnd_pos_eq by done. rewrite Heq.
    pose proof (pow2_pos (B64.expo y - 52)) as Hu.
    apply Qmult_le_compat_r; [|lra].
    rewrite <- Zle_Qle. apply round_half_even_mono.
    apply Qmult_le_compat_r; [done|].
    apply Qlt_le_weak, Qinv_lt_0_compat. done.
  - assert (Hlt : (B64.expo x < B64.expo y)%Z) by (unfold B64.expo in *; lia).
    assert (Hy : (-1022 <= B64.ilog2 y)%Z /\ B64.expo y = B64.ilog2 y)
      by (unfold B64.expo in *; lia).
    destruct Hy as [Hy1 Hy2].
    apply Qle_trans with (B64.pow2 (B64.expo x + 1)); [by apply rnd_upper|].
    apply Qle_trans with (B64.pow2 (B64.ilog2 y)); [|by apply rnd_lower].
    apply pow2_le. lia.
Qed.

Lemma rnd_comp x y : 0 <= x -> x == y -> B64.rnd x == B64.rnd y.
Proof.
  intros Hx Hxy. apply Qle_antisym; apply rnd_mono; lra.
Qed.

Lemma rnd_one : B64.rnd 1 = 1.
Proof. by vm_compute. Qed.

Lemma rnd_unit x : 0 <= x <= 1 -> 0 <= B64.rnd x <= 1.
Proof.
  intros [Hlo Hhi]. split; [by apply rnd_nonneg|].
  rewrite <- rnd_one. by apply rnd_mono.
Qed.


Lemma round_half_even_inject (n : Z) : B64.round_half_even (inject_Z n) = n.
Proof.
  apply Z.le_antisymm.
  - apply round_half_even_le, Qle_refl.
  - apply round_half_even_ge, Qle_refl.
Qed.

Lemma ilog2_unique x e :
  B64.pow2 e <= x < B64.pow2 (e + 1) -> B64.ilog2 x = e.
Proof.
  intros [Hlo Hhi]. pose proof (pow2_pos e) as Hp.
  destruct (ilog2_spec x ltac:(lra)) as [Hlo' Hhi'].
  assert (H1 : B64.pow2 e < B64.pow2 (B64.ilog2 x + 1)) by lra.
  assert (H2 : B64.pow2 (B64.ilog2 x) < B64.pow2 (e + 1)) by lra.
  apply pow2_lt_inv in H1, H2. lia.
Qed.


(** A float is a fixed point of the rounding. *)
Lemma rnd_idempotent x : 0 <= x -> B64.rnd (B64.rnd x) == B64.rnd x.
Proof.
  intros Hx. destruct (Qeq_dec x 0) as [Hz|Hnz].
  { rewrite (rnd_zero x) by done. by rewrite rnd_zero. }
  assert (Hpos : 0 < x) by lra.
  pose proof (rnd_pos_eq x Hpos) as Hy.
  set (e := B64.expo x) in *. set (u := B64.pow2 (e - 52)) in *.
  assert (Hu : 0 < u) by apply pow2_pos.
  set (m := B64.round_half_even (x / u)) in *.
  destruct (ilog2_spec x Hpos) as [Hlo Hhi].
  assert (He : (-1022 <= e)%Z) by (unfold e, B64.expo; lia).
  assert (Htop : B64.pow2 (e + 1) == inject_Z (2 ^ 53) * u).
  { unfold u. rewrite <- (pow2_inject 53) by lia. rewrite <- pow2_add.
    by replace (53 + (e - 52))%Z with (e + 1)%Z by lia. }
  assert (Hbot : B64.pow2 e == inject_Z (2 ^ 52) * u).
  { unfold u. rewrite <- (pow2_inject 52) by lia. rewrite <- pow2_add.
    by replace (52 + (e - 52))%Z with e by lia. }
  assert (Hm0 : (0 <= m)%Z).
  { apply round_half_even_ge. change (inject_Z 0) with 0.
    apply Qle_shift_div_l; [done|]. lra. }
  assert (Hm1 : (m <= 2 ^ 53)%Z).
  { apply round_half_even_le. apply Qle_shift_div_r; [done|].
    rewrite <- Htop.
    apply Qle_trans with (B64.pow2 (B64.ilog2 x + 1)); [lra|].
    apply pow2_le. unfold e, B64.expo. lia. }
  destruct (Z.eq_dec m 0%Z) as [Hm|Hm].
  { assert (Hy0 : B64.rnd x == 0) by (rewrite Hy, Hm; ring).
    rewrite (rnd_zero (B64.rnd x)) by done. by rewrite Hy0. }
  assert (Hypos : 0 < B64.rnd x).
  { rewrite Hy. apply Qmult_lt_0_compat; [|done].
    change 0 with (inject_Z 0). rewrite <- Zlt_Qlt. lia. }
  assert (Hfix : forall e', B64.expo (B64.rnd x) = e' ->
            B64.rnd x == inject_Z (B64.round_half_even
                                     (B64.rnd x / B64.pow2 (e' - 52)))
                         * B64.pow2 (e' - 52) ->
            B64.rnd (B64.rnd x) == B64.rnd x).
  { intros e' He' Heq. rewrite (rnd_pos_eq (B64.rnd x) Hypos), He'.
    by rewrite <- Heq. }
  destruct (Z.eq_dec m (2 ^ 53)%Z) as [Hmax|Hmax].
  - (* the value is the next power of two *)
    assert (Hval : B64.rnd x == B64.pow2 (e + 1)) by (rewrite Hy, Hmax, Htop; ring).
    assert (Hil : B64.ilog2 (B64.rnd x) = (e + 1)%Z).
    { apply ilog2_unique. rewrite Hval. split; [apply Qle_refl|].
      apply Qpower_lt_compat_l; [lia|done]. }
    apply (Hfix (e + 1)%Z); [unfold B64.expo; lia|].
    assert (Hu' : B64.pow2 (e + 1 - 52) == 2 * u).
    { unfold u. replace (e + 1 - 52)%Z with (1 + (e - 52))%Z by lia.
      by rewrite pow2_add. }
    assert (Hq : B64.rnd x / B64.pow2 (e + 1 - 52) == inject_Z (2 ^ 52)).
    { rewrite Hval, Htop, Hu'.
      change (inject_Z (2 ^ 53)) with (2 * inject_Z (2 ^ 52)). field. lra. }
    rewrite (round_half_even_comp _ _ Hq), round_half_even_inject.
    rewrite Hval, Htop, Hu'.
    change (inject_Z (2 ^ 53)) with (2 * inject_Z (2 ^ 52)). ring.
  - (* same exponent *)
    assert (Hq : B64.rnd x / u == inject_Z m).
    { rewrite Hy. field. lra. }
    assert (Hsame : B64.expo (B64.rnd x) = e).
    { destruct (Z_le_gt_dec (-1022) (B64.ilog2 x)) as [Hn|Hs].
      - (* normal: 2^52 <= m *)
        assert (Hex : e = B64.ilog2 x) by (unfold e, B64.expo; lia).
        assert (Hm52 : (2 ^ 52 <= m)%Z).
        { apply round_half_even_ge. apply Qle_shift_div_l; [done|].
          rewrite <- Hbot, Hex. lra. }
        assert (Hil : B64.ilog2 (B64.rnd x) = e).
        { apply ilog2_unique. rewrite Hy, Hbot, Htop. split.
          - apply Qmult_le_compat_r; [|lra]. rewrite <- Zle_Qle. lia.
          - apply Qmult_lt_compat_r; [done|]. rewrite <- Zlt_Qlt. lia. }
        unfold B64.expo. lia.
      - (* subnormal *)
        assert (Hex : e = (-1022)%Z) by (unfold e, B64.expo; lia).
        assert (Hm52 : (m <= 2 ^ 52)%Z).
        { apply round_half_even_le. apply Qle_shift_div_r; [done|].
          rewrite <- Hbot.
          apply Qle_trans with (B64.pow2 (B64.ilog2 x + 1)); [lra|].
          apply pow2_le. lia. }
        destruct (ilog2_spec _ Hypos) as [Hlo' _].
        assert (Hlt : B64.pow2 (B64.ilog2 (B64.rnd x)) < B64.pow2 (e + 1)).
        { apply Qle_lt_trans with (B64.rnd x); [done|].
          rewrite Hy, Htop. apply Qmult_lt_compat_r; [done|].
          rewrite <- Zlt_Qlt. lia. }
        apply pow2_lt_inv in Hlt. unfold B64.expo. lia. }
    apply (Hfix e Hsame). fold u.
    rewrite (round_half_even_comp _ _ Hq), round_half_even_inject. exact Hy.
Qed.
End Binary64.

(** ** The shuffle permutes its array *)

Section Shuffle.
Context {A : Type}.
Implicit Types (buf : list A).

Lemma swap_length i j buf : length (Np.swap i j buf) = length buf.
Proof.
  unfold Np.swap. repeat case_match; auto.
  by rewrite !length_insert.
Qed.

Lemma swap_lookup i j buf x :
  i < length buf -> j < length buf ->
  Np.swap i j buf !! x
  = buf !! (if decide (x = i) then j else if decide (x = j) then i else x).
Proof.
  intros Hi Hj. unfold Np.swap.
  destruct (lookup_lt_is_Some_2 buf i Hi) as [a Ha].
  destruct (lookup_lt_is_Some_2 buf j Hj) as [b Hb].
  rewrite Ha, Hb.
  destruct (decide (x = i)) as [->|Hxi].
  - rewrite list_lookup_insert_eq by (by rewrite length_insert). done.
  - rewrite list_lookup_insert_ne by done.
    destruct (decide (x = j)) as [->|Hxj].
    + by rewrite list_lookup_insert_eq.
    + by rewrite list_lookup_insert_ne.
Qed.

Lemma swap_Permutation i j buf : Np.swap i j buf ≡ₚ buf.
Proof.
  destruct (decide (i < length buf)) as [Hi|Hi]; cycle 1.
  { unfold Np.swap. rewrite (lookup_ge_None_2 buf i) by lia. done. }
  destruct (decide (j < length buf)) as [Hj|Hj]; cycle 1.
  { unfold Np.swap. rewrite (lookup_ge_None_2 buf j) by lia.
    by case_match. }
  apply Permutation_inj. split; [apply swap_length|].
  exists (fun x => if decide (x = i) then j
                   else if decide (x = j) then i else x).
  split.
  - intros x y. repeat case_decide; intros; subst; congruence.
  - intros x. by apply swap_lookup.
Qed.

Lemma shuffle_from_Permutation draw i buf :
  Np.shuffle_from draw i buf ≡ₚ buf.
Proof.
  revert buf. induction i as [|i IH]; intros buf; simpl; [done|].
  rewrite IH. apply swap_Permutation.
Qed.

Lemma shuffle_Permutation draw buf : Np.shuffle draw buf ≡ₚ buf.
Proof. apply shuffle_from_Permutation. Qed.
End Shuffle.

(** ** Selection by a boolean mask *)

Section Masks.
Context {A : Type}.

Lemma mask_select_elem_of (a : list A) mask x :
  x ∈ Np.mask_select a mask
  <-> exists j, a !! j = Some x /\ mask !! j = Some true.
Proof.
  revert mask. induction a as [|y a IH]; intros [|b mask]; simpl.
  - split; [by intros ?%elem_of_nil|by intros (j&?&?)].
  - split; [by intros ?%elem_of_nil|by intros (j&?&?)].
  - split; [by intros ?%elem_of_nil|by intros (j&?&?)].
  - destruct b.
    + rewrite elem_of_cons, IH. split.
      * intros [->|(j&?&?)]; [by exists 0|by exists (S j)].
      * intros ([|j]&?&?); simplify_eq/=; [by left|right; eauto].
    + rewrite IH. split.
      * intros (j&?&?). by exists (S j).
      * intros ([|j]&?&?); simplify_eq/=. eauto.
Qed.

Lemma mask_select_sublist (a : list A) mask :
  Np.mask_select a mask `sublist_of` a.
Proof.
  revert mask. induction a as [|y a IH]; intros [|b mask]; simpl;
    try apply sublist_nil_l.
  destruct b; [by apply sublist_skip|by apply sublist_cons].
Qed.

Lemma mask_select_complement (a : list A) mask :
  length mask = length a ->
  Np.mask_select a (map negb mask) ++ Np.mask_select a mask ≡ₚ a.
Proof.
  revert mask. induction a as [|y a IH]; intros [|b mask]; simpl; try done.
  intros [= Hlen]. destruct b; simpl.
  - rewrite <- Permutation_middle. by rewrite IH.
  - by rewrite IH.
Qed.
End Masks.

(** ** KFold: test masks, slices, fold sizes *)

Lemma test_mask_length n t : length (KFold.test_mask n t) = n.
Proof.
  unfold KFold.test_mask. induction t as [|i t IH]; simpl.
  - by rewrite length_replicate.
  - by rewrite length_insert.
Qed.

Lemma test_mask_lookup n t i :
  i < n -> KFold.test_mask n t !! i = Some (bool_decide (i ∈ t)).
Proof.
  intros Hi. induction t as [|j t IH]; simpl.
  - unfold KFold.test_mask; simpl. rewrite lookup_replicate_2 by done.
    done.
  - unfold KFold.test_mask; simpl. fold (KFold.test_mask n t).
    destruct (decide (j = i)) as [->|Hne].
    + rewrite list_lookup_insert_eq by (by rewrite test_mask_length).
      f_equal. symmetry. apply bool_decide_eq_true. by left.
    + rewrite list_lookup_insert_ne by done. rewrite IH. f_equal.
      apply bool_decide_ext. rewrite elem_of_cons. intuition congruence.
Qed.

Lemma test_indices_elem_of n t x :
  x ∈ Np.mask_select (Np.arange n) (KFold.test_mask n t) <-> x < n /\ x ∈ t.
Proof.
  rewrite mask_select_elem_of. unfold Np.arange. split.
  - intros (j & [-> ?]%lookup_seq & Hm). simpl in *.
    rewrite test_mask_lookup in Hm by done.
    injection Hm as Hm%bool_decide_eq_true. done.
  - intros [Hx Hin]. exists x. split; [by apply lookup_seq|].
    rewrite test_mask_lookup by done. f_equal. by apply bool_decide_eq_true.
Qed.

Lemma test_indices_Permutation n t :
  NoDup t -> Forall (fun i => i < n) t ->
  Np.mask_select (Np.arange n) (KFold.test_mask n t) ≡ₚ t.
Proof.
  intros Hnd Hlt. apply NoDup_Permutation; [|done|].
  - apply (sublist_NoDup _ (Np.arange n)); [apply NoDup_seq|].
    apply mask_select_sublist.
  - intros x. rewrite test_indices_elem_of.
    rewrite Forall_forall in Hlt. split; [tauto|]. intros ?; split; auto.
Qed.

Lemma slices_concat indices sizes :
  sum_list sizes = length indices ->
  concat (KFold.slices indices sizes) = indices.
Proof.
  revert indices. induction sizes as [|s sizes IH]; intros indices; simpl.
  - intros Hlen. symmetry. by apply nil_length_inv.
  - intros Hlen. rewrite IH by (rewrite length_drop; lia).
    apply take_drop.
Qed.

Lemma slices_length indices sizes :
  length (KFold.slices indices sizes) = length sizes.
Proof.
  revert indices. induction sizes as [|s sizes IH]; intros; simpl; auto.
Qed.

Lemma slices_lookup indices sizes i s :
  sizes !! i = Some s ->
  KFold.slices indices sizes !! i
  = Some (take s (drop (sum_list (take i sizes)) indices)).
Proof.
  revert indices i. induction sizes as [|s' sizes IH]; intros indices [|i];
    simpl; try done.
  - by intros [= ->].
  - intros Hs. rewrite (IH _ _ Hs). by rewrite drop_drop.
Qed.

Lemma fold_sizes_sum_from q r a k :
  sum_list (map (fun i => q + (if i <? r then 1 else 0)) (seq a k))
  = k * q + (Nat.min (a + k) r - Nat.min a r).
Proof.
  revert a. induction k as [|k IH]; intros a; simpl; [lia|].
  rewrite IH. destruct (Nat.ltb_spec a r); lia.
Qed.

Lemma fold_sizes_sum k n : 0 < k -> sum_list (KFold.fold_sizes k n) = n.
Proof.
  intros Hk. unfold KFold.fold_sizes. rewrite fold_sizes_sum_from.
  pose proof (Nat.mod_upper_bound n k ltac:(lia)).
  pose proof (Nat.div_mod_eq n k). simpl. nia.
Qed.

Lemma fold_sizes_length k n : length (KFold.fold_sizes k n) = k.
Proof. unfold KFold.fold_sizes. by rewrite length_map, length_seq. Qed.

Lemma fold_sizes_lookup k n i :
  i < k ->
  KFold.fold_sizes k n !! i = Some (n / k + (if i <? n mod k then 1 else 0)).
Proof.
  intros Hi. unfold KFold.fold_sizes. rewrite list_lookup_fmap.
  by rewrite lookup_seq_lt.
Qed.

Lemma fold_sizes_take_sum k n i :
  i <= k ->
  sum_list (take i (KFold.fold_sizes k n)) = i * (n / k) + Nat.min i (n mod k).
Proof.
  intros Hi. unfold KFold.fold_sizes.
  rewrite <- fmap_take, take_seq, Nat.min_l by done.
  rewrite fold_sizes_sum_from. simpl. lia.
Qed.

Lemma concat_Permutation_Forall2 {A} (ls ks : list (list A)) :
  Forall2 (≡ₚ) ls ks -> concat ls ≡ₚ concat ks.
Proof. induction 1 as [|l k ls ks Hlk _ IH]; simpl; [done|]. by rewrite Hlk, IH. Qed.

Lemma slices_Forall (P : nat -> Prop) indices sizes :
  Forall P indices -> Forall (Forall P) (KFold.slices indices sizes).
Proof.
  revert indices. induction sizes as [|s sizes IH]; intros indices HP; simpl.
  - constructor.
  - constructor; [by apply Forall_take|]. apply IH. by apply Forall_drop.
Qed.

Lemma slices_NoDup indices sizes :
  NoDup indices -> Forall NoDup (KFold.slices indices sizes).
Proof.
  revert indices. induction sizes as [|s sizes IH]; intros indices HP; simpl.
  - constructor.
  - constructor.
    + eapply sublist_NoDup; [done|apply sublist_take].
    + apply IH. eapply sublist_NoDup; [done|apply sublist_drop].
Qed.

Lemma kfold_split_spec (k : nat) (draw : nat -> nat) (n : nat) :
  0 < k <= n ->
  exists folds,
    KFold.split {| KFold.n_splits := k; KFold.shuffle := true |} draw n n
    = Ok folds
    /\ length folds = k
    /\ Np.shuffle draw (Np.arange n) ≡ₚ seq 0 n
    /\ concat (map snd folds) ≡ₚ seq 0 n
    /\ NoDup (concat (map snd folds))
    /\ forall i train test, folds !! i = Some (train, test) ->
         test ≡ₚ take (n / k + (if i <? n mod k then 1 else 0))
                   (drop (i * (n / k) + Nat.min i (n mod k))
                      (Np.shuffle draw (Np.arange n)))
         /\ length test = n / k + (if i <? n mod k then 1 else 0)
         /\ train ++ test ≡ₚ seq 0 n.
Proof.
  intros [Hk Hn].
  set (shuffled := Np.shuffle draw (Np.arange n)).
  assert (Hperm : shuffled ≡ₚ seq 0 n) by apply shuffle_Permutation.
  assert (Hlen : length shuffled = n).
  { by rewrite Hperm, length_seq. }
  assert (Hnd : NoDup shuffled).
  { rewrite Hperm. apply NoDup_seq. }
  assert (Hlt : Forall (fun i => i < n) shuffled).
  { rewrite Hperm. apply Forall_forall. intros x [_ ?]%elem_of_seq. lia. }
  unfold KFold.split. rewrite Nat.eqb_refl. simpl.
  destruct (Nat.ltb_spec n k) as [?|_]; [lia|].
  eexists. split; [reflexivity|].
  unfold KFold.iter_test_indices; simpl. fold shuffled.
  set (sl := KFold.slices shuffled (KFold.fold_sizes k n)).
  assert (Htests : Forall2 (≡ₚ)
    (map snd (map (fun t => (Np.mask_select (Np.arange n)
                              (map negb (KFold.test_mask n t)),
                             Np.mask_select (Np.arange n)
                              (KFold.test_mask n t))) sl)) sl).
  { rewrite <- list_fmap_compose.
    apply Forall2_fmap_l, Forall_Forall2_diag.
    pose proof (slices_NoDup shuffled (KFold.fold_sizes k n) Hnd) as H1.
    pose proof (slices_Forall _ shuffled (KFold.fold_sizes k n) Hlt) as H2.
    fold sl in H1, H2. rewrite Forall_forall in H1, H2.
    apply Forall_forall. intros t Ht. simpl.
    apply test_indices_Permutation; auto. }
  assert (Hcat : concat (map snd (map (fun t => (Np.mask_select (Np.arange n)
                              (map negb (KFold.test_mask n t)),
                             Np.mask_select (Np.arange n)
                              (KFold.test_mask n t))) sl)) ≡ₚ seq 0 n).
  { rewrite (concat_Permutation_Forall2 _ _ Htests). unfold sl.
    rewrite slices_concat; [done|]. by rewrite fold_sizes_sum, Hlen. }
  split; [|split; [done|split; [done|split]]].
  - rewrite length_map. unfold sl. by rewrite slices_length, fold_sizes_length.
  - rewrite Hcat. apply NoDup_seq.
  - intros i train test Hi.
    set (size := n / k + (if i <? n mod k then 1 else 0)).
    set (start := i * (n / k) + Nat.min i (n mod k)).
    rewrite list_lookup_fmap in Hi.
    destruct (sl !! i) as [t|] eqn:Ht; [|done]. simpl in Hi.
    injection Hi as <- <-.
    assert (Hik : i < k).
    { apply lookup_lt_Some in Ht. unfold sl in Ht.
      by rewrite slices_length, fold_sizes_length in Ht. }
    unfold sl in Ht.
    rewrite (slices_lookup _ _ _ size) in Ht by (by apply fold_sizes_lookup).
    rewrite fold_sizes_take_sum in Ht by lia. fold start in Ht.
    injection Ht as Ht.
    assert (Hsz : length (take size (drop start shuffled)) = size).
    { rewrite length_take, length_drop, Hlen.
      pose proof (Nat.mod_upper_bound n k ltac:(lia)).
      pose proof (Nat.div_mod_eq n k).
      subst size start. destruct (Nat.ltb_spec i (n mod k)); nia. }
    assert (Htest : Np.mask_select (Np.arange n) (KFold.test_mask n t) ≡ₚ t).
    { subst t. apply test_indices_Permutation.
      - eapply sublist_NoDup; [done|].
        etrans; [apply sublist_take|apply sublist_drop].
      - by apply Forall_take, Forall_drop. }
    split; [by rewrite Htest, <- Ht|].
    split; [by rewrite Htest, <- Ht|].
    apply mask_select_complement.
    by rewrite test_mask_length, length_seq.
Qed.


(** ** The cells compute the run

    Each loop body is one [Run.step], each loop one [Run.trace], each
    cross-validation cell one [Run.run] followed by the summary lines. *)

Ltac unfold_cell :=
  unfold mbind, cell_bind, Cell.bind, Cell.lift, Cell.get, Cell.modify,
    mret, cell_ret, Cell.ret.

Section Simulation.
Context `{Classifier}.
Variable np_sqrt : Q -> Q.
Variables (X : list sample) (y : list label).

Section Loop.
Context {S : Type}.
Variable view : S -> view_of.
Variable body : nat * Run.fold -> Cell.t S unit.
Variables (pl nl : label) (pn nn : string).

Hypothesis body_step : forall i f s,
  let o := Run.step X y pl nl (view s).1.1.1 f in
  (body (i, f) s).2 = (_ ← o.2; Ok tt)
  /\ view (body (i, f) s).1 = advance pn nn i (view s) o.

Lemma for_each_trace fs i s :
  let '(c, pairs, r) := Run.trace X y pl nl (view s).1.1.1 fs in
  let s' := (Cell.for_each (zip (seq i (length fs)) fs) body s) in
  s'.2 = r
  /\ view s'.1
     = (c, (view s).1.1.2 ++ map fst pairs, (view s).1.2 ++ map snd pairs,
        (view s).2 ++ Run.fold_lines pn nn i pairs).
Proof.
  revert i s. induction fs as [|f fs IH]; intros i s; simpl.
  - rewrite !app_nil_r. by destruct (view s) as [[[??]?]?].
  - destruct (body_step i f s) as [Hres Hview]. simpl in *.
    unfold Cell.bind.
    destruct (body (i, f) s) as [s1 r1]. simpl in *.
    destruct (Run.step X y pl nl (view s).1.1.1 f) as [c1 [[p n]|e]];
      simpl in *; subst r1.
    + specialize (IH (Datatypes.S i) s1). rewrite Hview in IH.
      destruct (view s) as [[[c0 ps] ns] out]. simpl in *.
      destruct (Run.trace X y pl nl c1 fs) as [[c2 pairs] r].
      destruct IH as [-> ->]. split; [done|]. simpl.
      by rewrite <- !(assoc_L (++)).
    + split; [done|]. simpl. rewrite Hview.
      destruct (view s) as [[[c0 ps] ns] out]. simpl.
      by rewrite !app_nil_r.
Qed.
End Loop.

Lemma magnetism_body_step k train test st :
  Magnetism.loop_body X y k train test st
  = match Run.step X y 1 0 (Magnetism.clf st) (train, test) with
    | (c, Ok (p, n)) =>
        ({| Magnetism.clf := c;
            Magnetism.fm_scores := Magnetism.fm_scores st ++ [p];
            Magnetism.afm_scores := Magnetism.afm_scores st ++ [n];
            Magnetism.stdout :=
              Magnetism.stdout st
              ++ [Run.fold_line k "FM" p; Run.fold_line k "AFM" n] |},
         Ok tt)
    | (c, Raise e) => (Magnetism.set_clf c st, Raise e)
    end.
Proof.
  destruct st as [c ps ns out].
  unfold Magnetism.loop_body, Run.step, Magnetism.print. unfold_cell.
  unfold mbind, result_bind, Py.bind. simpl.
  destruct (Np.take_rows X train) as [X_fit|e]; [|done].
  destruct (Np.take_rows y train) as [y_fit|e]; [|done].
  destruct (Estimator.fit_checked c X_fit y_fit) as [fitted|e]; [|done].
  simpl.
  destruct (Np.take_rows y test) as [y_true|e]; [|done].
  destruct (Np.take_rows X test) as [X_fold|e]; [|done].
  destruct (Estimator.predict_checked fitted X_fold) as [y_pred|e]; [|done].
  destruct (f1_score y_true y_pred 1) as [p|e]; [|done].
  destruct (f1_score y_true y_pred 0) as [n|e]; [|done].
  simpl. unfold Run.fold_line. by rewrite <- (assoc_L (++) out).
Qed.

Lemma magnetism_cross_validation draw c :
  let o := Run.run draw X y 5 1 0 c in
  let ps := map fst (Run.pairs o) in
  let ns := map snd (Run.pairs o) in
  Magnetism.cross_validation np_sqrt draw X y (Magnetism.init c)
  = ({| Magnetism.clf := Run.final o;
        Magnetism.fm_scores := ps;
        Magnetism.afm_scores := ns;
        Magnetism.stdout := Run.printed np_sqrt "FM" "AFM" ps ns (Run.ended o) |},
     Run.ended o).
Proof.
  unfold Magnetism.cross_validation, Run.run. unfold_cell.
  unfold result_bind, Py.bind.
  change (KFold.new 5 true)
    with (Ok {| KFold.n_splits := 5; KFold.shuffle := true |}).
  cbv iota beta.
  destruct (KFold.split _ draw (length X) (length y)) as [folds|e];
    [|done].
  pose proof (for_each_trace magnetism_view
    (fun '(k, (train, test)) => Magnetism.loop_body X y k train test)
    1%Z 0%Z "FM" "AFM") as Hloop.
  specialize (Hloop ltac:(
    intros i [train test] s; rewrite magnetism_body_step; simpl;
    destruct (Run.step X y 1 0 (Magnetism.clf s) (train, test))
      as [c1 [[p n]|e]]; done)).
  specialize (Hloop folds 0 (Magnetism.init c)). simpl in Hloop.
  unfold Cell.enumerate.
  destruct (Run.trace X y 1 0 c folds) as [[c' pairs] r].
  destruct (Cell.for_each _ _ _) as [s' r']. simpl in Hloop.
  destruct Hloop as [-> Hview].
  destruct s' as [c1 ps1 ns1 out1]. unfold magnetism_view in Hview.
  simpl in Hview. simplify_eq. simpl.
  unfold Run.printed. rewrite zip_fst_snd.
  destruct r as [[]|e]; simpl; [|by rewrite app_nil_r].
  unfold Magnetism.print. unfold_cell. simpl.
  unfold Magnetism.summary, Run.summary_line.
  by rewrite <- (assoc_L (++)).
Qed.
Lemma topology_body_step k train test st :
  Topology.loop_body X y k train test st
  = match Run.step X y 1 0 (Topology.clf st) (train, test) with
    | (c, Ok (p, n)) =>
        ({| Topology.clf := c;
            Topology.topo_scores := Topology.topo_scores st ++ [p];
            Topology.triv_scores := Topology.triv_scores st ++ [n];
            Topology.stdout :=
              Topology.stdout st
              ++ [Run.fold_line k "Topological" p; Run.fold_line k "Trivial" n] |},
         Ok tt)
    | (c, Raise e) => (Topology.set_clf c st, Raise e)
    end.
Proof.
  destruct st as [c ps ns out].
  unfold Topology.loop_body, Run.step, Topology.print. unfold_cell.
  unfold mbind, result_bind, Py.bind. simpl.
  destruct (Np.take_rows X train) as [X_fit|e]; [|done].
  destruct (Np.take_rows y train) as [y_fit|e]; [|done].
  destruct (Estimator.fit_checked c X_fit y_fit) as [fitted|e]; [|done].
  simpl.
  destruct (Np.take_rows y test) as [y_true|e]; [|done].
  destruct (Np.take_rows X test) as [X_fold|e]; [|done].
  destruct (Estimator.predict_checked fitted X_fold) as [y_pred|e]; [|done].
  destruct (f1_score y_true y_pred 1) as [p|e]; [|done].
  destruct (f1_score y_true y_pred 0) as [n|e]; [|done].
  simpl. unfold Run.fold_line. by rewrite <- (assoc_L (++) out).
Qed.

Lemma topology_cross_validation draw c :
  let o := Run.run draw X y 5 1 0 c in
  let ps := map fst (Run.pairs o) in
  let ns := map snd (Run.pairs o) in
  Topology.cross_validation np_sqrt draw X y (Topology.init c)
  = ({| Topology.clf := Run.final o;
        Topology.topo_scores := ps;
        Topology.triv_scores := ns;
        Topology.stdout := Run.printed np_sqrt "Topological" "Trivial" ps ns (Run.ended o) |},
     Run.ended o).
Proof.
  unfold Topology.cross_validation, Run.run. unfold_cell.
  unfold result_bind, Py.bind.
  change (KFold.new 5 true)
    with (Ok {| KFold.n_splits := 5; KFold.shuffle := true |}).
  cbv iota beta.
  destruct (KFold.split _ draw (length X) (length y)) as [folds|e];
    [|done].
  pose proof (for_each_trace topology_view
    (fun '(k, (train, test)) => Topology.loop_body X y k train test)
    1%Z 0%Z "Topological" "Trivial") as Hloop.
  specialize (Hloop ltac:(
    intros i [train test] s; rewrite topology_body_step; simpl;
    destruct (Run.step X y 1 0 (Topology.clf s) (train, test))
      as [c1 [[p n]|e]]; done)).
  specialize (Hloop folds 0 (Topology.init c)). simpl in Hloop.
  unfold Cell.enumerate.
  destruct (Run.trace X y 1 0 c folds) as [[c' pairs] r].
  destruct (Cell.for_each _ _ _) as [s' r']. simpl in Hloop.
  destruct Hloop as [-> Hview].
  destruct s' as [c1 ps1 ns1 out1]. unfold topology_view in Hview.
  simpl in Hview. simplify_eq. simpl.
  unfold Run.printed. rewrite zip_fst_snd.
  destruct r as [[]|e]; simpl; [|by rewrite app_nil_r].
  unfold Topology.print. unfold_cell. simpl.
  unfold Topology.summary, Run.summary_line.
  by rewrite <- (assoc_L (++)).
Qed.

Lemma evaluate_fold_step pl nl pn nn i train test st :
  Evaluator.evaluate_fold X y pl nl pn nn i train test st
  = match Run.step X y pl nl (Evaluator.clf st) (train, test) with
    | (c, Ok (p, n)) =>
        ({| Evaluator.clf := c;
            Evaluator.positive_scores := Evaluator.positive_scores st ++ [p];
            Evaluator.negative_scores := Evaluator.negative_scores st ++ [n];
            Evaluator.stdout :=
              Evaluator.stdout st
              ++ [Run.fold_line i pn p; Run.fold_line i nn n] |},
         Ok tt)
    | (c, Raise e) => (Evaluator.set_clf c st, Raise e)
    end.
Proof.
  destruct st as [c ps ns out].
  unfold Evaluator.evaluate_fold, Run.step, Evaluator.print. unfold_cell.
  unfold mbind, result_bind, Py.bind. simpl.
  destruct (Np.take_rows X train) as [X_fit|e]; [|done].
  destruct (Np.take_rows y train) as [y_fit|e]; [|done].
  destruct (Estimator.fit_checked c X_fit y_fit) as [fitted|e]; [|done].
  simpl.
  destruct (Np.take_rows y test) as [y_true|e]; [|done].
  destruct (Np.take_rows X test) as [X_fold|e]; [|done].
  destruct (Estimator.predict_checked fitted X_fold) as [y_pred|e]; [|done].
  destruct (f1_score y_true y_pred pl) as [p|e]; [|done].
  destruct (f1_score y_true y_pred nl) as [n|e]; [|done].
  done.
Qed.

Lemma evaluator_cross_validate draw k pl nl pn nn c :
  let o := Run.run draw X y k pl nl c in
  let ps := map fst (Run.pairs o) in
  let ns := map snd (Run.pairs o) in
  Evaluator.cross_validate np_sqrt draw X y k pl nl pn nn (Evaluator.init c)
  = ({| Evaluator.clf := Run.final o;
        Evaluator.positive_scores := ps;
        Evaluator.negative_scores := ns;
        Evaluator.stdout := Run.printed np_sqrt pn nn ps ns (Run.ended o) |},
     Run.ended o).
Proof.
  unfold Evaluator.cross_validate, Run.run. unfold_cell.
  unfold result_bind, Py.bind.
  destruct (KFold.new k true) as [kf|e]; [|done].
  destruct (KFold.split kf draw (length X) (length y)) as [folds|e];
    [|done].
  pose proof (for_each_trace evaluator_view
    (fun '(i, (train, test)) =>
       Evaluator.evaluate_fold X y pl nl pn nn i train test)
    pl nl pn nn) as Hloop.
  specialize (Hloop ltac:(
    intros i [train test] s; rewrite evaluate_fold_step; simpl;
    destruct (Run.step X y pl nl (Evaluator.clf s) (train, test))
      as [c1 [[p n]|e]]; done)).
  specialize (Hloop folds 0 (Evaluator.init c)). simpl in Hloop.
  unfold Cell.enumerate.
  destruct (Run.trace X y pl nl c folds) as [[c' pairs] r].
  destruct (Cell.for_each _ _ _) as [s' r']. simpl in Hloop.
  destruct Hloop as [-> Hview].
  destruct s' as [c1 ps1 ns1 out1]. unfold evaluator_view in Hview.
  simpl in Hview. simplify_eq. simpl.
  unfold Run.printed. rewrite zip_fst_snd.
  destruct r as [[]|e]; simpl; [|by rewrite app_nil_r].
  unfold Evaluator.print. unfold_cell. simpl.
  by unfold Evaluator.summary_line, Run.summary_line.
Qed.
End Simulation.


Lemma count_both_le_pred x y_true y_pred :
  count_both x y_true y_pred <= count_eq x y_pred.
Proof.
  unfold count_both, count_eq. revert y_pred.
  induction y_true as [|a yt IH]; intros [|b yp]; simpl; try lia.
  rewrite !filter_cons. simpl. specialize (IH yp).
  repeat case_decide; simpl; try lia; exfalso; intuition auto.
Qed.

Lemma count_both_le_true x y_true y_pred :
  count_both x y_true y_pred <= count_eq x y_true.
Proof.
  unfold count_both, count_eq. revert y_pred.
  induction y_true as [|a yt IH]; intros [|b yp]; simpl; try lia.
  rewrite !filter_cons. simpl. specialize (IH yp).
  repeat case_decide; simpl; try lia; exfalso; intuition auto.
Qed.

(** ** F1 lies in the unit interval *)

Section Bounds.
Local Open Scope Q_scope.

Lemma of_nat_nonneg n : 0 <= Stats.of_nat n.
Proof.
  unfold Stats.of_nat. change 0 with (inject_Z 0). rewrite <- Zle_Qle. lia.
Qed.

Lemma prf_divide_unit num den :
  (num <= den)%nat -> 0 <= prf_divide num den <= 1.
Proof.
  intros Hle. unfold prf_divide.
  destruct (Nat.eqb_spec den 0) as [->|Hden]; [split; discriminate|].
  assert (Hpos : 0 < Stats.of_nat den).
  { unfold Stats.of_nat. change 0 with (inject_Z 0). rewrite <- Zlt_Qlt. lia. }
  apply rnd_unit. split.
  - apply Qle_shift_div_l; [done|]. rewrite Qmult_0_l. apply of_nat_nonneg.
  - apply Qle_shift_div_r; [done|]. rewrite Qmult_1_l.
    unfold Stats.of_nat. rewrite <- Zle_Qle. lia.
Qed.

(** The F-score of a precision and a recall within the unit interval. *)
Lemma fscore_unit p r :
  0 <= p <= 1 -> 0 <= r <= 1 ->
  0 <= B64.div (B64.mul (2 * p) r)
         (if Qeq_bool (B64.add p r) 0 then 1 else B64.add p r) <= 1.
Proof.
  intros Hp Hr. unfold B64.add, B64.mul, B64.div.
  assert (Hprod : 0 <= 2 * p * r) by nra.
  assert (Hle : 2 * p * r <= p + r) by nra.
  pose proof (rnd_nonneg _ Hprod) as Hn.
  pose proof (rnd_mono _ _ Hprod Hle) as Hns.
  set (n := B64.rnd (2 * p * r)) in *. set (s := B64.rnd (p + r)) in *.
  destruct (Qeq_bool s 0) eqn:Hz.
  - apply Qeq_bool_iff in Hz.
    rewrite (rnd_zero (n / 1)); [split; discriminate|].
    assert (Hn0 : n == 0) by lra. rewrite Hn0. field.
  - apply Qeq_bool_neq in Hz.
    assert (Hpos : 0 < s) by lra.
    apply rnd_unit. split.
    + apply Qle_shift_div_l; [done|]. lra.
    + apply Qle_shift_div_r; [done|]. lra.
Qed.

Lemma f1_unit x y_true y_pred :
  0 <= f1 (prfs_of x y_true y_pred) <= 1.
Proof.
  unfold prfs_of; simpl.
  apply fscore_unit; apply prf_divide_unit.
  - apply count_both_le_pred.
  - apply count_both_le_true.
Qed.

Lemma f1_score_unit y_true y_pred pos v :
  f1_score y_true y_pred pos = Ok v -> 0 <= v <= 1.
Proof.
  unfold f1_score, check_targets. unfold mbind, result_bind, Py.bind.
  destruct (Nat.eqb _ _); [|done].
  destruct (Nat.ltb _ _); [done|].
  destruct (negb _ && _); [done|].
  intros [= <-]. apply f1_unit.
Qed.

Lemma f1_score_raises y_true y_pred pos e :
  f1_score y_true y_pred pos = Raise e -> e = ValueError.
Proof.
  unfold f1_score, check_targets. unfold mbind, result_bind, Py.bind.
  destruct (Nat.eqb _ _); [|by intros [= <-]].
  destruct (Nat.ltb _ _); [by intros [= <-]|].
  destruct (negb _ && _); [by intros [= <-]|done].
Qed.


End Bounds.

Section TraceBounds.
Context `{Classifier}.
Variables (X : list sample) (y : list label) (pl nl : label).

Lemma step_unit c f c' p n :
  Run.step X y pl nl c f = (c', Ok (p, n)) ->
  unit_interval p /\ unit_interval n.
Proof.
  unfold Run.step. unfold mbind, result_bind, Py.bind.
  destruct (Np.take_rows X f.1); [|done].
  destruct (Np.take_rows y f.1); [|done].
  destruct (Estimator.fit_checked _ _ _); [|done].
  destruct (Np.take_rows y f.2); [|done].
  destruct (Np.take_rows X f.2); [|done].
  destruct (Estimator.predict_checked _ _); [|done].
  destruct (f1_score _ _ pl) eqn:Hp; [|done].
  destruct (f1_score _ _ nl) eqn:Hn; [|done].
  intros [= <- <- <-].
  split; eapply f1_score_unit; eauto.
Qed.

Lemma trace_unit c fs :
  Forall (fun pn => unit_interval pn.1 /\ unit_interval pn.2)
    (Run.trace X y pl nl c fs).1.2.
Proof.
  revert c. induction fs as [|f fs IH]; intros c; simpl; [constructor|].
  destruct (Run.step X y pl nl c f) as [c1 [[p n]|e]] eqn:Hstep; simpl;
    [|constructor].
  specialize (IH c1).
  destruct (Run.trace X y pl nl c1 fs) as [[c2 pairs] r]. simpl in *.
  constructor; [|done]. simpl. eapply step_unit; eauto.
Qed.

Lemma run_unit draw k c :
  Forall (fun pn => unit_interval pn.1 /\ unit_interval pn.2)
    (Run.pairs (Run.run draw X y k pl nl c)).
Proof.
  unfold Run.run. case_match; [|constructor].
  pose proof (trace_unit c a) as Htr.
  destruct (Run.trace X y pl nl c a) as [[c2 pairs] r]. done.
Qed.
End TraceBounds.




(** ** Binary labels: the metric is total *)

Lemma insert_label_bin_set x a b :
  binary x ->
  insert_label x (bin_set a b)
  = bin_set (a || bool_decide (x = 0%Z)) (b || bool_decide (x = 1%Z)).
Proof. intros [->| ->]; by destruct a, b. Qed.

Lemma unique_labels_binary y_true y_pred :
  Forall binary y_true -> Forall binary y_pred ->
  exists a b, unique_labels y_true y_pred = bin_set a b.
Proof.
  intros Ht Hp. unfold unique_labels.
  assert (Hall : Forall binary (y_true ++ y_pred)) by by apply Forall_app.
  induction Hall as [|x l Hx _ (a & b & IH)]; simpl.
  - by exists false, false.
  - rewrite IH, insert_label_bin_set by done. eauto.
Qed.

Lemma mem_insert_label x l : mem x (insert_label x l) = true.
Proof.
  unfold mem. induction l as [|z l IH]; simpl.
  - by rewrite Z.eqb_refl.
  - destruct (Z.ltb_spec x z); simpl; [by rewrite Z.eqb_refl|].
    destruct (Z.eqb_spec x z); simpl.
    + subst. by rewrite Z.eqb_refl.
    + rewrite IH. apply orb_true_r.
Qed.

Lemma mem_insert_label_mono x z l :
  mem x l = true -> mem x (insert_label z l) = true.
Proof.
  unfold mem. induction l as [|w l IH]; simpl; [done|].
  intros Hm. destruct (Z.ltb_spec z w); simpl.
  - rewrite Hm. apply orb_true_r.
  - destruct (Z.eqb_spec z w); simpl; [done|].
    apply orb_true_iff in Hm as [->|Hm]; [done|].
    rewrite IH by done. apply orb_true_r.
Qed.

Lemma mem_unique_labels x y_true y_pred :
  x ∈ y_true ++ y_pred -> mem x (unique_labels y_true y_pred) = true.
Proof.
  unfold unique_labels. induction (y_true ++ y_pred) as [|z l IH]; simpl.
  - by intros ?%elem_of_nil.
  - intros [->|Hin]%elem_of_cons.
    + apply mem_insert_label.
    + by apply mem_insert_label_mono, IH.
Qed.

Lemma elem_of_insert_label x z l :
  x ∈ insert_label z l -> x = z \/ x ∈ l.
Proof.
  induction l as [|w l IH]; simpl.
  - intros ?%list_elem_of_singleton. by left.
  - destruct (Z.ltb_spec z w).
    + intros [->|?]%elem_of_cons; auto.
    + destruct (Z.eqb_spec z w); [auto|].
      intros [->|?]%elem_of_cons; [right; by left|].
      destruct IH as [?|?]; auto. right. by right.
Qed.

Lemma elem_of_unique_labels x y_true y_pred :
  x ∈ unique_labels y_true y_pred -> x ∈ y_true ++ y_pred.
Proof.
  unfold unique_labels. induction (y_true ++ y_pred) as [|z l IH]; simpl.
  - done.
  - intros [->|?]%elem_of_insert_label; [by left|right; auto].
Qed.

(** On binary labels the metric never raises. *)
Lemma f1_score_binary y_true y_pred pos :
  length y_true = length y_pred ->
  Forall binary y_true -> Forall binary y_pred -> binary pos ->
  f1_score y_true y_pred pos = Ok (f1 (prfs_of pos y_true y_pred)).
Proof.
  intros Hlen Ht Hp Hpos.
  unfold f1_score, check_targets. rewrite Hlen, Nat.eqb_refl.
  unfold mbind, result_bind, Py.bind.
  destruct (unique_labels_binary _ _ Ht Hp) as (a & b & Hu). rewrite Hu.
  destruct a, b, Hpos as [->| ->]; reflexivity.
Qed.

(** ** Fancy indexing within range; folds that run through *)

Section Rows.
Context {A : Type}.
Implicit Types (a : list A) (idx : list nat).

Lemma take_rows_rows a idx :
  Forall (fun i => i < length a) idx ->
  Np.take_rows a idx = Ok (Run.rows a idx).
Proof.
  induction 1 as [|i idx Hi _ IH]; simpl; [done|].
  destruct (lookup_lt_is_Some_2 a i Hi) as [x Hx].
  unfold Run.rows in *. simpl. rewrite Hx, IH. done.
Qed.

Lemma rows_length a idx :
  Forall (fun i => i < length a) idx -> length (Run.rows a idx) = length idx.
Proof.
  induction 1 as [|i idx Hi _ IH]; simpl; [done|].
  destruct (lookup_lt_is_Some_2 a i Hi) as [x Hx].
  unfold Run.rows in *. simpl. rewrite Hx. simpl. by rewrite IH.
Qed.

Lemma rows_Forall (P : A -> Prop) a idx :
  Forall P a -> Forall P (Run.rows a idx).
Proof.
  intros HP. unfold Run.rows. apply Forall_forall.
  intros x (i & _ & Hx)%list_elem_of_omap.
  rewrite Forall_forall in HP. apply HP. by eapply list_elem_of_lookup_2.
Qed.
End Rows.

Section TraceOk.
Context `{Classifier}.
Variables (X : list sample) (y : list label) (pl nl : label).
Hypothesis same_length : length y = length X.
Hypothesis y_binary : Forall binary y.
Hypothesis pl_binary : binary pl.
Hypothesis nl_binary : binary nl.

Lemma predict_binary c f :
  good_fold (length X) f ->
  Forall binary (predict (Run.refit X y c f) (Run.rows X f.2)).
Proof.
  intros (Htr & Hne & _). apply Forall_forall. intros l Hl.
  apply list_elem_of_In in Hl. unfold Run.refit in Hl.
  apply predict_classes in Hl.
  - apply list_elem_of_In in Hl. revert l Hl. apply Forall_forall.
    by apply rows_Forall.
  - rewrite !rows_length; [done|by rewrite same_length|done].
  - intros Hnil. apply (f_equal length) in Hnil.
    rewrite rows_length in Hnil by (by rewrite same_length).
    by destruct (f.1).
Qed.

Lemma step_ok c f :
  good_fold (length X) f ->
  Run.step X y pl nl c f
  = (Run.refit X y c f,
     Ok (Run.fold_f1 X y c f pl, Run.fold_f1 X y c f nl)).
Proof.
  intros Hgood. pose proof (predict_binary c f Hgood) as Hbin.
  destruct Hgood as (Htr & Htrne & Hte & Htene).
  assert (Htr' : Forall (fun i => i < length y) f.1) by by rewrite same_length.
  assert (Hte' : Forall (fun i => i < length y) f.2) by by rewrite same_length.
  unfold Run.step.
  rewrite (take_rows_rows X f.1), (take_rows_rows y f.1) by done.
  rewrite (take_rows_rows X f.2), (take_rows_rows y f.2) by done.
  unfold mbind, result_bind, Py.bind.
  unfold Estimator.fit_checked, Estimator.predict_checked.
  rewrite !rows_length by done.
  rewrite Nat.eqb_refl.
  assert (E1 : (length f.1 =? 0) = false).
  { apply Nat.eqb_neq. by destruct (f.1). }
  assert (E2 : (length f.2 =? 0) = false).
  { apply Nat.eqb_neq. by destruct (f.2). }
  rewrite E1, E2. simpl negb. cbv iota.
  assert (Hl : length (Run.rows y f.2)
               = length (predict (fit c (Run.rows X f.1) (Run.rows y f.1))
                           (Run.rows X f.2))).
  { rewrite predict_length, !rows_length; done. }
  rewrite !f1_score_binary; try done; by apply rows_Forall.
Qed.

Lemma trace_ok c fs :
  Forall (good_fold (length X)) fs ->
  Run.trace X y pl nl c fs = (foldl (Run.refit X y) c fs, Run.scores X y pl nl c fs, Ok tt).
Proof.
  intros Hgood. revert c.
  induction Hgood as [|f fs Hf _ IH]; intros c; simpl; [done|].
  by rewrite step_ok, IH.
Qed.

Lemma scores_lookup c fs i f :
  fs !! i = Some f ->
  Run.scores X y pl nl c fs !! i
  = Some (Run.fold_f1 X y (foldl (Run.refit X y) c (take i fs)) f pl,
          Run.fold_f1 X y (foldl (Run.refit X y) c (take i fs)) f nl).
Proof.
  revert c i. induction fs as [|g fs IH]; intros c [|i]; simpl; try done.
  - by intros [= ->].
  - apply IH.
Qed.

Lemma scores_length c fs : length (Run.scores X y pl nl c fs) = length fs.
Proof. revert c. induction fs; intros; simpl; auto. Qed.
End TraceOk.

(** * Runs in which nothing raises; swapping the two label codes *)

Lemma kfold_new_ok k : 2 <= k ->
  KFold.new k true = Ok {| KFold.n_splits := k; KFold.shuffle := true |}.
Proof.
  intros Hk. unfold KFold.new. destruct (Nat.leb_spec k 1); [lia|done].
Qed.

Lemma kfold_split_good k draw n folds :
  2 <= k <= n ->
  KFold.split {| KFold.n_splits := k; KFold.shuffle := true |} draw n n
  = Ok folds ->
  length folds = k /\ Forall (good_fold n) folds.
Proof.
  intros [Hk Hn] Hsplit.
  assert (Hkn : 0 < k <= n) by lia.
  destruct (kfold_split_spec k draw n Hkn)
    as (folds' & Hsplit' & Hlen & Hperm & _ & _ & Hfold).
  rewrite Hsplit in Hsplit'. injection Hsplit' as <-.
  split; [done|]. apply Forall_lookup. intros i [train test] Hi.
  destruct (Hfold i train test Hi) as (Htest & Hsize & Hcover).
  assert (Hik : i < k).
  { apply lookup_lt_Some in Hi. unfold Run.fold in Hi. lia. }
  assert (Hall : Forall (fun j => j < n) (train ++ test)).
  { rewrite Hcover. apply Forall_forall. intros x [_ ?]%elem_of_seq. lia. }
  apply Forall_app in Hall as [Htr Hte].
  assert (Hlen2 : length train + length test = n).
  { rewrite <- length_app, Hcover. apply length_seq. }
  pose proof (Nat.mod_upper_bound n k ltac:(lia)) as Hmod.
  pose proof (Nat.div_mod_eq n k) as Hdiv.
  assert (Hq : 1 <= n / k) by (apply Nat.div_le_lower_bound; lia).
  assert (Hsz : 0 < length test < n).
  { rewrite Hsize. destruct (Nat.ltb_spec i (n mod k)); nia. }
  repeat split; simpl; try done.
  - intros ->. simpl in *. lia.
  - intros ->. simpl in *. lia.
Qed.

Section RunOk.
Context `{Classifier}.
Variables (X : list sample) (y : list label) (pl nl : label).
Hypothesis same_length : length y = length X.
Hypothesis y_binary : Forall binary y.
Hypothesis pl_binary : binary pl.
Hypothesis nl_binary : binary nl.

Lemma run_ok draw k c :
  2 <= k <= length X ->
  exists folds,
    KFold.split {| KFold.n_splits := k; KFold.shuffle := true |} draw
      (length X) (length y) = Ok folds
    /\ length folds = k
    /\ Forall (good_fold (length X)) folds
    /\ Run.run draw X y k pl nl c
       = {| Run.final := foldl (Run.refit X y) c folds;
            Run.pairs := Run.scores X y pl nl c folds;
            Run.ended := Ok tt |}.
Proof.
  intros Hk.
  assert (Hkn : 0 < k <= length X) by lia.
  destruct (kfold_split_spec k draw (length X) Hkn)
    as (folds & Hsplit & _).
  destruct (kfold_split_good k draw (length X) folds Hk Hsplit)
    as [Hlen Hgood].
  exists folds. rewrite same_length. repeat split; try done.
  unfold Run.run. rewrite kfold_new_ok by lia.
  unfold mbind, result_bind, Py.bind. rewrite same_length, Hsplit.
  by rewrite trace_ok.
Qed.
End RunOk.

Section Swap.
Context `{Classifier}.
Variables (X : list sample) (y : list label) (pl nl : label).

Lemma step_swap c f :
  Run.step X y nl pl c f
  = ((Run.step X y pl nl c f).1,
     pn ← (Run.step X y pl nl c f).2; Ok (prod_swap pn)).
Proof.
  unfold Run.step. unfold mbind, result_bind, Py.bind.
  destruct (Np.take_rows X f.1); [|done].
  destruct (Np.take_rows y f.1); [|done].
  destruct (Estimator.fit_checked _ _ _); [|done]. simpl.
  destruct (Np.take_rows y f.2); [|done].
  destruct (Np.take_rows X f.2); [|done].
  destruct (Estimator.predict_checked _ _); [|done].
  destruct (f1_score _ _ pl) eqn:Hp, (f1_score _ _ nl) eqn:Hn; try done.
  apply f1_score_raises in Hp, Hn. by subst.
Qed.

Lemma trace_swap c fs :
  Run.trace X y nl pl c fs
  = let '(c', pairs, r) := Run.trace X y pl nl c fs in
    (c', map prod_swap pairs, r).
Proof.
  revert c. induction fs as [|f fs IH]; intros c; simpl; [done|].
  rewrite step_swap.
  destruct (Run.step X y pl nl c f) as [c1 [[p n]|e]]; simpl; [|done].
  rewrite IH. by destruct (Run.trace X y pl nl c1 fs) as [[c2 pairs] r].
Qed.

Lemma run_swap draw k c :
  let o := Run.run draw X y k pl nl c in
  Run.run draw X y k nl pl c
  = {| Run.final := Run.final o;
       Run.pairs := map prod_swap (Run.pairs o);
       Run.ended := Run.ended o |}.
Proof.
  unfold Run.run. destruct (_ ≫= _) as [folds|e]; [|done].
  rewrite trace_swap.
  by destruct (Run.trace X y pl nl c folds) as [[c2 pairs] r].
Qed.
End Swap.

(** * Rounding, accuracy, the report *)

Section Rounding.
Local Open Scope Q_scope.

(** [round(x, 2)] of a float in the unit interval is the float of a whole
    number of hundredths, half a hundredth from [x] at most (up to the
    rounding of [x] itself). *)
Lemma round_two_decimals x :
  0 <= x <= 1 ->
  exists m : Z,
    (0 <= m <= 100)%Z
    /\ Fmt.round x 2 = B64.rnd (m # 100)
    /\ Qabs (inject_Z m - B64.rnd x * inject_Z 100) <= 1 # 2.
Proof.
  intros Hx. pose proof (rnd_unit x Hx) as Hr.
  exists (B64.round_half_even (B64.rnd x * inject_Z 100)).
  split; [|split; [done|apply round_half_even_bound]].
  change (inject_Z 100) with (100 # 1). split.
  - apply round_half_even_ge. change (inject_Z 0) with 0. lra.
  - apply round_half_even_le. change (inject_Z 100) with (100 # 1). lra.
Qed.

Lemma fixed_nonneg d x :
  0 <= x -> (0 < d)%nat ->
  Fmt.fixed d x
  = pretty (B64.round_half_even (B64.rnd x * inject_Z (10 ^ Z.of_nat d))
              / 10 ^ Z.of_nat d)%Z
    +:+ "." +:+
    Fmt.zero_pad d
      (pretty (B64.round_half_even (B64.rnd x * inject_Z (10 ^ Z.of_nat d))
                 mod 10 ^ Z.of_nat d)%Z).
Proof.
  intros Hx Hd. unfold Fmt.fixed. pose proof (rnd_nonneg x Hx) as Hr.
  destruct (Qlt_le_dec (B64.rnd x) 0) as [Hneg|_]; [lra|].
  destruct (Nat.eqb_spec d 0) as [->|_]; [lia|].
  rewrite (round_half_even_comp (Qabs (B64.rnd x) * _)
             (B64.rnd x * inject_Z (10 ^ Z.of_nat d)))
    by (by rewrite Qabs_pos).
  done.
Qed.
Lemma fraction_unit (a b : nat) :
  (a <= b)%nat -> (0 < b)%nat -> 0 <= Stats.of_nat a / Stats.of_nat b <= 1.
Proof.
  intros Hle Hb.
  assert (Hpos : 0 < Stats.of_nat b).
  { unfold Stats.of_nat. change 0 with (inject_Z 0). rewrite <- Zlt_Qlt. lia. }
  split.
  - apply Qle_shift_div_l; [done|]. rewrite Qmult_0_l. apply of_nat_nonneg.
  - apply Qle_shift_div_r; [done|]. rewrite Qmult_1_l.
    unfold Stats.of_nat. rewrite <- Zle_Qle. lia.
Qed.

End Rounding.

Section Accuracy.
Local Open Scope Q_scope.

Lemma of_nat_S n : Stats.of_nat (S n) == Stats.of_nat n + 1.
Proof.
  unfold Stats.of_nat. rewrite Nat2Z.inj_succ, <- Z.add_1_r.
  by rewrite inject_Z_plus.
Qed.

(** The entries of [y_true == y_pred] that are true are the positions where
    the two arrays agree. *)
Lemma count_agreements (y_true y_pred : list label) :
  length (filter (fun b => b = true) (zip_with Z.eqb y_true y_pred))
  = length (filter (fun p => p.1 = p.2) (zip y_true y_pred)).
Proof.
  revert y_pred. induction y_true as [|a l IH]; intros [|b l']; simpl; try done.
  rewrite !filter_cons. simpl. destruct (Z.eqb_spec a b) as [->|Hne].
  - rewrite !decide_True by done. simpl. by rewrite IH.
  - rewrite !decide_False by done. apply IH.
Qed.

Lemma accuracy_score_fraction y_true y_pred :
  length y_true = length y_pred ->
  exists acc,
    accuracy_score y_true y_pred = Ok acc
    /\ acc = B64.div
               (Stats.of_nat
                  (length (filter (fun p => p.1 = p.2) (zip y_true y_pred))))
               (Stats.of_nat (length y_true)).
Proof.
  intros Hlen. unfold accuracy_score, check_targets.
  rewrite Hlen, Nat.eqb_refl. eexists. split; [reflexivity|].
  unfold Stats.mean_bool. rewrite count_agreements.
  rewrite length_zip_with. do 2 f_equal. unfold label in *. lia.
Qed.
End Accuracy.

Section Holdout.
Context `{Classifier}.

Lemma score_fraction c X y :
  X <> [] -> length y = length X ->
  exists acc,
    Estimator.score c X y = Ok acc
    /\ acc = B64.div
               (Stats.of_nat
                  (length (filter (fun p => p.1 = p.2) (zip y (predict c X)))))
               (Stats.of_nat (length y)).
Proof.
  intros Hne Hlen. unfold Estimator.score, Estimator.predict_checked.
  destruct X as [|x X']; [done|]. change (length (x :: X') =? 0) with false.
  cbv iota. unfold mbind, result_bind, Py.bind.
  apply accuracy_score_fraction. by rewrite predict_length.
Qed.

Lemma unique_labels_both y_true y_pred :
  Forall binary y_true -> Forall binary y_pred ->
  0%Z ∈ y_true ++ y_pred -> 1%Z ∈ y_true ++ y_pred ->
  unique_labels y_true y_pred = [0%Z; 1%Z].
Proof.
  intros Ht Hp H0 H1.
  destruct (unique_labels_binary _ _ Ht Hp) as (a & b & Hu).
  apply mem_unique_labels in H0, H1. rewrite Hu in *.
  by destruct a, b.
Qed.

Lemma classification_report_rows y_true y_pred name0 name1 :
  length y_true = length y_pred ->
  Forall binary y_true -> Forall binary y_pred ->
  0%Z ∈ y_true ++ y_pred -> 1%Z ∈ y_true ++ y_pred ->
  exists rep,
    classification_report y_true y_pred [name0; name1] = Ok rep
    /\ rows rep = [(name0, prfs_of 0%Z y_true y_pred);
                   (name1, prfs_of 1%Z y_true y_pred)].
Proof.
  intros Hlen Ht Hp H0 H1. unfold classification_report.
  unfold check_targets. rewrite Hlen, Nat.eqb_refl.
  rewrite unique_labels_both by done.
  unfold mbind, result_bind, Py.bind. simpl. eauto.
Qed.
End Holdout.

Lemma fold_lines_imap pn nn i pairs :
  Run.fold_lines pn nn i pairs
  = concat (imap (fun j '(p, n) =>
                    [Run.fold_line (i + j) pn p; Run.fold_line (i + j) nn n])
              pairs).
Proof.
  revert i. induction pairs as [|[p n] pairs IH]; intros i; simpl; [done|].
  rewrite Nat.add_0_r. do 2 f_equal. rewrite IH. f_equal.
  apply imap_ext. intros j [p' n'] _. simpl. by rewrite Nat.add_succ_r.
Qed.

Lemma fold_lines_length pn nn i pairs :
  length (Run.fold_lines pn nn i pairs) = 2 * length pairs.
Proof.
  revert i. induction pairs as [|[p n] pairs IH]; intros i; simpl; [done|].
  rewrite IH. lia.
Qed.

(** Fold [j] of the run owns the lines [2 j] and [2 j + 1]. *)
Lemma fold_lines_lookup pn nn i pairs j p n :
  pairs !! j = Some (p, n) ->
  Run.fold_lines pn nn i pairs !! (2 * j) = Some (Run.fold_line (i + j) pn p)
  /\ Run.fold_lines pn nn i pairs !! (2 * j + 1)
     = Some (Run.fold_line (i + j) nn n).
Proof.
  revert i j. induction pairs as [|[p' n'] pairs IH]; intros i [|j]; try done.
  - intros [= -> ->]. simpl. by rewrite Nat.add_0_r.
  - intros Hj. simpl in Hj. destruct (IH (S i) j Hj) as [H1 H2].
    replace (2 * S j) with (S (S (2 * j))) by lia.
    replace (S (S (2 * j)) + 1) with (S (S (2 * j + 1))) by lia.
    replace (i + S j) with (S i + j) by lia. by simpl.
Qed.

Lemma let_pair_elim {S R : Type} (a : S * R) (P : S -> R -> Prop) :
  (let '(s, r) := a in P s r) -> P a.1 a.2.
Proof. by destruct a. Qed.

Module NearestNeighbourFacts.
Import NearestNeighbour.

Lemma foldl_closer_In x rest p :
  In (foldl (closer x) p rest) (p :: rest).
Proof.
  revert p. induction rest as [|a rest IH]; intros p; simpl; [auto|].
  destruct (IH (closer x p a)) as [Hc|Hin]; [|auto].
  rewrite <- Hc. unfold closer. case_match; auto.
Qed.

Lemma nearest_In train x :
  train <> [] -> In (nearest train x) (map snd train).
Proof.
  destruct train as [|p rest]; [done|]. intros _. unfold nearest.
  apply in_map. apply foldl_closer_In.
Qed.

Lemma nn_predict_length m X : length (nn_predict m X) = length X.
Proof. unfold nn_predict. apply length_map. Qed.

Lemma nn_predict_classes (m : list (Z * label)) X y X' l :
  length X = length y -> y <> [] ->
  In l (nn_predict (nn_fit m X y) X') -> In l y.
Proof.
  intros Hlen Hy. unfold nn_predict, nn_fit.
  intros (x & <- & _)%in_map_iff.
  assert (Hz : zip X y <> []).
  { destruct X, y; simpl in *; done. }
  pose proof (nearest_In (zip X y) x Hz) as Hin.
  apply list_elem_of_In in Hin. apply list_elem_of_In.
  change (map snd (zip X y)) with ((zip X y).*2) in Hin.
  rewrite snd_zip in Hin by lia. done.
Qed.

End NearestNeighbourFacts.

Lemma concat_Permutation {A} (ls ks : list (list A)) :
  ls ≡ₚ ks -> concat ls ≡ₚ concat ks.
Proof.
  induction 1 as [|l ls ks _ IH|l k ls|ls ks ms _ IH1 _ IH2]; simpl.
  - done.
  - by rewrite IH.
  - rewrite !(assoc_L (++)). by rewrite (Permutation_app_comm l k).
  - by rewrite IH1.
Qed.

Lemma kfold_train_union k draw n folds i train test :
  0 < k <= n ->
  KFold.split {| KFold.n_splits := k; KFold.shuffle := true |} draw n n
  = Ok folds ->
  folds !! i = Some (train, test) ->
  train ≡ₚ concat (map snd (delete i folds)).
Proof.
  intros Hk Hsplit Hi.
  destruct (kfold_split_spec k draw n Hk)
    as (folds' & Hsplit' & _ & _ & Hcat & _ & Hfold).
  rewrite Hsplit in Hsplit'. injection Hsplit' as <-.
  destruct (Hfold i train test Hi) as (_ & _ & Hcover).
  assert (Hi' : map snd folds !! i = Some test).
  { by rewrite list_lookup_fmap, Hi. }
  apply delete_Permutation, concat_Permutation in Hi'. simpl in Hi'.
  rewrite <- list_fmap_delete in Hi'.
  apply (Permutation_app_inv_l test).
  rewrite <- Hi', Hcat, <- Hcover. apply Permutation_app_comm.
Qed.

Section FoldFacts.
Context `{Classifier}.
Variables (X : list sample) (y : list label).
Hypothesis same_length : length y = length X.
Hypothesis y_binary : Forall binary y.

Lemma fold_f1_score c f pos :
  good_fold (length X) f -> binary pos ->
  f1_score (Run.rows y f.2)
    (predict (fit c (Run.rows X f.1) (Run.rows y f.1)) (Run.rows X f.2)) pos
  = Ok (Run.fold_f1 X y c f pos).
Proof.
  intros Hgood Hpos.
  pose proof (predict_binary X y same_length y_binary c f Hgood) as Hbin.
  destruct Hgood as (_ & _ & Hte & _).
  unfold Run.fold_f1. apply f1_score_binary; try done.
  - rewrite predict_length, !rows_length; [done..|by rewrite same_length].
  - by apply rows_Forall.
Qed.

Lemma refit_forgets c fs X' y' :
  (forall m X1 y1 X2 y2, fit (fit m X1 y1) X2 y2 = fit m X2 y2) ->
  fit (foldl (Run.refit X y) c fs) X' y' = fit c X' y'.
Proof.
  intros Hforget. revert c. induction fs as [|f fs IH]; intros c; simpl.
  - done.
  - rewrite IH. apply Hforget.
Qed.
End FoldFacts.

Lemma f1_zero_when_absent pos y_true y_pred :
  pos ∉ y_true -> (f1 (prfs_of pos y_true y_pred) == 0)%Q.
Proof.
  intros Habs. unfold prfs_of. simpl.
  assert (Hc : count_eq pos y_true = 0).
  { unfold count_eq. induction y_true as [|a l IH]; [done|].
    apply not_elem_of_cons in Habs as [Hne Habs].
    rewrite filter_cons, decide_False by done. auto. }
  pose proof (count_both_le_true pos y_true y_pred) as Hle.
  rewrite Hc in *. assert (Hb : count_both pos y_true y_pred = 0) by lia.
  rewrite Hb. unfold prf_divide at 2. simpl.
  set (p := prf_divide 0 _). set (denom := if Qeq_bool _ 0 then _ else _).
  unfold B64.mul, B64.div.
  rewrite (rnd_zero (2 * p * 0)) by ring.
  rewrite (rnd_zero (0 / denom)); [done|]. unfold Qdiv. ring.
Qed.

(** The nearest-neighbour estimator meets the interface. *)
Definition nn_classifier : Classifier :=
  {| sample := Z;
     model := list (Z * label);
     fit := NearestNeighbour.nn_fit;
     predict := NearestNeighbour.nn_predict;
     predict_length := NearestNeighbourFacts.nn_predict_length;
     predict_classes := NearestNeighbourFacts.nn_predict_classes |}.

(** * The properties of the specification *)

(** C3 (as amended).  For every sample count [n] with at least as many
    samples as splits ([0 < k <= n]), the shuffled k-fold split returns [k]
    folds; the test index sets, taken together, hold every index of
    [0..n-1] exactly once (so they are pairwise disjoint); the test set of
    fold [i] is the contiguous slice of the shuffled index array that starts
    after the earlier folds and has [n / k] entries, one more for the first
    [n mod k] folds; and the training indices of a fold are the indices
    outside its test set.  The split is a function of the sample count and
    the shuffle alone: the labels do not enter it. *)
Theorem kfold_test_sets_partition (k : nat) (draw : nat -> nat) (n : nat) :
  0 < k <= n ->
  exists folds,
    KFold.split {| KFold.n_splits := k; KFold.shuffle := true |} draw n n
    = Ok folds
    /\ length folds = k
    /\ Np.shuffle draw (Np.arange n) ≡ₚ seq 0 n
    /\ concat (map snd folds) ≡ₚ seq 0 n
    /\ NoDup (concat (map snd folds))
    /\ (forall y y' : list label,
          length y = n -> length y' = n ->
          KFold.split {| KFold.n_splits := k; KFold.shuffle := true |}
            draw n (length y)
          = KFold.split {| KFold.n_splits := k; KFold.shuffle := true |}
              draw n (length y'))
    /\ forall i train test, folds !! i = Some (train, test) ->
         test ≡ₚ take (n / k + (if i <? n mod k then 1 else 0))
                   (drop (i * (n / k) + Nat.min i (n mod k))
                      (Np.shuffle draw (Np.arange n)))
         /\ length test = n / k + (if i <? n mod k then 1 else 0)
         /\ train ++ test ≡ₚ seq 0 n.
Proof.
  intros Hk. destruct (kfold_split_spec k draw n Hk)
    as (folds & Hsplit & Hlen & Hperm & Hcover & Hnodup & Hfold).
  exists folds. do 5 (split; [done|]).
  split; [by intros y y' -> ->|done].
Qed.

(** C3, the claim as written, fails below [k] samples: with three samples
    the five-fold split raises instead of producing five test sets, and the
    cross-validation cell stops there with nothing fitted or recorded. *)
Lemma kfold_fewer_samples_than_splits :
  KFold.split kf5 (fun i => i) 3 3 = Raise ValueError
  /\ (~ exists folds, KFold.split kf5 (fun i => i) 3 3 = Ok folds)
  /\ @Magnetism.cross_validation nn_classifier sqrt16 (fun i => i)
       [1; 2; 3]%Z [0; 1; 0]%Z (@Magnetism.init nn_classifier [])
     = (@Magnetism.init nn_classifier [], Raise ValueError).
Proof.
  split; [reflexivity|]. split; [by intros [folds Hf]|]. reflexivity.
Qed.

Section Claims.
Context `{Classifier}.
Variable np_sqrt : Q -> Q.

(** C1.  When [fit] discards what an earlier [fit] left in the estimator,
    the estimator that leaves the cross-validation cell is the loaded one
    fitted on the training rows of the last fold only, every earlier fold
    having been overwritten; the hold-out cell then scores the held-out set
    with exactly that estimator, no other [fit] happening in between. *)
Theorem holdout_scored_by_last_fold_fit (draw : nat -> nat) (loaded : model)
    (X_train : list sample) (y_train : list label)
    (X_test : list sample) (y_test : list label) :
  (forall m X1 y1 X2 y2, fit (fit m X1 y1) X2 y2 = fit m X2 y2) ->
  5 <= length X_train -> length y_train = length X_train ->
  Forall binary y_train ->
  X_test <> [] -> length y_test = length X_test ->
  exists folds train test,
    KFold.split kf5 draw (length X_train) (length y_train) = Ok folds
    /\ last folds = Some (train, test)
    /\ let last_fit :=
         fit loaded (Run.rows X_train train) (Run.rows y_train train) in
       let '(st, acc, _) :=
         Magnetism.pipeline np_sqrt draw loaded X_train y_train X_test y_test in
       Magnetism.clf st = foldl (Run.refit X_train y_train) loaded folds
       /\ Magnetism.clf st = last_fit
       /\ acc = Magnetism.holdout_score last_fit X_test y_test
       /\ exists a, acc = Ok a.
Proof.
  intros Hforget Hn Hlen Hbin Hne Hlen'.
  destruct (run_ok X_train y_train 1%Z 0%Z Hlen Hbin
              ltac:(by right) ltac:(by left) draw 5 loaded ltac:(lia))
    as (folds & Hsplit & Hfolds & Hgood & Hrun).
  destruct (last folds) as [[train test]|] eqn:Hlast; cycle 1.
  { apply last_None in Hlast. by subst folds. }
  exists folds, train, test. split; [done|]. split; [done|].
  unfold Magnetism.pipeline. rewrite magnetism_cross_validation, Hrun.
  cbn [Run.final Run.ended Magnetism.clf].
  apply last_Some in Hlast as [front ->].
  assert (Hfit : foldl (Run.refit X_train y_train) loaded (front ++ [(train, test)])
                 = fit loaded (Run.rows X_train train) (Run.rows y_train train)).
  { rewrite foldl_app. simpl. unfold Run.refit at 1. simpl.
    by apply refit_forgets. }
  split; [done|]. split; [done|]. rewrite Hfit.
  split; [done|].
  change (Ok tt ≫= _) with (Magnetism.holdout_score
    (fit loaded (Run.rows X_train train) (Run.rows y_train train))
    X_test y_test).
  unfold Magnetism.holdout_score.
  destruct (score_fraction (fit loaded (Run.rows X_train train)
              (Run.rows y_train train)) X_test y_test Hne Hlen')
    as (acc & -> & _).
  by eexists.
Qed.

(** C2.  On a binary-labelled training set of at least five rows the
    cross-validation cell ends normally after five folds.  Fold [i] fits the
    estimator on the rows of its training indices, which are the test
    indices of all the other folds, predicts the rows of its own test
    indices, and appends the F1 value for positive label 1 to [fm_scores]
    and the F1 value for positive label 0 to [afm_scores], both at position
    [i]; each sequence ends with exactly five entries. *)
Theorem every_fold_fitted_predicted_scored (draw : nat -> nat)
    (loaded : model) (X_train : list sample) (y_train : list label) :
  5 <= length X_train -> length y_train = length X_train ->
  Forall binary y_train ->
  exists folds,
    KFold.split kf5 draw (length X_train) (length y_train) = Ok folds
    /\ length folds = 5
    /\ let '(st, r) :=
         Magnetism.cross_validation np_sqrt draw X_train y_train
           (Magnetism.init loaded) in
       r = Ok tt
       /\ length (Magnetism.fm_scores st) = 5
       /\ length (Magnetism.afm_scores st) = 5
       /\ forall i train test, folds !! i = Some (train, test) ->
            let before :=
              foldl (Run.refit X_train y_train) loaded (take i folds) in
            let fitted :=
              fit before (Run.rows X_train train) (Run.rows y_train train) in
            let y_true := Run.rows y_train test in
            let y_pred := predict fitted (Run.rows X_train test) in
            train ≡ₚ concat (map snd (delete i folds))
            /\ Np.take_rows X_train train = Ok (Run.rows X_train train)
            /\ Np.take_rows y_train train = Ok (Run.rows y_train train)
            /\ Np.take_rows X_train test = Ok (Run.rows X_train test)
            /\ Np.take_rows y_train test = Ok y_true
            /\ exists f1s_fm f1s_afm,
                 f1_score y_true y_pred 1 = Ok f1s_fm
                 /\ f1_score y_true y_pred 0 = Ok f1s_afm
                 /\ Magnetism.fm_scores st !! i = Some f1s_fm
                 /\ Magnetism.afm_scores st !! i = Some f1s_afm.
Proof.
  intros Hn Hlen Hbin.
  destruct (run_ok X_train y_train 1%Z 0%Z Hlen Hbin
              ltac:(by right) ltac:(by left) draw 5 loaded ltac:(lia))
    as (folds & Hsplit & Hfolds & Hgood & Hrun).
  exists folds. split; [done|]. split; [done|].
  rewrite magnetism_cross_validation, Hrun.
  cbn [Run.final Run.ended Run.pairs Magnetism.fm_scores
       Magnetism.afm_scores].
  split; [done|].
  split; [by rewrite length_map, scores_length|].
  split; [by rewrite length_map, scores_length|].
  intros i train test Hi.
  set (before := foldl (Run.refit X_train y_train) loaded (take i folds)).
  rewrite Forall_lookup in Hgood. pose proof (Hgood i _ Hi) as Hg.
  split.
  { rewrite Hlen in Hsplit.
    eapply (kfold_train_union 5); [|exact Hsplit|exact Hi]. lia. }
  destruct Hg as (Htr & _ & Hte & _).
  assert (Htr' : Forall (fun i => i < length y_train) train)
    by by rewrite Hlen.
  assert (Hte' : Forall (fun i => i < length y_train) test)
    by by rewrite Hlen.
  simpl in Htr, Hte.
  rewrite !take_rows_rows by done. do 4 (split; [done|]).
  exists (Run.fold_f1 X_train y_train before (train, test) 1),
         (Run.fold_f1 X_train y_train before (train, test) 0).
  split; [|split].
  - apply (fold_f1_score X_train y_train Hlen Hbin before (train, test));
      [by apply Hgood with i|by right].
  - apply (fold_f1_score X_train y_train Hlen Hbin before (train, test));
      [by apply Hgood with i|by left].
  - rewrite !list_lookup_fmap.
    by rewrite (scores_lookup X_train y_train 1%Z 0%Z loaded folds i _ Hi).
Qed.


(** C5.  Running [cross_validate] with the two label codes exchanged
    exchanges the two score sequences and changes nothing else: the first
    sequence of one run is the second of the other, fold by fold the pair
    of values is the same pair in the other order, and the estimator and
    the way the run ended are the same.  The magnetism cell is the run with
    codes (1, 0): its [fm_scores] are the first sequence of that run and
    the second sequence of the run with codes (0, 1). *)
Theorem swapping_labels_swaps_score_sequences (draw : nat -> nat)
    (features : list sample) (labels : list label) (k : nat)
    (positive_label negative_label : label)
    (positive_name negative_name : string) (classifier : model) :
  let '(s1, r1) :=
    Evaluator.cross_validate np_sqrt draw features labels k
      positive_label negative_label positive_name negative_name
      (Evaluator.init classifier) in
  let '(s2, r2) :=
    Evaluator.cross_validate np_sqrt draw features labels k
      negative_label positive_label positive_name negative_name
      (Evaluator.init classifier) in
  let '(e10, _) :=
    Evaluator.cross_validate np_sqrt draw features labels 5 1 0
      positive_name negative_name (Evaluator.init classifier) in
  let '(e01, _) :=
    Evaluator.cross_validate np_sqrt draw features labels 5 0 1
      positive_name negative_name (Evaluator.init classifier) in
  let '(sm, _) :=
    Magnetism.cross_validation np_sqrt draw features labels
      (Magnetism.init classifier) in
  Evaluator.positive_scores s2 = Evaluator.negative_scores s1
  /\ Evaluator.negative_scores s2 = Evaluator.positive_scores s1
  /\ zip (Evaluator.positive_scores s2) (Evaluator.negative_scores s2)
     = map prod_swap
         (zip (Evaluator.positive_scores s1) (Evaluator.negative_scores s1))
  /\ Evaluator.clf s2 = Evaluator.clf s1
  /\ r2 = r1
  /\ Magnetism.fm_scores sm = Evaluator.positive_scores e10
  /\ Magnetism.afm_scores sm = Evaluator.negative_scores e10
  /\ Magnetism.fm_scores sm = Evaluator.negative_scores e01
  /\ Magnetism.afm_scores sm = Evaluator.positive_scores e01.
Proof.
  rewrite !evaluator_cross_validate, magnetism_cross_validation.
  rewrite (run_swap features labels positive_label negative_label).
  rewrite (run_swap features labels 1%Z 0%Z).
  cbn [Run.final Run.pairs Run.ended Evaluator.positive_scores
       Evaluator.negative_scores Evaluator.clf Magnetism.fm_scores
       Magnetism.afm_scores].
  assert (Hfst : forall l : list (Q * Q),
            map fst (map prod_swap l) = map snd l).
  { intros l. by rewrite <- list_fmap_compose. }
  assert (Hsnd : forall l : list (Q * Q),
            map snd (map prod_swap l) = map fst l).
  { intros l. by rewrite <- list_fmap_compose. }
  rewrite !Hfst, !Hsnd. repeat split.
  rewrite zip_fst_snd.
  generalize (Run.pairs (Run.run draw features labels k positive_label
                           negative_label classifier)).
  intros l. induction l as [|[p n] l IH]; simpl; [done|]. by rewrite IH.
Qed.

Lemma summary_line_explicit name (s : list Q) :
  Run.summary_line np_sqrt name s
  = name
      +:+ " Mean: "
      +:+ Fmt.fixed 2 (B64.div (Stats.sum s) (Stats.of_nat (length s)))
      +:+ " median: " +:+ Fmt.fixed 2 (Stats.median s)
      +:+ " stdev: "
      +:+ Fmt.fixed 2
            (np_sqrt
               (B64.div
                  (Stats.sum
                     (map (fun x => B64.mul (B64.sub x (Stats.mean s))
                                            (B64.sub x (Stats.mean s))) s))
                  (Stats.of_nat (length s)))).
Proof.
  unfold Run.summary_line, Stats.std, Stats.var.
  unfold Stats.mean at 1 2. by rewrite length_map.
Qed.

(** C6.  On a binary-labelled training set of at least five rows either
    cross-validation cell prints twelve lines.  Lines [2 i] and [2 i + 1]
    belong to fold [i]: ["[fold i] <Class> score: "] followed by the F1
    value of that fold with three decimals, first for positive label 1 (FM,
    Topological), then for positive label 0 (AFM, Trivial); the values are
    those [f1_score] gives on the true and predicted labels of the fold, the
    ones recorded at position [i] of the score sequences.  The last two
    lines are the summaries, one per class:
    ["<Class> Mean: m median: d stdev: s"] with two decimals each, where [m]
    is the sum of the scores divided by their number, [d] their median and
    [s] the square root of the mean squared deviation from the mean
    (divisor: the number of scores, not one less).  A non-negative float
    printed with [d > 0] decimals shows the multiple of [10^-d] nearest to
    the value it holds, written as integer part, point and zero-padded
    fraction. *)
Theorem console_output_format (draw : nat -> nat) (loaded : model)
    (X_train : list sample) (y_train : list label) :
  5 <= length X_train -> length y_train = length X_train ->
  Forall binary y_train ->
  let fold_line := fun (i : nat) (class_name : string) (f1 : Q) =>
    "[fold " +:+ pretty i +:+ "] " +:+ class_name +:+ " score: "
      +:+ Fmt.fixed 3 f1 in
  let summary := fun (class_name : string) (s : list Q) =>
    class_name
      +:+ " Mean: "
      +:+ Fmt.fixed 2 (B64.div (Stats.sum s) (Stats.of_nat (length s)))
      +:+ " median: " +:+ Fmt.fixed 2 (Stats.median s)
      +:+ " stdev: "
      +:+ Fmt.fixed 2
            (np_sqrt
               (B64.div
                  (Stats.sum
                     (map (fun x => B64.mul (B64.sub x (Stats.mean s))
                                            (B64.sub x (Stats.mean s))) s))
                  (Stats.of_nat (length s)))) in
  exists folds,
    KFold.split kf5 draw (length X_train) (length y_train) = Ok folds
    /\ length folds = 5
    /\ let '(sm, rm) :=
         Magnetism.cross_validation np_sqrt draw X_train y_train
           (Magnetism.init loaded) in
       let '(st, rt) :=
         Topology.cross_validation np_sqrt draw X_train y_train
           (Topology.init loaded) in
       rm = Ok tt /\ rt = Ok tt
       /\ length (Magnetism.stdout sm) = 12
       /\ length (Topology.stdout st) = 12
       /\ (forall i train test, folds !! i = Some (train, test) ->
             let before :=
               foldl (Run.refit X_train y_train) loaded (take i folds) in
             let fitted :=
               fit before (Run.rows X_train train) (Run.rows y_train train) in
             let y_true := Run.rows y_train test in
             let y_pred := predict fitted (Run.rows X_train test) in
             exists f1s_pos f1s_neg,
               f1_score y_true y_pred 1 = Ok f1s_pos
               /\ f1_score y_true y_pred 0 = Ok f1s_neg
               /\ Magnetism.fm_scores sm !! i = Some f1s_pos
               /\ Magnetism.afm_scores sm !! i = Some f1s_neg
               /\ Topology.topo_scores st !! i = Some f1s_pos
               /\ Topology.triv_scores st !! i = Some f1s_neg
               /\ Magnetism.stdout sm !! (2 * i)
                  = Some (fold_line i "FM" f1s_pos)
               /\ Magnetism.stdout sm !! (2 * i + 1)
                  = Some (fold_line i "AFM" f1s_neg)
               /\ Topology.stdout st !! (2 * i)
                  = Some (fold_line i "Topological" f1s_pos)
               /\ Topology.stdout st !! (2 * i + 1)
                  = Some (fold_line i "Trivial" f1s_neg))
       /\ drop 10 (Magnetism.stdout sm)
          = [summary "FM" (Magnetism.fm_scores sm);
             summary "AFM" (Magnetism.afm_scores sm)]
       /\ drop 10 (Topology.stdout st)
          = [summary "Topological" (Topology.topo_scores st);
             summary "Trivial" (Topology.triv_scores st)]
       /\ forall (d : nat) (x : Q), (0 <= x)%Q -> 0 < d ->
            let m :=
              B64.round_half_even (B64.rnd x * inject_Z (10 ^ Z.of_nat d)) in
            Fmt.fixed d x
            = pretty (m / 10 ^ Z.of_nat d)%Z +:+ "." +:+
              Fmt.zero_pad d (pretty (m mod 10 ^ Z.of_nat d)%Z)
            /\ (Qabs (inject_Z m - B64.rnd x * inject_Z (10 ^ Z.of_nat d))
                <= 1 # 2)%Q.
Proof.
  intros Hn Hlen Hbin fold_line summary.
  destruct (run_ok X_train y_train 1%Z 0%Z Hlen Hbin
              ltac:(by right) ltac:(by left) draw 5 loaded ltac:(lia))
    as (folds & Hsplit & Hfolds & Hgood & Hrun).
  exists folds. split; [done|]. split; [done|].
  rewrite magnetism_cross_validation, topology_cross_validation, Hrun.
  cbn [Run.final Run.ended Run.pairs Magnetism.fm_scores Magnetism.afm_scores
       Magnetism.stdout Topology.topo_scores Topology.triv_scores
       Topology.stdout].
  set (sc := Run.scores X_train y_train 1 0 loaded folds).
  assert (Hsc : length sc = 5) by (unfold sc; by rewrite scores_length).
  unfold Run.printed. rewrite zip_fst_snd. cbn [is_ok].
  assert (Hlines : forall pn nn, length (Run.fold_lines pn nn 0 sc) = 10).
  { intros. rewrite fold_lines_length. lia. }
  split; [done|]. split; [done|].
  split; [by rewrite length_app, Hlines|].
  split; [by rewrite length_app, Hlines|].
  split; [|split; [|split]].
  - intros i train test Hi.
    set (before := foldl (Run.refit X_train y_train) loaded (take i folds)).
    rewrite Forall_lookup in Hgood. pose proof (Hgood i _ Hi) as Hg.
    pose proof (scores_lookup X_train y_train 1%Z 0%Z loaded folds i _ Hi)
      as Hlook.
    fold sc in Hlook. fold before in Hlook.
    exists (Run.fold_f1 X_train y_train before (train, test) 1),
           (Run.fold_f1 X_train y_train before (train, test) 0).
    split.
    { apply (fold_f1_score X_train y_train Hlen Hbin before (train, test));
        [done|by right]. }
    split.
    { apply (fold_f1_score X_train y_train Hlen Hbin before (train, test));
        [done|by left]. }
    rewrite !list_lookup_fmap, Hlook. do 4 (split; [done|]).
    assert (Hi2 : 2 * i + 1 < 10).
    { apply lookup_lt_Some in Hlook. lia. }
    rewrite !lookup_app_l by (rewrite Hlines; lia).
    destruct (fold_lines_lookup "FM" "AFM" 0 sc i _ _ Hlook) as [-> ->].
    destruct (fold_lines_lookup "Topological" "Trivial" 0 sc i _ _ Hlook)
      as [-> ->].
    done.
  - rewrite drop_app_length' by (by rewrite Hlines).
    by rewrite !summary_line_explicit.
  - rewrite drop_app_length' by (by rewrite Hlines).
    by rewrite !summary_line_explicit.
  - intros d x Hx Hd. split.
    + by apply fixed_nonneg.
    + apply round_half_even_bound.
Qed.

(** C7.  Every F1 value the cross-validation cells record, for either
    task, either class and whatever the input, lies between 0 and 1. *)
Theorem f1_scores_within_unit_interval (draw : nat -> nat) (loaded : model)
    (X_train : list sample) (y_train : list label) :
  let '(sm, _) :=
    Magnetism.cross_validation np_sqrt draw X_train y_train
      (Magnetism.init loaded) in
  let '(st, _) :=
    Topology.cross_validation np_sqrt draw X_train y_train
      (Topology.init loaded) in
  Forall unit_interval (Magnetism.fm_scores sm)
  /\ Forall unit_interval (Magnetism.afm_scores sm)
  /\ Forall unit_interval (Topology.topo_scores st)
  /\ Forall unit_interval (Topology.triv_scores st).
Proof.
  rewrite magnetism_cross_validation, topology_cross_validation.
  cbn [Magnetism.fm_scores Magnetism.afm_scores Topology.topo_scores
       Topology.triv_scores].
  pose proof (run_unit X_train y_train 1%Z 0%Z draw 5 loaded) as Hunit.
  rewrite Forall_forall in Hunit.
  repeat split; apply Forall_fmap, Forall_forall; intros pn Hpn;
    by destruct (Hunit pn Hpn).
Qed.

(** C8.  On binary labels no fold makes the cell raise, whatever the mix
    of classes in its training or test rows: the cell ends normally with
    five scores per class.  The metric itself is total on binary labels,
    and it is 0 for a positive class that no true label shows. *)
Theorem single_class_fold_does_not_raise (draw : nat -> nat)
    (loaded : model) (X_train : list sample) (y_train : list label) :
  5 <= length X_train -> length y_train = length X_train ->
  Forall binary y_train ->
  (let '(st, r) :=
     Magnetism.cross_validation np_sqrt draw X_train y_train
       (Magnetism.init loaded) in
   r = Ok tt
   /\ length (Magnetism.fm_scores st) = 5
   /\ length (Magnetism.afm_scores st) = 5)
  /\ forall y_true y_pred pos,
       length y_true = length y_pred ->
       Forall binary y_true -> Forall binary y_pred -> binary pos ->
       exists v,
         f1_score y_true y_pred pos = Ok v
         /\ (pos ∉ y_true -> (v == 0)%Q).
Proof.
  intros Hn Hlen Hbin. split.
  - destruct (run_ok X_train y_train 1%Z 0%Z Hlen Hbin
                ltac:(by right) ltac:(by left) draw 5 loaded ltac:(lia))
      as (folds & Hsplit & Hfolds & Hgood & Hrun).
    rewrite magnetism_cross_validation, Hrun.
    cbn [Run.final Run.ended Run.pairs Magnetism.fm_scores
         Magnetism.afm_scores].
    by rewrite !length_map, scores_length.
  - intros y_true y_pred pos Hl Ht Hp Hpos.
    eexists. split; [by apply f1_score_binary|].
    apply f1_zero_when_absent.
Qed.

(** C9.  When both label codes occur among the held-out labels and the
    predictions, the report has exactly two class rows: the first carries
    the first class name and the metrics of label 0, the second carries the
    second class name and the metrics of label 1.  This holds for the
    magnetism report (AFM, FM), the topology report (Trivial, Topological)
    and [evaluate_holdout] with any two names. *)
Theorem report_rows_follow_label_order (c : model)
    (X_test : list sample) (y_test : list label) (name0 name1 : string) :
  X_test <> [] -> length y_test = length X_test ->
  Forall binary y_test -> Forall binary (predict c X_test) ->
  0%Z ∈ y_test ++ predict c X_test -> 1%Z ∈ y_test ++ predict c X_test ->
  let y_pred := predict c X_test in
  (exists rep,
     Magnetism.holdout_report c X_test y_test = Ok rep
     /\ rows rep = [("AFM"%string, prfs_of 0 y_test y_pred);
                    ("FM"%string, prfs_of 1 y_test y_pred)])
  /\ (exists rep,
        Topology.holdout_report c X_test y_test = Ok rep
        /\ rows rep = [("Trivial"%string, prfs_of 0 y_test y_pred);
                       ("Topological"%string, prfs_of 1 y_test y_pred)])
  /\ (exists acc rep,
        Evaluator.evaluate_holdout X_test y_test c [name0; name1]
        = Ok (acc, rep)
        /\ rows rep = [(name0, prfs_of 0 y_test y_pred);
                       (name1, prfs_of 1 y_test y_pred)]).
Proof.
  intros Hne Hlen Ht Hp H0 H1 y_pred.
  assert (Hl : length y_test = length y_pred).
  { unfold y_pred. by rewrite predict_length. }
  assert (Hpred : Estimator.predict_checked c X_test = Ok y_pred).
  { unfold Estimator.predict_checked. by destruct X_test. }
  unfold Magnetism.holdout_report, Topology.holdout_report,
    Evaluator.evaluate_holdout.
  destruct (score_fraction c X_test y_test Hne Hlen) as (acc & Hacc & _).
  rewrite Hpred, Hacc. unfold mbind, result_bind, Py.bind.
  split; [|split].
  - by apply classification_report_rows.
  - by apply classification_report_rows.
  - destruct (classification_report_rows y_test y_pred name0 name1)
      as (rep & -> & Hrows); try done. eauto.
Qed.

(** C10.  On the same training set, loaded estimator and shuffle, the
    magnetism cell and the topology cell end the same way, leave the same
    estimator and record the same two score sequences (hence the same
    mean, median and standard deviation); their printed lines are the same
    function of those scores, applied to the class names FM, AFM in one and
    Topological, Trivial in the other.  Both cells are [cross_validate]
    with five folds and label codes (1, 0). *)
Theorem magnetism_and_topology_loops_agree (draw : nat -> nat)
    (loaded : model) (X_train : list sample) (y_train : list label) :
  let '(sm, rm) :=
    Magnetism.cross_validation np_sqrt draw X_train y_train
      (Magnetism.init loaded) in
  let '(st, rt) :=
    Topology.cross_validation np_sqrt draw X_train y_train
      (Topology.init loaded) in
  rm = rt
  /\ Magnetism.clf sm = Topology.clf st
  /\ Magnetism.fm_scores sm = Topology.topo_scores st
  /\ Magnetism.afm_scores sm = Topology.triv_scores st
  /\ Stats.mean (Magnetism.fm_scores sm) = Stats.mean (Topology.topo_scores st)
  /\ Stats.median (Magnetism.fm_scores sm)
     = Stats.median (Topology.topo_scores st)
  /\ Stats.std np_sqrt (Magnetism.fm_scores sm)
     = Stats.std np_sqrt (Topology.topo_scores st)
  /\ Stats.mean (Magnetism.afm_scores sm)
     = Stats.mean (Topology.triv_scores st)
  /\ Stats.median (Magnetism.afm_scores sm)
     = Stats.median (Topology.triv_scores st)
  /\ Stats.std np_sqrt (Magnetism.afm_scores sm)
     = Stats.std np_sqrt (Topology.triv_scores st)
  /\ Magnetism.stdout sm
     = Run.printed np_sqrt "FM" "AFM"
         (Magnetism.fm_scores sm) (Magnetism.afm_scores sm) rm
  /\ Topology.stdout st
     = Run.printed np_sqrt "Topological" "Trivial"
         (Magnetism.fm_scores sm) (Magnetism.afm_scores sm) rm
  /\ Evaluator.cross_validate np_sqrt draw X_train y_train 5 1 0 "FM" "AFM"
       (Evaluator.init loaded)
     = ({| Evaluator.clf := Magnetism.clf sm;
           Evaluator.positive_scores := Magnetism.fm_scores sm;
           Evaluator.negative_scores := Magnetism.afm_scores sm;
           Evaluator.stdout := Magnetism.stdout sm |}, rm)
  /\ Evaluator.cross_validate np_sqrt draw X_train y_train 5 1 0
       "Topological" "Trivial" (Evaluator.init loaded)
     = ({| Evaluator.clf := Topology.clf st;
           Evaluator.positive_scores := Topology.topo_scores st;
           Evaluator.negative_scores := Topology.triv_scores st;
           Evaluator.stdout := Topology.stdout st |}, rt).
Proof.
  rewrite magnetism_cross_validation, topology_cross_validation.
  rewrite !evaluator_cross_validate. done.
Qed.

End Claims.

(** * The model run on the sample data *)

Example binary64_sum_of_tenths :
  Fmt.fixed 17 (B64.add (B64.rnd (1 # 10)) (B64.rnd (2 # 10)))
  = "0.30000000000000004"%string.
Proof. vm_compute. reflexivity. Qed.

Example binary64_sqrt_two :
  Fmt.fixed 16 (B64.sqrt 2) = "1.4142135623730951"%string.
Proof. vm_compute. reflexivity. Qed.

Example fixed_three_decimals : Fmt.fixed 3 (8537 # 10000) = "0.854"%string.
Proof. vm_compute. reflexivity. Qed.

Example fixed_ties_to_even : Fmt.fixed 2 (1 # 8) = "0.12"%string.
Proof. vm_compute. reflexivity. Qed.

(** 77/80 and 3/40 are no floats: the float next to 0.9625 lies above it,
    the float next to 0.075 below. *)
Example fixed_formats_the_float :
  Fmt.fixed 3 (B64.div 77 80) = "0.963"%string
  /\ Fmt.fixed 2 (B64.div 3 40) = "0.07"%string.
Proof. split; vm_compute; reflexivity. Qed.

Example round_regression_fixture :
  Fmt.round (B64.div 252 315) 2 = B64.rnd (80 # 100).
Proof. vm_compute. reflexivity. Qed.

(** The float next to 23/40 lies below 0.575. *)
Example round_rounds_the_float :
  Fmt.round (B64.div 23 40) 2 = B64.rnd (57 # 100)
  /\ Fmt.fixed 2 (Fmt.round (B64.div 23 40) 2) = "0.57"%string.
Proof. split; vm_compute; reflexivity. Qed.

(** The weighted-average recall of a report is the accuracy only up to
    rounding. *)
Example weighted_recall_next_to_accuracy :
  let ps := [prfs_of 0 Sample.y_true40 Sample.y_pred40;
             prfs_of 1 Sample.y_true40 Sample.y_pred40] in
  accuracy_score Sample.y_true40 Sample.y_pred40 = Ok (B64.div 23 40)
  /\ Fmt.fixed 16 (B64.div 23 40) = "0.5750000000000000"%string
  /\ Fmt.fixed 16 (recall (weighted ps)) = "0.5750000000000001"%string.
Proof. repeat split; vm_compute; reflexivity. Qed.

(** The accuracy line of the report is the accuracy up to rounding, and
    two decimals can tell them apart. *)
Example report_accuracy_next_to_accuracy :
  accuracy_score Sample.y_true19 Sample.y_pred19 = Ok (B64.div 19 40)
  /\ Fmt.fixed 2 (Fmt.round (B64.div 19 40) 2) = "0.47"%string
  /\ (rep ← classification_report Sample.y_true19 Sample.y_pred19
              ["AFM"; "FM"]%string;
      Ok (Fmt.fixed 2 (accuracy rep), Fmt.fixed 17 (accuracy rep)))
     = Ok ("0.48", "0.47500000000000003")%string.
Proof. repeat split; vm_compute; reflexivity. Qed.

Example split_twelve_samples :
  KFold.split kf5 Sample.draw 12 12
  = Ok [([0; 1; 2; 3; 4; 5; 6; 7; 8], [9; 10; 11]);
        ([3; 4; 5; 6; 7; 8; 9; 10; 11], [0; 1; 2]);
        ([0; 1; 2; 5; 6; 7; 8; 9; 10; 11], [3; 4]);
        ([0; 1; 2; 3; 4; 7; 8; 9; 10; 11], [5; 6]);
        ([0; 1; 2; 3; 4; 5; 6; 9; 10; 11], [7; 8])].
Proof. vm_compute. reflexivity. Qed.

Example magnetism_console_on_sample :
  Magnetism.stdout
    (@Magnetism.cross_validation nn_classifier B64.sqrt Sample.draw
       Sample.X_train Sample.y_train
       (@Magnetism.init nn_classifier Sample.loaded)).1
  = ["[fold 0] FM score: 0.800"; "[fold 0] AFM score: 0.000";
     "[fold 1] FM score: 0.000"; "[fold 1] AFM score: 1.000";
     "[fold 2] FM score: 1.000"; "[fold 2] AFM score: 0.000";
     "[fold 3] FM score: 1.000"; "[fold 3] AFM score: 1.000";
     "[fold 4] FM score: 0.000"; "[fold 4] AFM score: 0.667";
     "FM Mean: 0.56 median: 0.80 stdev: 0.46";
     "AFM Mean: 0.53 median: 0.67 stdev: 0.45"]%string.
Proof. vm_compute. reflexivity. Qed.

(** The five-fold split of twelve samples. *)
Lemma kfold_test_sets_partition_witness :
  0 < 5 <= 12
  /\ exists folds,
       KFold.split kf5 Sample.draw 12 12 = Ok folds
       /\ length folds = 5
       /\ concat (map snd folds) ≡ₚ seq 0 12.
Proof.
  split; [lia|].
  destruct (kfold_test_sets_partition 5 Sample.draw 12)
    as (folds & Hsplit & Hlen & _ & Hcover & _); [lia|].
  exists folds. auto.
Defined.

(** The nearest-neighbour estimator on the sample data: after the cell it
    holds the training rows of the last fold. *)
Lemma holdout_scored_by_last_fold_fit_witness :
  exists folds train test,
    KFold.split kf5 Sample.draw 12 12 = Ok folds
    /\ last folds = Some (train, test)
    /\ Magnetism.clf
         (@Magnetism.pipeline nn_classifier sqrt16 Sample.draw Sample.loaded
            Sample.X_train Sample.y_train Sample.X_test Sample.y_test).1.1
       = NearestNeighbour.nn_fit Sample.loaded
           (Run.rows Sample.X_train train) (Run.rows Sample.y_train train).
Proof.
  destruct (@holdout_scored_by_last_fold_fit nn_classifier sqrt16
              Sample.draw Sample.loaded Sample.X_train Sample.y_train
              Sample.X_test Sample.y_test)
    as (folds & train & test & Hsplit & Hlast & Hrun).
  - reflexivity.
  - simpl. lia.
  - reflexivity.
  - solve_binary.
  - by vm_compute.
  - reflexivity.
  - exists folds, train, test. split; [exact Hsplit|]. split; [exact Hlast|].
    destruct (Magnetism.pipeline _ _ _ _ _ _ _) as [[st acc] rep].
    destruct Hrun as (_ & Hclf & _). exact Hclf.
Defined.

(** Five folds and five FM scores on the sample data. *)
Lemma every_fold_fitted_predicted_scored_witness :
  exists folds,
    KFold.split kf5 Sample.draw 12 12 = Ok folds
    /\ length folds = 5
    /\ length (Magnetism.fm_scores
                 (@Magnetism.cross_validation nn_classifier sqrt16 Sample.draw
                    Sample.X_train Sample.y_train
                    (@Magnetism.init nn_classifier Sample.loaded)).1) = 5.
Proof.
  destruct (@every_fold_fitted_predicted_scored nn_classifier sqrt16
              Sample.draw Sample.loaded Sample.X_train Sample.y_train)
    as (folds & Hsplit & Hlen & Hrun).
  - simpl. lia.
  - reflexivity.
  - solve_binary.
  - exists folds. split; [exact Hsplit|]. split; [exact Hlen|].
    destruct (Magnetism.cross_validation _ _ _ _ _) as [st r].
    destruct Hrun as (_ & Hfm & _). exact Hfm.
Defined.

(** On the sample data the test rows of fold 1 are all of class 0, and the
    cell ends normally. *)
Lemma single_class_fold_does_not_raise_witness :
  Run.rows Sample.y_train [0; 1; 2] = [0; 0; 0]%Z
  /\ (@Magnetism.cross_validation nn_classifier sqrt16 Sample.draw
        Sample.X_train Sample.y_train
        (@Magnetism.init nn_classifier Sample.loaded)).2 = Ok tt.
Proof.
  split; [reflexivity|].
  destruct (@single_class_fold_does_not_raise nn_classifier sqrt16
              Sample.draw Sample.loaded Sample.X_train Sample.y_train)
    as [Hrun _].
  - simpl. lia.
  - reflexivity.
  - solve_binary.
  - destruct (Magnetism.cross_validation _ _ _ _ _) as [st r].
    destruct Hrun as (Hr & _). exact Hr.
Defined.


(** Twelve lines on the sample data, in both cells. *)
Lemma console_output_format_witness :
  length (Magnetism.stdout
            (@Magnetism.cross_validation nn_classifier B64.sqrt Sample.draw
               Sample.X_train Sample.y_train
               (@Magnetism.init nn_classifier Sample.loaded)).1) = 12
  /\ length (Topology.stdout
               (@Topology.cross_validation nn_classifier B64.sqrt Sample.draw
                  Sample.X_train Sample.y_train
                  (@Topology.init nn_classifier Sample.loaded)).1) = 12.
Proof.
  destruct (@console_output_format nn_classifier B64.sqrt
              Sample.draw Sample.loaded Sample.X_train Sample.y_train)
    as (folds & _ & _ & Hrun).
  - simpl. lia.
  - reflexivity.
  - solve_binary.
  - do 2 (apply let_pair_elim in Hrun).
    destruct Hrun as (_ & _ & Hm & Ht & _). split; [exact Hm|exact Ht].
Defined.

(** The magnetism report on the sample data. *)
Lemma report_rows_follow_label_order_witness :
  exists rep,
    @Magnetism.holdout_report nn_classifier Sample.loaded Sample.X_test
      Sample.y_test = Ok rep
    /\ map fst (rows rep) = ["AFM"; "FM"]%string.
Proof.
  destruct (@report_rows_follow_label_order nn_classifier Sample.loaded
              Sample.X_test Sample.y_test "negative" "positive")
    as ((rep & Hrep & Hrows) & _).
  - by vm_compute.
  - reflexivity.
  - solve_binary.
  - solve_binary.
  - by left.
  - right. by left.
  - exists rep. split; [exact Hrep|]. by rewrite Hrows.
Defined.


(** * Further properties of the notebook code *)

(** ** When the split raises, and what it needs to succeed *)

Lemma kfold_split_raises kf draw n_X n_y :
  n_y <> n_X \/ n_X < KFold.n_splits kf ->
  KFold.split kf draw n_X n_y = Raise ValueError.
Proof.
  intros Hbad. unfold KFold.split.
  destruct (Nat.eqb_spec n_X n_y) as [->|Hne]; simpl; [|done].
  destruct (Nat.ltb_spec n_y (KFold.n_splits kf)); [done|].
  destruct Hbad; [done|lia].
Qed.

Lemma kfold_split_ok_inv kf draw n_X n_y folds :
  KFold.split kf draw n_X n_y = Ok folds ->
  n_y = n_X /\ KFold.n_splits kf <= n_X.
Proof.
  unfold KFold.split.
  destruct (Nat.eqb_spec n_X n_y) as [->|Hne]; simpl; [|done].
  destruct (Nat.ltb_spec n_y (KFold.n_splits kf)); [done|]. auto.
Qed.

Section RunShape.
Context `{Classifier}.
Variables (X : list sample) (y : list label) (pl nl : label).

Lemma run_split_raises draw k c :
  length y <> length X \/ length X < 5 -> k = 5 ->
  Run.run draw X y k pl nl c
  = {| Run.final := c; Run.pairs := []; Run.ended := Raise ValueError |}.
Proof.
  intros Hbad ->. unfold Run.run. rewrite kfold_new_ok by lia.
  unfold mbind, result_bind, Py.bind.
  by rewrite kfold_split_raises.
Qed.

Lemma step_raises_value_error c f e :
  length y = length X -> good_fold (length X) f ->
  (Run.step X y pl nl c f).2 = Raise e -> e = ValueError.
Proof.
  intros Hlen (Htr & _ & Hte & _).
  assert (Htr' : Forall (fun i => i < length y) f.1) by by rewrite Hlen.
  assert (Hte' : Forall (fun i => i < length y) f.2) by by rewrite Hlen.
  unfold Run.step.
  rewrite (take_rows_rows X f.1), (take_rows_rows y f.1) by done.
  rewrite (take_rows_rows X f.2), (take_rows_rows y f.2) by done.
  unfold mbind, result_bind, Py.bind.
  unfold Estimator.fit_checked, Estimator.predict_checked.
  destruct (length (Run.rows X f.1) =? 0); simpl; [by intros [= <-]|].
  destruct (negb _); simpl; [by intros [= <-]|].
  destruct (length (Run.rows X f.2) =? 0); simpl; [by intros [= <-]|].
  destruct (f1_score _ _ pl) eqn:Hp; [|by apply f1_score_raises in Hp; intros [= <-]].
  destruct (f1_score _ _ nl) eqn:Hn; [done|].
  apply f1_score_raises in Hn. by intros [= <-].
Qed.

Lemma trace_raises_value_error c fs e :
  length y = length X -> Forall (good_fold (length X)) fs ->
  (Run.trace X y pl nl c fs).2 = Raise e -> e = ValueError.
Proof.
  intros Hlen Hgood. revert c.
  induction Hgood as [|f fs Hf _ IH]; intros c; simpl; [done|].
  pose proof (step_raises_value_error c f) as Hstep.
  destruct (Run.step X y pl nl c f) as [c1 [[p n]|e1]]; simpl in *.
  - specialize (IH c1).
    destruct (Run.trace X y pl nl c1 fs) as [[c2 pairs] r]. simpl in *. done.
  - intros [= <-]. by apply Hstep.
Qed.

Lemma run_raises_value_error draw k c e :
  2 <= k ->
  Run.ended (Run.run draw X y k pl nl c) = Raise e -> e = ValueError.
Proof.
  intros Hk. unfold Run.run. rewrite kfold_new_ok by done.
  unfold mbind, result_bind, Py.bind.
  destruct (KFold.split _ draw (length X) (length y)) as [folds|e1] eqn:Hsplit;
    simpl.
  - destruct (kfold_split_ok_inv _ _ _ _ _ Hsplit) as [Hlen Hn].
    rewrite Hlen in Hsplit. simpl in Hn.
    destruct (kfold_split_good k draw (length X) folds ltac:(done) Hsplit)
      as [_ Hgood].
    pose proof (trace_raises_value_error c folds e Hlen Hgood) as Htr.
    destruct (Run.trace X y pl nl c folds) as [[c2 pairs] r]. done.
  - intros [= <-]. unfold KFold.split in Hsplit.
    repeat case_match; by simplify_eq.
Qed.

Lemma trace_length c fs :
  let '(_, pairs, r) := Run.trace X y pl nl c fs in
  if is_ok r then length pairs = length fs else length pairs < length fs.
Proof.
  revert c. induction fs as [|f fs IH]; intros c; simpl; [done|].
  destruct (Run.step X y pl nl c f) as [c1 [[p n]|e1]]; simpl; [|lia].
  specialize (IH c1).
  destruct (Run.trace X y pl nl c1 fs) as [[c2 pairs] r]. simpl.
  destruct (is_ok r); lia.
Qed.

Lemma run_length draw c :
  let o := Run.run draw X y 5 pl nl c in
  if is_ok (Run.ended o) then length (Run.pairs o) = 5
  else length (Run.pairs o) < 5.
Proof.
  unfold Run.run. rewrite kfold_new_ok by lia.
  unfold mbind, result_bind, Py.bind.
  destruct (KFold.split _ draw (length X) (length y)) as [folds|e1] eqn:Hsplit;
    simpl; [|lia].
  destruct (kfold_split_ok_inv _ _ _ _ _ Hsplit) as [Hlen Hn].
  rewrite Hlen in Hsplit. simpl in Hn.
  destruct (kfold_split_good 5 draw (length X) folds ltac:(lia) Hsplit)
    as [Hfolds _].
  pose proof (trace_length c folds) as Htr.
  destruct (Run.trace X y pl nl c folds) as [[c2 pairs] r]. simpl.
  unfold Run.fold in Htr. by rewrite Hfolds in Htr.
Qed.

Lemma trace_same_refit c c' fs :
  (forall X' y', fit c X' y' = fit c' X' y') ->
  (Run.trace X y pl nl c fs).1.2 = (Run.trace X y pl nl c' fs).1.2
  /\ (Run.trace X y pl nl c fs).2 = (Run.trace X y pl nl c' fs).2.
Proof.
  intros Hfit. destruct fs as [|f fs]; simpl; [done|].
  unfold Run.step. unfold mbind, result_bind, Py.bind.
  destruct (Np.take_rows X f.1) as [X_fit|e]; [|done].
  destruct (Np.take_rows y f.1) as [y_fit|e]; [|done].
  unfold Estimator.fit_checked. rewrite Hfit.
  destruct (length X_fit =? 0); [done|].
  destruct (negb _); [done|].
  destruct (Np.take_rows y f.2); [|done].
  destruct (Np.take_rows X f.2); [|done].
  destruct (Estimator.predict_checked _ _); [|done].
  destruct (f1_score _ _ pl); [|done].
  destruct (f1_score _ _ nl); [|done].
  by destruct (Run.trace X y pl nl (fit c' X_fit y_fit) fs) as [[c2 pairs] r].
Qed.

Lemma run_same_refit draw k c c' :
  (forall X' y', fit c X' y' = fit c' X' y') ->
  Run.pairs (Run.run draw X y k pl nl c) = Run.pairs (Run.run draw X y k pl nl c')
  /\ Run.ended (Run.run draw X y k pl nl c)
     = Run.ended (Run.run draw X y k pl nl c').
Proof.
  intros Hfit. unfold Run.run. destruct (_ ≫= _) as [folds|e]; [|done].
  destruct (trace_same_refit c c' folds Hfit) as [Hp Hr].
  destruct (Run.trace X y pl nl c folds) as [[c2 pairs] r].
  by destruct (Run.trace X y pl nl c' folds) as [[c2' pairs'] r'].
Qed.
End RunShape.

(** ** Index arrays selected by a mask come out in increasing order *)

Lemma mask_select_seq_bound s n mask x :
  x ∈ Np.mask_select (seq s n) mask -> s <= x < s + n.
Proof.
  intros (j & [-> ?]%lookup_seq & _)%mask_select_elem_of. lia.
Qed.

Lemma mask_select_seq_increasing s n mask i j a b :
  i < j ->
  Np.mask_select (seq s n) mask !! i = Some a ->
  Np.mask_select (seq s n) mask !! j = Some b ->
  a < b.
Proof.
  revert s mask i j. induction n as [|n IH]; intros s mask i j Hij; simpl.
  - done.
  - destruct mask as [|b0 mask]; [done|]. destruct b0.
    + destruct i as [|i], j as [|j]; simpl; try lia.
      * intros [= <-] Hb%list_elem_of_lookup_2.
        apply mask_select_seq_bound in Hb. lia.
      * apply IH. lia.
    + apply IH. done.
Qed.

Lemma train_indices_elem_of n t x :
  x ∈ Np.mask_select (Np.arange n) (map negb (KFold.test_mask n t))
  <-> x < n /\ x ∉ t.
Proof.
  rewrite mask_select_elem_of. unfold Np.arange. split.
  - intros (j & [-> ?]%lookup_seq & Hm). simpl in *.
    rewrite list_lookup_fmap, test_mask_lookup in Hm by done.
    simpl in Hm. injection Hm as Hm%negb_true_iff%bool_decide_eq_false. done.
  - intros [Hx Hin]. exists x. split; [by apply lookup_seq|].
    rewrite list_lookup_fmap, test_mask_lookup by done. simpl. f_equal.
    by apply negb_true_iff, bool_decide_eq_false.
Qed.

Lemma kfold_split_fold_shape kf draw n folds i train test :
  KFold.split kf draw n n = Ok folds ->
  folds !! i = Some (train, test) ->
  (forall x, x ∈ train <-> x < n /\ x ∉ test)
  /\ (forall p q a b, p < q -> train !! p = Some a -> train !! q = Some b ->
        a < b)
  /\ (forall p q a b, p < q -> test !! p = Some a -> test !! q = Some b ->
        a < b).
Proof.
  unfold KFold.split. rewrite Nat.eqb_refl. simpl.
  destruct (n <? KFold.n_splits kf); [done|]. intros [= <-].
  rewrite list_lookup_fmap.
  destruct (KFold.iter_test_indices kf draw n !! i) as [t|]; [|done].
  simpl. intros [= <- <-]. split; [|split].
  - intros x. rewrite train_indices_elem_of, test_indices_elem_of. tauto.
  - intros p q a b. apply mask_select_seq_increasing.
  - intros p q a b. apply mask_select_seq_increasing.
Qed.

(** ** Accuracy and its rounding stay within the unit interval *)

Section Unit.
Local Open Scope Q_scope.

Lemma round_two_decimals_unit x :
  0 <= x <= 1 -> 0 <= Fmt.round x 2 <= 1.
Proof.
  intros Hx.
  destruct (round_two_decimals x Hx) as (m & [Hlo Hhi] & -> & _).
  apply rnd_unit. unfold Qle. simpl. lia.
Qed.

Lemma of_nat_le a b : (a <= b)%nat -> Stats.of_nat a <= Stats.of_nat b.
Proof. intros. unfold Stats.of_nat. rewrite <- Zle_Qle. lia. Qed.
End Unit.

(** ** The classes of a binary problem *)

Lemma unique_labels_binary_exact y_true y_pred :
  Forall binary y_true -> Forall binary y_pred ->
  unique_labels y_true y_pred
  = bin_set (bool_decide (0%Z ∈ y_true ++ y_pred))
            (bool_decide (1%Z ∈ y_true ++ y_pred)).
Proof.
  intros Ht Hp. destruct (unique_labels_binary _ _ Ht Hp) as (a & b & Hu).
  rewrite Hu. f_equal.
  - destruct (decide (0%Z ∈ y_true ++ y_pred)) as [Hin|Hout].
    + rewrite bool_decide_eq_true_2 by done.
      apply mem_unique_labels in Hin. rewrite Hu in Hin. by destruct a, b.
    + rewrite bool_decide_eq_false_2 by done. destruct a; [|done].
      exfalso. apply Hout, elem_of_unique_labels. rewrite Hu.
      destruct b; by left.
  - destruct (decide (1%Z ∈ y_true ++ y_pred)) as [Hin|Hout].
    + rewrite bool_decide_eq_true_2 by done.
      apply mem_unique_labels in Hin. rewrite Hu in Hin. by destruct a, b.
    + rewrite bool_decide_eq_false_2 by done. destruct b; [|done].
      exfalso. apply Hout, elem_of_unique_labels. rewrite Hu.
      destruct a; [right|]; by left.
Qed.

Lemma classification_report_one_class y_true y_pred name0 name1 :
  length y_true = length y_pred ->
  Forall binary y_true -> Forall binary y_pred ->
  ~ (0%Z ∈ y_true ++ y_pred /\ 1%Z ∈ y_true ++ y_pred) ->
  classification_report y_true y_pred [name0; name1] = Raise ValueError.
Proof.
  intros Hlen Ht Hp Hnot. unfold classification_report, check_targets.
  rewrite Hlen, Nat.eqb_refl. unfold mbind, result_bind, Py.bind.
  rewrite unique_labels_binary_exact by done.
  destruct (decide (0%Z ∈ y_true ++ y_pred)) as [H0|H0];
    destruct (decide (1%Z ∈ y_true ++ y_pred)) as [H1|H1];
    rewrite ?(bool_decide_eq_true_2 _ H0), ?(bool_decide_eq_false_2 _ H0),
      ?(bool_decide_eq_true_2 _ H1), ?(bool_decide_eq_false_2 _ H1);
    try done.
  exfalso. auto.
Qed.

(** ** Counting on binary labels *)



Section Statistics.
Local Open Scope Q_scope.

Lemma of_nat_plus a b : Stats.of_nat (a + b) == Stats.of_nat a + Stats.of_nat b.
Proof.
  unfold Stats.of_nat. by rewrite Nat2Z.inj_add, inject_Z_plus.
Qed.

(** ** Mean and median of values in the unit interval *)

(** Below eight entries the sum is the plain loop. *)
Lemma sum_small l : (length l < 8)%nat -> Stats.sum l = foldl B64.add 0 l.
Proof.
  intros Hl. unfold Stats.sum.
  apply Nat.ltb_lt in Hl. destruct l; simpl in *; by rewrite ?Hl.
Qed.

(** The counts up to eight are floats. *)
Lemma rnd_small_count j :
  (j <= 8)%nat -> B64.rnd (Stats.of_nat j) = Stats.of_nat j.
Proof.
  intros Hj. do 9 (destruct j as [|j]; [by vm_compute|]). lia.
Qed.

Lemma loop_sum_unit l (acc : Q) (k : nat) :
  Forall unit_interval l -> (k + length l <= 8)%nat ->
  0 <= acc <= Stats.of_nat k ->
  0 <= foldl B64.add acc l <= Stats.of_nat (k + length l).
Proof.
  intros Hl. revert acc k.
  induction Hl as [|x l [Hx0 Hx1] _ IH]; intros acc k Hk [Ha0 Ha1]; simpl.
  - by rewrite Nat.add_0_r.
  - simpl in Hk. replace (k + S (length l))%nat with (S k + length l)%nat by lia.
    apply IH; [lia|]. unfold B64.add. split.
    + apply rnd_nonneg. lra.
    + rewrite <- (rnd_small_count (S k)) by lia.
      apply rnd_mono; [lra|]. rewrite of_nat_S. lra.
Qed.

Lemma sum_unit l :
  Forall unit_interval l -> (length l < 8)%nat ->
  0 <= Stats.sum l <= Stats.of_nat (length l).
Proof.
  intros Hl Hlen. rewrite sum_small by done.
  apply (loop_sum_unit l 0 0 Hl); [simpl; lia|]. split; apply Qle_refl.
Qed.

Lemma mean_unit l :
  Forall unit_interval l -> l <> [] -> (length l < 8)%nat ->
  unit_interval (Stats.mean l).
Proof.
  intros Hl Hne Hlen. destruct (sum_unit l Hl Hlen) as [H0 H1].
  assert (Hpos : 0 < Stats.of_nat (length l)).
  { unfold Stats.of_nat. change 0 with (inject_Z 0). rewrite <- Zlt_Qlt.
    destruct l; [done|]. simpl. lia. }
  unfold Stats.mean, B64.div. apply rnd_unit. split.
  - apply Qle_shift_div_l; [done|]. by rewrite Qmult_0_l.
  - apply Qle_shift_div_r; [done|]. by rewrite Qmult_1_l.
Qed.

Lemma insert_sorted_Forall (P : Q -> Prop) x l :
  P x -> Forall P l -> Forall P (Stats.insert_sorted x l).
Proof.
  intros Hx. induction 1 as [|z l Hz Hl IH]; simpl.
  - by constructor.
  - destruct (Qle_bool x z); repeat constructor; done.
Qed.

Lemma sort_Forall (P : Q -> Prop) l : Forall P l -> Forall P (Stats.sort l).
Proof.
  induction 1 as [|x l Hx _ IH]; simpl; [constructor|].
  by apply insert_sorted_Forall.
Qed.

Lemma nth_unit l i : Forall unit_interval l -> unit_interval (nth i l 0).
Proof.
  intros Hl. revert i. induction Hl as [|x l Hx _ IH]; intros [|i]; simpl;
    try done; split; discriminate.
Qed.

Lemma median_unit l : Forall unit_interval l -> unit_interval (Stats.median l).
Proof.
  intros Hl. unfold Stats.median.
  pose proof (sort_Forall _ _ Hl) as Hs.
  destruct (Nat.even _).
  - apply mean_unit; [|done|simpl; lia]. repeat constructor; by apply nth_unit.
  - by apply nth_unit.
Qed.
End Statistics.

(** ** The cells on every input, the folds, the hold-out cells *)

(** X6.  In every fold the splitter returns, the training indices are
    exactly the indices below [n] that are not test indices (so no row is
    both fitted and predicted in a fold), both arrays together have [n]
    entries, and both arrays are strictly increasing: the shuffle decides
    which rows a fold holds, never their order. *)
Theorem fold_index_arrays_complementary_and_increasing (kf : KFold.t)
    (draw : nat -> nat) (n : nat) (folds : list (list nat * list nat))
    (i : nat) (train test : list nat) :
  KFold.split kf draw n n = Ok folds ->
  folds !! i = Some (train, test) ->
  (forall x, x ∈ train <-> x < n /\ x ∉ test)
  /\ (forall x, x ∈ test -> x < n)
  /\ length train + length test = n
  /\ (forall p q a b, p < q -> train !! p = Some a -> train !! q = Some b ->
        a < b)
  /\ (forall p q a b, p < q -> test !! p = Some a -> test !! q = Some b ->
        a < b).
Proof.
  intros Hsplit Hi.
  destruct (kfold_split_fold_shape kf draw n folds i train test Hsplit Hi)
    as (Htrain & Hinc1 & Hinc2).
  split; [done|]. split; [|split; [|done]].
  - revert Hsplit Hi. unfold KFold.split. rewrite Nat.eqb_refl. simpl.
    destruct (n <? KFold.n_splits kf); [done|]. intros [= <-].
    rewrite list_lookup_fmap.
    destruct (KFold.iter_test_indices kf draw n !! i) as [t|]; [|done].
    simpl. intros [= <- <-] x Hx.
    by apply test_indices_elem_of in Hx as [? _].
  - revert Hsplit Hi. unfold KFold.split. rewrite Nat.eqb_refl. simpl.
    destruct (n <? KFold.n_splits kf); [done|]. intros [= <-].
    rewrite list_lookup_fmap.
    destruct (KFold.iter_test_indices kf draw n !! i) as [t|]; [|done].
    simpl. intros [= <- <-]. rewrite <- length_app.
    rewrite mask_select_complement.
    + apply length_seq.
    + unfold Np.arange. by rewrite test_mask_length, length_seq.
Qed.

Section More.
Context `{Classifier}.
Variable np_sqrt : Q -> Q.

(** X1.  The topology pipeline has the same coupling as the magnetism one:
    when [fit] discards what an earlier [fit] left, the estimator leaving
    the topology cross-validation cell is the loaded one fitted on the
    training rows of the last fold, and the topology hold-out score is
    computed with exactly that estimator. *)
Theorem topology_holdout_scored_by_last_fold_fit (draw : nat -> nat)
    (loaded : model) (X_train : list sample) (y_train : list label)
    (X_test : list sample) (y_test : list label) :
  (forall m X1 y1 X2 y2, fit (fit m X1 y1) X2 y2 = fit m X2 y2) ->
  5 <= length X_train -> length y_train = length X_train ->
  Forall binary y_train ->
  X_test <> [] -> length y_test = length X_test ->
  exists folds train test,
    KFold.split kf5 draw (length X_train) (length y_train) = Ok folds
    /\ last folds = Some (train, test)
    /\ let last_fit :=
         fit loaded (Run.rows X_train train) (Run.rows y_train train) in
       let '(st, acc, _) :=
         Topology.pipeline np_sqrt draw loaded X_train y_train X_test y_test in
       Topology.clf st = foldl (Run.refit X_train y_train) loaded folds
       /\ Topology.clf st = last_fit
       /\ acc = Topology.holdout_score last_fit X_test y_test
       /\ exists a, acc = Ok a.
Proof.
  intros Hforget Hn Hlen Hbin Hne Hlen'.
  destruct (run_ok X_train y_train 1%Z 0%Z Hlen Hbin
              ltac:(by right) ltac:(by left) draw 5 loaded ltac:(lia))
    as (folds & Hsplit & Hfolds & Hgood & Hrun).
  destruct (last folds) as [[train test]|] eqn:Hlast; cycle 1.
  { apply last_None in Hlast. by subst folds. }
  exists folds, train, test. split; [done|]. split; [done|].
  unfold Topology.pipeline. rewrite topology_cross_validation, Hrun.
  cbn [Run.final Run.ended Topology.clf].
  apply last_Some in Hlast as [front ->].
  assert (Hfit : foldl (Run.refit X_train y_train) loaded
                   (front ++ [(train, test)])
                 = fit loaded (Run.rows X_train train)
                     (Run.rows y_train train)).
  { rewrite foldl_app. simpl. unfold Run.refit at 1. simpl.
    by apply refit_forgets. }
  split; [done|]. split; [done|]. rewrite Hfit.
  split; [done|].
  change (Ok tt ≫= _) with (Topology.holdout_score
    (fit loaded (Run.rows X_train train) (Run.rows y_train train))
    X_test y_test).
  unfold Topology.holdout_score.
  destruct (score_fraction (fit loaded (Run.rows X_train train)
              (Run.rows y_train train)) X_test y_test Hne Hlen')
    as (acc & -> & _).
  by eexists.
Qed.

(** X2.  On a binary-labelled training set of at least five rows the
    topology cell ends normally after five folds; fold [i] is fitted on the
    test indices of the other folds and position [i] of [topo_scores] and
    [triv_scores] holds the F1 value of that fold for positive label 1 and
    0. *)
Theorem topology_every_fold_fitted_predicted_scored (draw : nat -> nat)
    (loaded : model) (X_train : list sample) (y_train : list label) :
  5 <= length X_train -> length y_train = length X_train ->
  Forall binary y_train ->
  exists folds,
    KFold.split kf5 draw (length X_train) (length y_train) = Ok folds
    /\ length folds = 5
    /\ let '(st, r) :=
         Topology.cross_validation np_sqrt draw X_train y_train
           (Topology.init loaded) in
       r = Ok tt
       /\ length (Topology.topo_scores st) = 5
       /\ length (Topology.triv_scores st) = 5
       /\ forall i train test, folds !! i = Some (train, test) ->
            let before :=
              foldl (Run.refit X_train y_train) loaded (take i folds) in
            let fitted :=
              fit before (Run.rows X_train train) (Run.rows y_train train) in
            let y_true := Run.rows y_train test in
            let y_pred := predict fitted (Run.rows X_train test) in
            train ≡ₚ concat (map snd (delete i folds))
            /\ exists f1s_topo f1s_triv,
                 f1_score y_true y_pred 1 = Ok f1s_topo
                 /\ f1_score y_true y_pred 0 = Ok f1s_triv
                 /\ Topology.topo_scores st !! i = Some f1s_topo
                 /\ Topology.triv_scores st !! i = Some f1s_triv.
Proof.
  intros Hn Hlen Hbin.
  destruct (run_ok X_train y_train 1%Z 0%Z Hlen Hbin
              ltac:(by right) ltac:(by left) draw 5 loaded ltac:(lia))
    as (folds & Hsplit & Hfolds & Hgood & Hrun).
  exists folds. split; [done|]. split; [done|].
  rewrite topology_cross_validation, Hrun.
  cbn [Run.final Run.ended Run.pairs Topology.topo_scores
       Topology.triv_scores].
  split; [done|].
  split; [by rewrite length_map, scores_length|].
  split; [by rewrite length_map, scores_length|].
  intros i train test Hi.
  set (before := foldl (Run.refit X_train y_train) loaded (take i folds)).
  rewrite Forall_lookup in Hgood.
  split.
  { rewrite Hlen in Hsplit.
    eapply (kfold_train_union 5); [|exact Hsplit|exact Hi]. lia. }
  exists (Run.fold_f1 X_train y_train before (train, test) 1),
         (Run.fold_f1 X_train y_train before (train, test) 0).
  split; [|split].
  - apply (fold_f1_score X_train y_train Hlen Hbin before (train, test));
      [by apply Hgood with i|by right].
  - apply (fold_f1_score X_train y_train Hlen Hbin before (train, test));
      [by apply Hgood with i|by left].
  - rewrite !list_lookup_fmap.
    by rewrite (scores_lookup X_train y_train 1%Z 0%Z loaded folds i _ Hi).
Qed.

(** X3.  A training set whose labels and rows differ in number, or with
    fewer than five rows, stops either cross-validation cell with
    ValueError before anything happens: the estimator is still the loaded
    one, no score is recorded and nothing is printed. *)
Theorem cells_refuse_misaligned_or_short_training_set (draw : nat -> nat)
    (loaded : model) (X_train : list sample) (y_train : list label) :
  length y_train <> length X_train \/ length X_train < 5 ->
  Magnetism.cross_validation np_sqrt draw X_train y_train
    (Magnetism.init loaded)
  = (Magnetism.init loaded, Raise ValueError)
  /\ Topology.cross_validation np_sqrt draw X_train y_train
       (Topology.init loaded)
     = (Topology.init loaded, Raise ValueError).
Proof.
  intros Hbad.
  rewrite magnetism_cross_validation, topology_cross_validation.
  by rewrite (run_split_raises X_train y_train 1%Z 0%Z draw 5 loaded Hbad).
Qed.

(** X4.  Whatever the input, a cross-validation cell either ends normally
    or raises ValueError: the index arrays the splitter hands to the loop
    are always within the data, so indexing never raises IndexError. *)
Theorem cells_raise_nothing_but_value_error (draw : nat -> nat)
    (loaded : model) (X_train : list sample) (y_train : list label) :
  let '(_, rm) :=
    Magnetism.cross_validation np_sqrt draw X_train y_train
      (Magnetism.init loaded) in
  let '(_, rt) :=
    Topology.cross_validation np_sqrt draw X_train y_train
      (Topology.init loaded) in
  (rm = Ok tt \/ rm = Raise ValueError)
  /\ (rt = Ok tt \/ rt = Raise ValueError).
Proof.
  rewrite magnetism_cross_validation, topology_cross_validation.
  pose proof (run_raises_value_error X_train y_train 1%Z 0%Z draw 5 loaded)
    as Hr.
  destruct (Run.ended _) as [[]|e]; [auto|].
  rewrite (Hr e) by (lia || done). auto.
Qed.

(** X5.  After either cell, however it ended, the two score sequences
    have the same length; that length is 5 when the cell ended normally and
    less than 5 when it raised; and the cell printed two lines per recorded
    fold, plus the two summary lines exactly when it ended normally. *)
Theorem score_and_line_counts_on_every_outcome (draw : nat -> nat)
    (loaded : model) (X_train : list sample) (y_train : list label) :
  let '(sm, rm) :=
    Magnetism.cross_validation np_sqrt draw X_train y_train
      (Magnetism.init loaded) in
  let '(st, rt) :=
    Topology.cross_validation np_sqrt draw X_train y_train
      (Topology.init loaded) in
  length (Magnetism.afm_scores sm) = length (Magnetism.fm_scores sm)
  /\ (if is_ok rm then length (Magnetism.fm_scores sm) = 5
      else length (Magnetism.fm_scores sm) < 5)
  /\ length (Magnetism.stdout sm)
     = 2 * length (Magnetism.fm_scores sm) + (if is_ok rm then 2 else 0)
  /\ length (Topology.triv_scores st) = length (Topology.topo_scores st)
  /\ (if is_ok rt then length (Topology.topo_scores st) = 5
      else length (Topology.topo_scores st) < 5)
  /\ length (Topology.stdout st)
     = 2 * length (Topology.topo_scores st) + (if is_ok rt then 2 else 0).
Proof.
  rewrite magnetism_cross_validation, topology_cross_validation.
  cbn [Magnetism.fm_scores Magnetism.afm_scores Magnetism.stdout
       Topology.topo_scores Topology.triv_scores Topology.stdout].
  pose proof (run_length X_train y_train 1%Z 0%Z draw loaded) as Hlen.
  simpl in Hlen.
  set (o := Run.run draw X_train y_train 5 1 0 loaded) in *.
  unfold Run.printed. rewrite !length_app, !zip_fst_snd, !fold_lines_length.
  rewrite !length_map.
  destruct (is_ok (Run.ended o)); simpl; repeat split; lia.
Qed.

(** X7.  What the loaded estimator had learned never reaches the
    cross-validation results: two loaded estimators that [fit] maps to the
    same estimator on every training set give the same score sequences, the
    same printed lines and the same outcome, in both cells. *)
Theorem loaded_fitted_state_does_not_reach_the_scores (draw : nat -> nat)
    (loaded loaded' : model) (X_train : list sample) (y_train : list label) :
  (forall X y, fit loaded X y = fit loaded' X y) ->
  let '(sm, rm) :=
    Magnetism.cross_validation np_sqrt draw X_train y_train
      (Magnetism.init loaded) in
  let '(sm', rm') :=
    Magnetism.cross_validation np_sqrt draw X_train y_train
      (Magnetism.init loaded') in
  let '(st, rt) :=
    Topology.cross_validation np_sqrt draw X_train y_train
      (Topology.init loaded) in
  let '(st', rt') :=
    Topology.cross_validation np_sqrt draw X_train y_train
      (Topology.init loaded') in
  Magnetism.fm_scores sm = Magnetism.fm_scores sm'
  /\ Magnetism.afm_scores sm = Magnetism.afm_scores sm'
  /\ Magnetism.stdout sm = Magnetism.stdout sm'
  /\ rm = rm'
  /\ Topology.topo_scores st = Topology.topo_scores st'
  /\ Topology.triv_scores st = Topology.triv_scores st'
  /\ Topology.stdout st = Topology.stdout st'
  /\ rt = rt'.
Proof.
  intros Hfit.
  rewrite !magnetism_cross_validation, !topology_cross_validation.
  cbn [Magnetism.fm_scores Magnetism.afm_scores Magnetism.stdout
       Topology.topo_scores Topology.triv_scores Topology.stdout].
  destruct (run_same_refit X_train y_train 1%Z 0%Z draw 5 loaded loaded' Hfit)
    as [-> ->].
  done.
Qed.

(** X8.  The hold-out accuracy cell raises exactly when the held-out set
    is empty or its labels and rows differ in number, and then it raises
    ValueError; otherwise its value lies between 0 and 1.  The topology
    cell computes the same function as the magnetism cell. *)
Theorem holdout_score_outcome (c : model) (X_test : list sample)
    (y_test : list label) :
  match Magnetism.holdout_score c X_test y_test with
  | Ok a =>
      X_test <> [] /\ length y_test = length X_test /\ unit_interval a
  | Raise e =>
      e = ValueError /\ (X_test = [] \/ length y_test <> length X_test)
  end
  /\ Topology.holdout_score c X_test y_test
     = Magnetism.holdout_score c X_test y_test.
Proof.
  split; [|done].
  destruct X_test as [|x X'] eqn:HX; [by split; [|left]|].
  destruct (decide (length y_test = length (x :: X'))) as [Hlen|Hlen].
  - destruct (score_fraction c (x :: X') y_test ltac:(done) Hlen)
      as (acc & Hacc & Heq).
    unfold Magnetism.holdout_score. rewrite Hacc.
    unfold mbind, result_bind, Py.bind.
    split; [done|]. split; [done|].
    apply round_two_decimals_unit. rewrite Heq. apply rnd_unit.
    apply fraction_unit.
    + etrans; [apply length_filter|].
      rewrite length_zip_with. lia.
    + rewrite Hlen. simpl. lia.
  - unfold Magnetism.holdout_score, Estimator.score,
      Estimator.predict_checked, accuracy_score, check_targets.
    change (length (x :: X') =? 0) with false. cbv iota.
    unfold mbind, result_bind, Py.bind. rewrite predict_length.
    destruct (Nat.eqb_spec (length y_test) (length (x :: X'))); [done|].
    split; [done|by right].
Qed.

(** X9.  On binary held-out labels and predictions the report cell
    raises ValueError whenever one of the two label codes occurs neither
    among the labels nor among the predictions: two class names are given
    for a single class. *)
Theorem report_refused_unless_both_classes_occur (c : model)
    (X_test : list sample) (y_test : list label) :
  X_test <> [] -> length y_test = length X_test ->
  Forall binary y_test -> Forall binary (predict c X_test) ->
  ~ (0%Z ∈ y_test ++ predict c X_test /\ 1%Z ∈ y_test ++ predict c X_test) ->
  Magnetism.holdout_report c X_test y_test = Raise ValueError
  /\ Topology.holdout_report c X_test y_test = Raise ValueError.
Proof.
  intros Hne Hlen Ht Hp Hnot.
  assert (Hl : length y_test = length (predict c X_test)).
  { by rewrite predict_length. }
  assert (Hpred : Estimator.predict_checked c X_test = Ok (predict c X_test)).
  { unfold Estimator.predict_checked. by destruct X_test. }
  unfold Magnetism.holdout_report, Topology.holdout_report.
  rewrite Hpred. unfold mbind, result_bind, Py.bind.
  split; by apply classification_report_one_class.
Qed.


(** X11.  When the cross-validation cell ended normally, the mean and the
    median printed in each summary line are those of five values between 0
    and 1, and lie between 0 and 1 themselves, for both tasks. *)
Theorem summary_mean_and_median_within_unit_interval (draw : nat -> nat)
    (loaded : model) (X_train : list sample) (y_train : list label) :
  (Magnetism.cross_validation np_sqrt draw X_train y_train
     (Magnetism.init loaded)).2 = Ok tt ->
  let sm :=
    (Magnetism.cross_validation np_sqrt draw X_train y_train
       (Magnetism.init loaded)).1 in
  let st :=
    (Topology.cross_validation np_sqrt draw X_train y_train
       (Topology.init loaded)).1 in
  unit_interval (Stats.mean (Magnetism.fm_scores sm))
  /\ unit_interval (Stats.median (Magnetism.fm_scores sm))
  /\ unit_interval (Stats.mean (Magnetism.afm_scores sm))
  /\ unit_interval (Stats.median (Magnetism.afm_scores sm))
  /\ unit_interval (Stats.mean (Topology.topo_scores st))
  /\ unit_interval (Stats.median (Topology.topo_scores st))
  /\ unit_interval (Stats.mean (Topology.triv_scores st))
  /\ unit_interval (Stats.median (Topology.triv_scores st)).
Proof.
  rewrite magnetism_cross_validation, topology_cross_validation.
  cbn [fst snd Magnetism.fm_scores Magnetism.afm_scores
       Topology.topo_scores Topology.triv_scores].
  intros Hok.
  pose proof (run_length X_train y_train 1%Z 0%Z draw loaded) as Hlen.
  simpl in Hlen. rewrite Hok in Hlen. simpl in Hlen.
  pose proof (run_unit X_train y_train 1%Z 0%Z draw 5 loaded) as Hunit.
  set (ps := Run.pairs _) in *.
  assert (H1 : Forall unit_interval (map fst ps)).
  { apply Forall_fmap. eapply Forall_impl; [exact Hunit|]. by intros ? []. }
  assert (H2 : Forall unit_interval (map snd ps)).
  { apply Forall_fmap. eapply Forall_impl; [exact Hunit|]. by intros ? []. }
  assert (N1 : map fst ps <> []) by (destruct ps; done).
  assert (N2 : map snd ps <> []) by (destruct ps; done).
  assert (L1 : length (map fst ps) < 8) by (rewrite length_map; lia).
  assert (L2 : length (map snd ps) < 8) by (rewrite length_map; lia).
  repeat split; (by apply mean_unit) || (by apply median_unit).
Qed.

End More.

Section MoreReport.
Context `{Classifier}.

(** X12.  The f1 column of the report is the metric of the fold loop: on
    the held-out labels and predictions, the AFM row holds the value of
    [f1_score] with positive label 0 and the FM row the value with positive
    label 1; precision, recall and f1 of every class row lie between 0 and
    1. *)
Theorem report_f1_column_is_the_fold_metric (c : model)
    (X_test : list sample) (y_test : list label) :
  X_test <> [] -> length y_test = length X_test ->
  Forall binary y_test -> Forall binary (predict c X_test) ->
  0%Z ∈ y_test ++ predict c X_test -> 1%Z ∈ y_test ++ predict c X_test ->
  exists rep f1_afm f1_fm,
    Magnetism.holdout_report c X_test y_test = Ok rep
    /\ f1_score y_test (predict c X_test) 0 = Ok f1_afm
    /\ f1_score y_test (predict c X_test) 1 = Ok f1_fm
    /\ map (fun row => (row.1, f1 row.2)) (rows rep)
       = [("AFM"%string, f1_afm); ("FM"%string, f1_fm)]
    /\ Forall (fun row => unit_interval (precision row.2)
                          /\ unit_interval (recall row.2)
                          /\ unit_interval (f1 row.2)) (rows rep).
Proof.
  intros Hne Hlen Ht Hp H0 H1.
  assert (Hl : length y_test = length (predict c X_test)).
  { by rewrite predict_length. }
  assert (Hpred : Estimator.predict_checked c X_test = Ok (predict c X_test)).
  { unfold Estimator.predict_checked. by destruct X_test. }
  destruct (classification_report_rows y_test (predict c X_test) "AFM" "FM")
    as (rep & Hrep & Hrows); try done.
  exists rep. eexists _, _.
  split.
  { unfold Magnetism.holdout_report. by rewrite Hpred. }
  split; [apply f1_score_binary; try done; by left|].
  split; [apply f1_score_binary; try done; by right|].
  rewrite Hrows. split; [done|].
  repeat constructor; simpl;
    try apply (prf_divide_unit _ _ (count_both_le_pred _ _ _));
    try apply (prf_divide_unit _ _ (count_both_le_true _ _ _));
    apply f1_unit.
Qed.

End MoreReport.

Ltac not_in_list H :=
  vm_compute in H;
  repeat (apply elem_of_cons in H as [H|H]; [discriminate H|]);
  by apply elem_of_nil in H.

(** The topology pipeline on the sample data. *)
Lemma topology_holdout_scored_by_last_fold_fit_witness :
  exists folds train test,
    KFold.split kf5 Sample.draw 12 12 = Ok folds
    /\ last folds = Some (train, test)
    /\ Topology.clf
         (@Topology.pipeline nn_classifier sqrt16 Sample.draw Sample.loaded
            Sample.X_train Sample.y_train Sample.X_test Sample.y_test).1.1
       = NearestNeighbour.nn_fit Sample.loaded
           (Run.rows Sample.X_train train) (Run.rows Sample.y_train train).
Proof.
  destruct (@topology_holdout_scored_by_last_fold_fit nn_classifier sqrt16
              Sample.draw Sample.loaded Sample.X_train Sample.y_train
              Sample.X_test Sample.y_test)
    as (folds & train & test & Hsplit & Hlast & Hrun).
  - reflexivity.
  - simpl. lia.
  - reflexivity.
  - solve_binary.
  - by vm_compute.
  - reflexivity.
  - exists folds, train, test. split; [exact Hsplit|]. split; [exact Hlast|].
    destruct (Topology.pipeline _ _ _ _ _ _ _) as [[st acc] rep].
    destruct Hrun as (_ & Hclf & _). exact Hclf.
Defined.

(** Five folds and five Topological scores on the sample data. *)
Lemma topology_every_fold_fitted_predicted_scored_witness :
  exists folds,
    KFold.split kf5 Sample.draw 12 12 = Ok folds
    /\ length folds = 5
    /\ length (Topology.topo_scores
                 (@Topology.cross_validation nn_classifier sqrt16 Sample.draw
                    Sample.X_train Sample.y_train
                    (@Topology.init nn_classifier Sample.loaded)).1) = 5.
Proof.
  destruct (@topology_every_fold_fitted_predicted_scored nn_classifier sqrt16
              Sample.draw Sample.loaded Sample.X_train Sample.y_train)
    as (folds & Hsplit & Hlen & Hrun).
  - simpl. lia.
  - reflexivity.
  - solve_binary.
  - exists folds. split; [exact Hsplit|]. split; [exact Hlen|].
    destruct (Topology.cross_validation _ _ _ _ _) as [st r].
    destruct Hrun as (_ & Hfm & _). exact Hfm.
Defined.

(** Twelve rows with two labels: the magnetism cell stops at once. *)
Lemma cells_refuse_misaligned_or_short_training_set_witness :
  @Magnetism.cross_validation nn_classifier sqrt16 Sample.draw
    Sample.X_train [0; 1]%Z (@Magnetism.init nn_classifier Sample.loaded)
  = (@Magnetism.init nn_classifier Sample.loaded, Raise ValueError).
Proof.
  destruct (@cells_refuse_misaligned_or_short_training_set nn_classifier
              sqrt16 Sample.draw Sample.loaded Sample.X_train [0; 1]%Z)
    as [Hmag _].
  - left. simpl. lia.
  - exact Hmag.
Defined.

(** Fold 1 of the split of twelve samples. *)
Lemma fold_index_arrays_complementary_and_increasing_witness :
  length [3; 4; 5; 6; 7; 8; 9; 10; 11] + length [0; 1; 2] = 12.
Proof.
  destruct (fold_index_arrays_complementary_and_increasing kf5 Sample.draw 12
              [([0; 1; 2; 3; 4; 5; 6; 7; 8], [9; 10; 11]);
               ([3; 4; 5; 6; 7; 8; 9; 10; 11], [0; 1; 2]);
               ([0; 1; 2; 5; 6; 7; 8; 9; 10; 11], [3; 4]);
               ([0; 1; 2; 3; 4; 7; 8; 9; 10; 11], [5; 6]);
               ([0; 1; 2; 3; 4; 5; 6; 9; 10; 11], [7; 8])]
              1 [3; 4; 5; 6; 7; 8; 9; 10; 11] [0; 1; 2])
    as (_ & _ & Hlen & _).
  - vm_compute. reflexivity.
  - reflexivity.
  - exact Hlen.
Defined.

(** The sample run from the loaded estimator and from an empty one. *)
Lemma loaded_fitted_state_does_not_reach_the_scores_witness :
  Magnetism.fm_scores
    (@Magnetism.cross_validation nn_classifier sqrt16 Sample.draw
       Sample.X_train Sample.y_train
       (@Magnetism.init nn_classifier Sample.loaded)).1
  = Magnetism.fm_scores
      (@Magnetism.cross_validation nn_classifier sqrt16 Sample.draw
         Sample.X_train Sample.y_train
         (@Magnetism.init nn_classifier [])).1.
Proof.
  pose proof (@loaded_fitted_state_does_not_reach_the_scores nn_classifier
                sqrt16 Sample.draw Sample.loaded [] Sample.X_train
                Sample.y_train (fun _ _ => eq_refl)) as Hsame.
  do 4 (apply let_pair_elim in Hsame).
  exact (proj1 Hsame).
Defined.

(** Two held-out rows of class 1, both predicted as class 1. *)
Lemma report_refused_unless_both_classes_occur_witness :
  @Magnetism.holdout_report nn_classifier [(0, 1)]%Z [2; 12]%Z [1; 1]%Z
  = Raise ValueError.
Proof.
  destruct (@report_refused_unless_both_classes_occur nn_classifier
              [(0, 1)]%Z [2; 12]%Z [1; 1]%Z)
    as [Hmag _].
  - by vm_compute.
  - reflexivity.
  - solve_binary.
  - solve_binary.
  - intros [H0 _]. not_in_list H0.
  - exact Hmag.
Defined.


(** The FM mean of the sample run. *)
Lemma summary_mean_and_median_within_unit_interval_witness :
  unit_interval
    (Stats.mean
       (Magnetism.fm_scores
          (@Magnetism.cross_validation nn_classifier sqrt16 Sample.draw
             Sample.X_train Sample.y_train
             (@Magnetism.init nn_classifier Sample.loaded)).1)).
Proof.
  destruct (@summary_mean_and_median_within_unit_interval nn_classifier
              sqrt16 Sample.draw Sample.loaded Sample.X_train Sample.y_train)
    as (Hmean & _).
  - vm_compute. reflexivity.
  - exact Hmean.
Defined.

(** The class rows of the sample report. *)
Lemma report_f1_column_is_the_fold_metric_witness :
  exists rep,
    @Magnetism.holdout_report nn_classifier Sample.loaded Sample.X_test
      Sample.y_test = Ok rep
    /\ Forall (fun row => unit_interval (f1 row.2)) (rows rep).
Proof.
  destruct (@report_f1_column_is_the_fold_metric nn_classifier Sample.loaded
              Sample.X_test Sample.y_test)
    as (rep & f0 & f1 & Hrep & _ & _ & _ & Hunit).
  - by vm_compute.
  - reflexivity.
  - solve_binary.
  - solve_binary.
  - by left.
  - right. by left.
  - exists rep. split; [exact Hrep|].
    eapply Forall_impl; [exact Hunit|]. by intros ? (_ & _ & ?).
Defined.
